(** * NdiMedia player: a shallow embedding of [FNdiMediaPlayer]

    The development follows [Source/NdiMedia/Private/Player/NdiMediaPlayer.cpp].
    The player is one C++ object that talks to four kinds of external
    collaborators: the NDI receiver library, and the audio, texture and binary
    sinks of the media framework.  Each collaborator is an interface here (a
    type class over its own state); the player itself is a record, and every
    member function is a computation in a state-and-failure monad over the
    [World] that holds the player, the collaborators and the trace of the
    outward calls made so far. *)

From Stdlib Require Import ZArith String Ascii List QArith DecimalString Lia.
From stdpp Require Import base option gmap strings list.

Local Open Scope Z_scope.

(** ** Machine integers *)

Module Int.

Definition wrap_unsigned (bits : Z) (x : Z) : Z := x mod 2 ^ bits.

Definition wrap_signed (bits : Z) (x : Z) : Z :=
  (x + 2 ^ (bits - 1)) mod 2 ^ bits - 2 ^ (bits - 1).

Definition to_int32 : Z -> Z := wrap_signed 32.
Definition to_uint32 : Z -> Z := wrap_unsigned 32.
Definition to_int64 : Z -> Z := wrap_signed 64.
Definition to_uint64 : Z -> Z := wrap_unsigned 64.

Definition INT32_MAX : Z := 2 ^ 31 - 1.
Definition INT64_MAX : Z := 2 ^ 63 - 1.

(** [sizeof(int16)], a [size_t]. *)
Definition sizeof_int16 : Z := 2.

End Int.

(** [INDEX_NONE] of the engine's core definitions. *)
Definition INDEX_NONE : Z := -1.

(** ** Strings: the [FString] operations the player uses

    [FString]'s searches ([StartsWith], [Find], [ReplaceInline]) compare
    without regard to case unless told otherwise; the player never asks for a
    case-sensitive search. *)

Module FString.

Local Open Scope string_scope.

Definition IsEmpty (s : string) : bool :=
  match s with EmptyString => true | _ => false end.

Definition Len (s : string) : Z := Z.of_nat (String.length s).

Definition ToLower (c : ascii) : ascii :=
  let n := nat_of_ascii c in
  if ((65 <=? n)%nat && (n <=? 90)%nat)%bool then ascii_of_nat (n + 32) else c.

Definition CharEquals (a b : ascii) : bool := Ascii.eqb (ToLower a) (ToLower b).

Fixpoint StartsWith (s prefix : string) : bool :=
  match prefix, s with
  | EmptyString, _ => true
  | String _ _, EmptyString => false
  | String p prefix', String c s' => CharEquals c p && StartsWith s' prefix'
  end.

Fixpoint RightChop (n : nat) (s : string) : string :=
  match n, s with
  | O, _ => s
  | S _, EmptyString => EmptyString
  | S n', String _ s' => RightChop n' s'
  end.

(** [Find(sub) != INDEX_NONE]. *)
Fixpoint Contains (s sub : string) : bool :=
  StartsWith s sub ||
  match s with
  | EmptyString => false
  | String _ s' => Contains s' sub
  end.

(** [ReplaceInline(from, to)]: every occurrence, left to right, the scan
    resuming after each replaced occurrence.  [skip] counts the characters of
    the occurrence just replaced that are still to be passed over. *)
Fixpoint replace_from (skip : nat) (from to s : string) : string :=
  match s with
  | EmptyString => EmptyString
  | String c s' =>
      match skip with
      | S k => replace_from k from to s'
      | O =>
          if negb (IsEmpty from) && StartsWith s from
          then to ++ replace_from (String.length from - 1) from to s'
          else String c (replace_from O from to s')
      end
  end.

Definition ReplaceInline (from to s : string) : string := replace_from O from to s.

(** [FChar::IsWhitespace] on the ASCII range. *)
Definition IsWhitespace (c : ascii) : bool :=
  let n := nat_of_ascii c in
  ((n =? 32)%nat || ((9 <=? n)%nat && (n <=? 13)%nat))%bool.

Fixpoint Trim (s : string) : string :=
  match s with
  | String c s' => if IsWhitespace c then Trim s' else s
  | EmptyString => EmptyString
  end.

Fixpoint TrimTrailing (s : string) : string :=
  match s with
  | EmptyString => EmptyString
  | String c s' =>
      let t := TrimTrailing s' in
      if IsEmpty t && IsWhitespace c then EmptyString else String c t
  end.

(** [%i] of [FString::Printf].  The player hands it [int64] values; the
    conversion consumes an [int], that is the low 32 bits, read as signed. *)
Definition Printf_i (v : Z) : string :=
  NilZero.string_of_int (Z.to_int (Int.to_int32 v)).

End FString.

(** ** Engine enumerations

    The scoped enumerations of the media framework, one module each so that
    [EMediaState.Paused] reads as [EMediaState::Paused] does. *)

Module EMediaState.
Inductive t := Closed | Paused | Playing | Preparing.
#[global] Instance eq_dec : EqDecision t.
Proof. solve_decision. Defined.
End EMediaState.

Module EMediaEvent.
Inductive t :=
  | MediaClosed | MediaOpened | PlaybackResumed | PlaybackSuspended | TracksChanged.
#[global] Instance eq_dec : EqDecision t.
Proof. solve_decision. Defined.
End EMediaEvent.

(** The player tells [Audio], [Metadata] and [Video] apart from every other
    kind of track. *)
Module EMediaTrackType.
Inductive t := Audio | Caption | Metadata | Script | Subtitle | Text | Video.
#[global] Instance eq_dec : EqDecision t.
Proof. solve_decision. Defined.
End EMediaTrackType.

Module EMediaTextureSinkFormat.
Inductive t :=
  | CharAYUV | CharBGRA | CharBMP | CharNV12 | CharNV21
  | CharUYVY | CharYUY2 | CharYVYU | FloatRGB | FloatRGBA.
#[global] Instance eq_dec : EqDecision t.
Proof. solve_decision. Defined.
End EMediaTextureSinkFormat.

Module EMediaTextureSinkMode.
Inductive t := Buffered | Unbuffered.
End EMediaTextureSinkMode.

Module ELogVerbosity.
Inductive t := Error | Warning | Verbose.
End ELogVerbosity.

(** [FIntPoint]. *)
Record FIntPoint := { X : Z; Y : Z }.

#[global] Instance FIntPoint_eq_dec : EqDecision FIntPoint.
Proof. solve_decision. Defined.

Definition ZeroValue : FIntPoint := {| X := 0; Y := 0 |}.

(** [FTimespan] is a count of ticks; the player only ever wraps an [int64]
    timecode in it. *)
Definition FTimespan := Z.
Definition FTimespan_Zero : FTimespan := 0.

(** ** The options object and the plugin settings *)

(** Modelled from the spec: the option keys of namespace [NdiMedia], whose
    declarations are not part of this file.  The options object is read for a
    color-format selector, a bandwidth-tier selector, an audio channel-count
    hint, an audio sample-rate hint, frame-rate numerator and denominator
    hints, a progressive-flag hint, and video width and height hints. *)
Module NdiMedia.
Inductive FName :=
  | AudioChannelsOption | AudioSampleRateOption | BandwidthOption
  | ColorFormatOption | FrameRateDOption | FrameRateNOption
  | ProgressiveOption | VideoHeightOption | VideoWidthOption.
#[global] Instance eq_dec : EqDecision FName.
Proof. solve_decision. Defined.
End NdiMedia.

(** [IMediaOptions]: the two overloads of [GetMediaOption] the player calls,
    each taking the key and the default value. *)
Record IMediaOptions := {
  GetMediaOption_int64 : NdiMedia.FName -> Z -> Z;
  GetMediaOption_FString : NdiMedia.FName -> string -> string
}.

(** Modelled from the spec: [UNdiMediaSettings], declared outside this file:
    the product and session identity strings and the free-form metadata
    payload that [Open] reads from the default settings object. *)
Record UNdiMediaSettings := {
  ProductName : string;
  ProductDescription : string;
  Manufacturer : string;
  GetVersionName : string;
  SerialNumber : string;
  SessionName : string;
  CustomMetaData : string
}.

(** What the player reads from its surroundings without changing it: the
    default settings object, [FPlatformProcess::ComputerName()], and the
    default value of [SendMetadata]'s [Timecode] argument. *)
Record Platform := {
  Settings : UNdiMediaSettings;
  ComputerName : string;
  DefaultTimecode : Z
}.

(** ** NDI library types *)

(** [NDIlib_recv_instance_t] is a pointer; [None] is [nullptr]. *)
Definition handle := positive.
Definition NDIlib_recv_instance_t := option handle.

(** [NDIlib_recv_color_format_e] and [NDIlib_recv_bandwidth_e]. *)
Definition NDIlib_recv_color_format_e_BGRX_BGRA : Z := 0.
Definition NDIlib_recv_color_format_e_UYVY_BGRA : Z := 1.
Definition NDIlib_recv_bandwidth_highest : Z := 100.

Record NDIlib_source_t := {
  p_ndi_name : option string;
  p_ip_address : option string
}.

Record NDIlib_recv_create_t := {
  source_to_connect_to : NDIlib_source_t;
  color_format : Z;
  bandwidth : Z;
  allow_video_fields : bool
}.

Record NDIlib_video_frame_v2_t := {
  xres : Z;
  yres : Z;
  line_stride_in_bytes : Z;
  video_timecode : Z;
  video_p_data : list Byte.byte
}.

Record NDIlib_audio_frame_v2_t := {
  sample_rate : Z;
  no_channels : Z;
  no_samples : Z;
  audio_timecode : Z;
  audio_p_data : list Q
}.

Record NDIlib_metadata_frame_t := {
  length_ : Z;
  metadata_timecode : Z;
  metadata_p_data : string
}.

(** What one [NDIlib_recv_capture_v2] call hands back: the frame type,
    together with the frame it filled in. *)
Inductive NDIlib_frame_type_e :=
  | NDIlib_frame_type_none
  | NDIlib_frame_type_video (f : NDIlib_video_frame_v2_t)
  | NDIlib_frame_type_audio (f : NDIlib_audio_frame_v2_t)
  | NDIlib_frame_type_metadata (f : NDIlib_metadata_frame_t)
  | NDIlib_frame_type_error
  | NDIlib_frame_type_status_change.

(** Which of the three frame pointers of a capture call is not null. *)
Inductive CaptureKind := CaptureVideo | CaptureAudio | CaptureMetadata.

(** Sinks are held by pointer. *)
Definition ptr := positive.

(** ** The player object

    The data members of [FNdiMediaPlayer], in the order of the constructor's
    initialisers (the class declaration is not part of this file; [CurrentUrl]
    is the one member the constructor leaves to its default).  [AudioSampler]
    points at a sampler object of its own; that object lives in the [World]
    below.  Rates and frame rates are [float]s in the source; the player only
    ever compares them with and assigns them the constants [0.0f] and [1.0f],
    so rationals stand in for them. *)
Record Player := {
  AudioSink : option ptr;
  MetadataSink : option ptr;
  VideoSink : option ptr;
  SelectedAudioTrack : Z;
  SelectedMetadataTrack : Z;
  SelectedVideoTrack : Z;
  CurrentState : EMediaState.t;
  CurrentUrl : string;
  LastAudioChannels : Z;
  LastAudioSampleRate : Z;
  LastBufferDim : FIntPoint;
  LastVideoDim : FIntPoint;
  LastVideoFrameRate : Q;
  Paused : bool;
  ReceiverInstance : NDIlib_recv_instance_t;
  VideoSinkFormat : EMediaTextureSinkFormat.t
}.

(** Assignments to single members. *)
Definition set_AudioSink (v : option ptr) (p : Player) : Player :=
  let '(Build_Player a0 a1 a2 a3 a4 a5 a6 a7 a8 a9 a10 a11 a12 a13 a14 a15) := p in
  Build_Player v a1 a2 a3 a4 a5 a6 a7 a8 a9 a10 a11 a12 a13 a14 a15.
Definition set_MetadataSink (v : option ptr) (p : Player) : Player :=
  let '(Build_Player a0 a1 a2 a3 a4 a5 a6 a7 a8 a9 a10 a11 a12 a13 a14 a15) := p in
  Build_Player a0 v a2 a3 a4 a5 a6 a7 a8 a9 a10 a11 a12 a13 a14 a15.
Definition set_VideoSink (v : option ptr) (p : Player) : Player :=
  let '(Build_Player a0 a1 a2 a3 a4 a5 a6 a7 a8 a9 a10 a11 a12 a13 a14 a15) := p in
  Build_Player a0 a1 v a3 a4 a5 a6 a7 a8 a9 a10 a11 a12 a13 a14 a15.
Definition set_SelectedAudioTrack (v : Z) (p : Player) : Player :=
  let '(Build_Player a0 a1 a2 a3 a4 a5 a6 a7 a8 a9 a10 a11 a12 a13 a14 a15) := p in
  Build_Player a0 a1 a2 v a4 a5 a6 a7 a8 a9 a10 a11 a12 a13 a14 a15.
Definition set_SelectedMetadataTrack (v : Z) (p : Player) : Player :=
  let '(Build_Player a0 a1 a2 a3 a4 a5 a6 a7 a8 a9 a10 a11 a12 a13 a14 a15) := p in
  Build_Player a0 a1 a2 a3 v a5 a6 a7 a8 a9 a10 a11 a12 a13 a14 a15.
Definition set_SelectedVideoTrack (v : Z) (p : Player) : Player :=
  let '(Build_Player a0 a1 a2 a3 a4 a5 a6 a7 a8 a9 a10 a11 a12 a13 a14 a15) := p in
  Build_Player a0 a1 a2 a3 a4 v a6 a7 a8 a9 a10 a11 a12 a13 a14 a15.
Definition set_CurrentState (v : EMediaState.t) (p : Player) : Player :=
  let '(Build_Player a0 a1 a2 a3 a4 a5 a6 a7 a8 a9 a10 a11 a12 a13 a14 a15) := p in
  Build_Player a0 a1 a2 a3 a4 a5 v a7 a8 a9 a10 a11 a12 a13 a14 a15.
Definition set_CurrentUrl (v : string) (p : Player) : Player :=
  let '(Build_Player a0 a1 a2 a3 a4 a5 a6 a7 a8 a9 a10 a11 a12 a13 a14 a15) := p in
  Build_Player a0 a1 a2 a3 a4 a5 a6 v a8 a9 a10 a11 a12 a13 a14 a15.
Definition set_LastAudioChannels (v : Z) (p : Player) : Player :=
  let '(Build_Player a0 a1 a2 a3 a4 a5 a6 a7 a8 a9 a10 a11 a12 a13 a14 a15) := p in
  Build_Player a0 a1 a2 a3 a4 a5 a6 a7 v a9 a10 a11 a12 a13 a14 a15.
Definition set_LastAudioSampleRate (v : Z) (p : Player) : Player :=
  let '(Build_Player a0 a1 a2 a3 a4 a5 a6 a7 a8 a9 a10 a11 a12 a13 a14 a15) := p in
  Build_Player a0 a1 a2 a3 a4 a5 a6 a7 a8 v a10 a11 a12 a13 a14 a15.
Definition set_LastBufferDim (v : FIntPoint) (p : Player) : Player :=
  let '(Build_Player a0 a1 a2 a3 a4 a5 a6 a7 a8 a9 a10 a11 a12 a13 a14 a15) := p in
  Build_Player a0 a1 a2 a3 a4 a5 a6 a7 a8 a9 v a11 a12 a13 a14 a15.
Definition set_LastVideoDim (v : FIntPoint) (p : Player) : Player :=
  let '(Build_Player a0 a1 a2 a3 a4 a5 a6 a7 a8 a9 a10 a11 a12 a13 a14 a15) := p in
  Build_Player a0 a1 a2 a3 a4 a5 a6 a7 a8 a9 a10 v a12 a13 a14 a15.
Definition set_LastVideoFrameRate (v : Q) (p : Player) : Player :=
  let '(Build_Player a0 a1 a2 a3 a4 a5 a6 a7 a8 a9 a10 a11 a12 a13 a14 a15) := p in
  Build_Player a0 a1 a2 a3 a4 a5 a6 a7 a8 a9 a10 a11 v a13 a14 a15.
Definition set_Paused (v : bool) (p : Player) : Player :=
  let '(Build_Player a0 a1 a2 a3 a4 a5 a6 a7 a8 a9 a10 a11 a12 a13 a14 a15) := p in
  Build_Player a0 a1 a2 a3 a4 a5 a6 a7 a8 a9 a10 a11 a12 v a14 a15.
Definition set_ReceiverInstance (v : NDIlib_recv_instance_t) (p : Player) : Player :=
  let '(Build_Player a0 a1 a2 a3 a4 a5 a6 a7 a8 a9 a10 a11 a12 a13 a14 a15) := p in
  Build_Player a0 a1 a2 a3 a4 a5 a6 a7 a8 a9 a10 a11 a12 a13 v a15.
Definition set_VideoSinkFormat (v : EMediaTextureSinkFormat.t) (p : Player) : Player :=
  let '(Build_Player a0 a1 a2 a3 a4 a5 a6 a7 a8 a9 a10 a11 a12 a13 a14 a15) := p in
  Build_Player a0 a1 a2 a3 a4 a5 a6 a7 a8 a9 a10 a11 a12 a13 a14 v.

(** The constructor's member initialisers. *)
Definition FNdiMediaPlayer : Player :=
  {| AudioSink := None;
     MetadataSink := None;
     VideoSink := None;
     SelectedAudioTrack := INDEX_NONE;
     SelectedMetadataTrack := INDEX_NONE;
     SelectedVideoTrack := INDEX_NONE;
     CurrentState := EMediaState.Closed;
     CurrentUrl := EmptyString;
     LastAudioChannels := 0;
     LastAudioSampleRate := 0;
     LastBufferDim := ZeroValue;
     LastVideoDim := ZeroValue;
     LastVideoFrameRate := 0%Q;
     Paused := false;
     ReceiverInstance := None;
     VideoSinkFormat := EMediaTextureSinkFormat.CharUYVY |}.

(** ** Outward calls

    Everything the player does to its collaborators is recorded, in order:
    notifications to the subscribers of [MediaEvent], log lines, calls into
    the NDI library that change it, and calls of sink hooks. *)

Inductive AudioSinkCall :=
  | Call_FlushAudioSink
  | Call_InitializeAudioSink (Channels SampleRate : Z)
  | Call_PauseAudioSink
  | Call_PlayAudioSink (Buffer : list Z) (BufferSize : Z) (Time : FTimespan)
  | Call_ResumeAudioSink
  | Call_ShutdownAudioSink.

Inductive TextureSinkCall :=
  | Call_DisplayTextureSinkBuffer (Time : FTimespan)
  | Call_InitializeTextureSink (OutputDim BufferDim : FIntPoint)
      (Format : EMediaTextureSinkFormat.t) (Mode : EMediaTextureSinkMode.t)
  | Call_ShutdownTextureSink
  | Call_UpdateTextureSinkBuffer (Data : list Byte.byte) (Pitch : Z).

Inductive BinarySinkCall :=
  | Call_InitializeBinarySink
  | Call_ProcessBinarySinkData (Data : string) (Size : Z) (Time Duration : FTimespan)
  | Call_ShutdownBinarySink.

Inductive NdiCall :=
  | Call_recv_add_connection_metadata (h : NDIlib_recv_instance_t) (f : NDIlib_metadata_frame_t)
  | Call_recv_capture_v2 (h : NDIlib_recv_instance_t) (k : CaptureKind) (timeout_in_ms : Z)
  | Call_recv_create_v2 (d : NDIlib_recv_create_t)
  | Call_recv_destroy (h : NDIlib_recv_instance_t)
  | Call_recv_free_metadata (h : NDIlib_recv_instance_t) (f : NDIlib_metadata_frame_t)
  | Call_recv_free_video_v2 (h : NDIlib_recv_instance_t) (f : NDIlib_video_frame_v2_t).

Inductive Event :=
  | Broadcast (e : EMediaEvent.t)
  | UE_LOG (v : ELogVerbosity.t) (msg : string)
  | OnNdi (c : NdiCall)
  | OnAudioSink (s : ptr) (c : AudioSinkCall)
  | OnTextureSink (s : ptr) (c : TextureSinkCall)
  | OnBinarySink (s : ptr) (c : BinarySinkCall).

(** ** The collaborators' interfaces

    Each interface is a class over the collaborator's own state: a hook takes
    the state and gives the next one, with the hook's result when it has one.
    Counts and rates cross these interfaces as mathematical integers. *)

Class IMediaAudioSink (A : Type) := {
  FlushAudioSink : A -> A;
  GetAudioSinkChannels : A -> Z;
  GetAudioSinkSampleRate : A -> Z;
  InitializeAudioSink : Z -> Z -> A -> bool * A;
  PauseAudioSink : A -> A;
  PlayAudioSink : list Z -> Z -> FTimespan -> A -> A;
  ResumeAudioSink : A -> A;
  ShutdownAudioSink : A -> A
}.

Class IMediaTextureSink (V : Type) := {
  DisplayTextureSinkBuffer : FTimespan -> V -> V;
  GetTextureSinkDimensions : V -> FIntPoint;
  GetTextureSinkFormat : V -> EMediaTextureSinkFormat.t;
  InitializeTextureSink :
    FIntPoint -> FIntPoint -> EMediaTextureSinkFormat.t -> EMediaTextureSinkMode.t ->
    V -> bool * V;
  ShutdownTextureSink : V -> V;
  UpdateTextureSinkBuffer : list Byte.byte -> Z -> V -> V
}.

Class IMediaBinarySink (B : Type) := {
  InitializeBinarySink : B -> bool * B;
  ProcessBinarySinkData : string -> Z -> FTimespan -> FTimespan -> B -> B;
  ShutdownBinarySink : B -> B
}.

Class NDIlib (N : Type) := {
  NDIlib_recv_add_connection_metadata :
    NDIlib_recv_instance_t -> NDIlib_metadata_frame_t -> N -> N;
  NDIlib_recv_capture_v2 :
    NDIlib_recv_instance_t -> CaptureKind -> Z -> N -> NDIlib_frame_type_e * N;
  NDIlib_recv_create_v2 : NDIlib_recv_create_t -> N -> NDIlib_recv_instance_t * N;
  NDIlib_recv_destroy : NDIlib_recv_instance_t -> N -> N;
  NDIlib_recv_free_metadata : NDIlib_recv_instance_t -> NDIlib_metadata_frame_t -> N -> N;
  NDIlib_recv_free_video_v2 : NDIlib_recv_instance_t -> NDIlib_video_frame_v2_t -> N -> N;
  NDIlib_recv_get_no_connections : NDIlib_recv_instance_t -> N -> Z;
  NDIlib_util_audio_to_interleaved_16s_v2 : NDIlib_audio_frame_v2_t -> Z -> list Z
}.

Definition notnull {T : Type} (o : option T) : bool :=
  match o with Some _ => true | None => false end.

(** The quotation mark of the metadata payloads. *)
Definition dquote : string := String "034"%char EmptyString.

Section Model.

Context {N A V B : Type}.
Context `{!NDIlib N, !IMediaAudioSink A, !IMediaTextureSink V, !IMediaBinarySink B}.

(** ** The world around the player

    The sinks are owned elsewhere and reached through pointers, so they sit in
    stores indexed by address; a pointer outside its store dangles.
    [AudioSampler] is the receiver instance the sampler object currently polls
    and [SamplesReceived] the function-local static counter of
    [ProcessAudioFrame].  Every entry of [trace] pairs an outward call with
    the player's members as they stood when the call was made. *)
Record World := {
  player : Player;
  AudioSampler : NDIlib_recv_instance_t;
  SamplesReceived : Z;
  ndi : N;
  audio_sinks : gmap ptr A;
  texture_sinks : gmap ptr V;
  binary_sinks : gmap ptr B;
  trace : list (Event * Player)
}.

Definition events (w : World) : list Event := map fst (trace w).

(** ** The monad of member functions

    A member function takes the world to a result and a new world, or fails:
    [None] stands for the crash of a null or dangling dereference and of a
    failed [check]. *)
Definition M (X : Type) : Type := World -> option (X * World).

#[global] Instance M_ret : MRet M := fun X x w => Some (x, w).
#[global] Instance M_bind : MBind M := fun X Y k m w =>
  match m w with
  | Some (x, w') => k x w'
  | None => None
  end.

Definition crash {X : Type} : M X := fun _ => None.

Definition get_player : M Player := fun w => Some (player w, w).

Definition modify (f : Player -> Player) : M unit := fun w =>
  Some (tt, {| player := f (player w); AudioSampler := AudioSampler w;
               SamplesReceived := SamplesReceived w; ndi := ndi w;
               audio_sinks := audio_sinks w; texture_sinks := texture_sinks w;
               binary_sinks := binary_sinks w; trace := trace w |}).

Definition emit (e : Event) : M unit := fun w =>
  Some (tt, {| player := player w; AudioSampler := AudioSampler w;
               SamplesReceived := SamplesReceived w; ndi := ndi w;
               audio_sinks := audio_sinks w; texture_sinks := texture_sinks w;
               binary_sinks := binary_sinks w;
               trace := trace w ++ [(e, player w)] |}).

(** A call into the NDI library that may change it. *)
Definition on_ndi {X : Type} (c : NdiCall) (f : N -> X * N) : M X := fun w =>
  let '(x, n) := f (ndi w) in
  Some (x, {| player := player w; AudioSampler := AudioSampler w;
              SamplesReceived := SamplesReceived w; ndi := n;
              audio_sinks := audio_sinks w; texture_sinks := texture_sinks w;
              binary_sinks := binary_sinks w;
              trace := trace w ++ [(OnNdi c, player w)] |}).

Definition ask_ndi {X : Type} (f : N -> X) : M X := fun w => Some (f (ndi w), w).

(** A hook call on the sink at address [s]. *)
Definition on_audio_sink {X : Type} (s : ptr) (c : AudioSinkCall) (hook : A -> X * A) : M X :=
  fun w =>
    match audio_sinks w !! s with
    | None => None
    | Some a =>
        let '(x, a') := hook a in
        Some (x, {| player := player w; AudioSampler := AudioSampler w;
                    SamplesReceived := SamplesReceived w; ndi := ndi w;
                    audio_sinks := <[s := a']> (audio_sinks w);
                    texture_sinks := texture_sinks w; binary_sinks := binary_sinks w;
                    trace := trace w ++ [(OnAudioSink s c, player w)] |})
    end.

Definition on_texture_sink {X : Type} (s : ptr) (c : TextureSinkCall) (hook : V -> X * V) : M X :=
  fun w =>
    match texture_sinks w !! s with
    | None => None
    | Some v =>
        let '(x, v') := hook v in
        Some (x, {| player := player w; AudioSampler := AudioSampler w;
                    SamplesReceived := SamplesReceived w; ndi := ndi w;
                    audio_sinks := audio_sinks w;
                    texture_sinks := <[s := v']> (texture_sinks w);
                    binary_sinks := binary_sinks w;
                    trace := trace w ++ [(OnTextureSink s c, player w)] |})
    end.

Definition on_binary_sink {X : Type} (s : ptr) (c : BinarySinkCall) (hook : B -> X * B) : M X :=
  fun w =>
    match binary_sinks w !! s with
    | None => None
    | Some b =>
        let '(x, b') := hook b in
        Some (x, {| player := player w; AudioSampler := AudioSampler w;
                    SamplesReceived := SamplesReceived w; ndi := ndi w;
                    audio_sinks := audio_sinks w; texture_sinks := texture_sinks w;
                    binary_sinks := <[s := b']> (binary_sinks w);
                    trace := trace w ++ [(OnBinarySink s c, player w)] |})
    end.

(** The [const] queries of a sink leave no mark. *)
Definition ask_audio_sink {X : Type} (s : ptr) (q : A -> X) : M X := fun w =>
  match audio_sinks w !! s with
  | None => None
  | Some a => Some (q a, w)
  end.

Definition ask_texture_sink {X : Type} (s : ptr) (q : V -> X) : M X := fun w =>
  match texture_sinks w !! s with
  | None => None
  | Some v => Some (q v, w)
  end.

(** A hook without a result. *)
Definition void {S : Type} (f : S -> S) (s : S) : unit * S := (tt, f s).

(** Modelled from the spec: [FNdiMediaAudioSampler] (its sources are not part
    of this file).  The sampling activity is parameterised by a receiver
    instance that is null while the activity is disabled and a live handle
    while it is enabled; [SetReceiverInstance] replaces it. *)
Definition SetReceiverInstance (h : NDIlib_recv_instance_t) : M unit := fun w =>
  Some (tt, {| player := player w; AudioSampler := h;
               SamplesReceived := SamplesReceived w; ndi := ndi w;
               audio_sinks := audio_sinks w; texture_sinks := texture_sinks w;
               binary_sinks := binary_sinks w; trace := trace w |}).

Definition add_SamplesReceived (n : Z) : M unit := fun w =>
  Some (tt, {| player := player w; AudioSampler := AudioSampler w;
               SamplesReceived := Int.to_int64 (SamplesReceived w + n); ndi := ndi w;
               audio_sinks := audio_sinks w; texture_sinks := texture_sinks w;
               binary_sinks := binary_sinks w; trace := trace w |}).

(** The sampling activity is enabled when it holds a receiver instance. *)
Definition sampler_enabled (w : World) : bool := notnull (AudioSampler w).

(** ** FNdiMediaPlayer implementation *)

Definition UpdateAudioSampler : M unit :=
  p ← get_player;
  let SampleAudio :=
    negb (Paused p) && notnull (AudioSink p) && (SelectedAudioTrack p =? 0) in
  SetReceiverInstance (if SampleAudio then ReceiverInstance p else None).

Definition SendMetadata (Metadata : string) (Timecode : Z) : M unit :=
  p ← get_player;
  if notnull (ReceiverInstance p) then
    let MetadataFrame :=
      {| length_ := FString.Len Metadata + 1;
         metadata_timecode := Timecode;
         metadata_p_data := Metadata |} in
    on_ndi (Call_recv_add_connection_metadata (ReceiverInstance p) MetadataFrame)
           (void (NDIlib_recv_add_connection_metadata (ReceiverInstance p) MetadataFrame))
  else crash.

Definition ProcessAudioFrame (AudioFrame : NDIlib_audio_frame_v2_t) : M unit :=
  modify (set_LastAudioChannels (no_channels AudioFrame));;
  modify (set_LastAudioSampleRate (sample_rate AudioFrame));;
  p ← get_player;
  match AudioSink p with
  | None => mret tt
  | Some s =>
      (* re-initialize sink if format changed *)
      Channels ← ask_audio_sink s GetAudioSinkChannels;
      SampleRate ← ask_audio_sink s GetAudioSinkSampleRate;
      ok ← (if negb (Channels =? no_channels AudioFrame)
               || negb (SampleRate =? sample_rate AudioFrame)
            then on_audio_sink s
                   (Call_InitializeAudioSink (no_channels AudioFrame) (sample_rate AudioFrame))
                   (InitializeAudioSink (no_channels AudioFrame) (sample_rate AudioFrame))
            else mret true : M bool);
      if (ok : bool) then
        (* convert float samples to interleaved 16-bit samples *)
        let TotalSamples :=
          Int.to_uint32 (Int.to_int32 (no_samples AudioFrame * no_channels AudioFrame)) in
        let reference_level := 20 in
        let p_data := NDIlib_util_audio_to_interleaved_16s_v2 AudioFrame reference_level in
        (* forward to sink *)
        add_SamplesReceived TotalSamples;;
        let BufferSize := Int.to_uint32 (Int.to_uint64 (TotalSamples * Int.sizeof_int16)) in
        on_audio_sink s
          (Call_PlayAudioSink p_data BufferSize (audio_timecode AudioFrame))
          (void (PlayAudioSink p_data BufferSize (audio_timecode AudioFrame)))
      else mret tt
  end.

Definition ProcessVideoFrame (VideoFrame : NDIlib_video_frame_v2_t) : M unit :=
  modify (set_LastBufferDim
            {| X := Z.quot (line_stride_in_bytes VideoFrame) 4; Y := yres VideoFrame |});;
  modify (set_LastVideoDim {| X := xres VideoFrame; Y := yres VideoFrame |});;
  p ← get_player;
  match VideoSink p with
  | None => mret tt
  | Some s =>
      (* re-initialize sink if format changed *)
      Format ← ask_texture_sink s GetTextureSinkFormat;
      Dimensions ← ask_texture_sink s GetTextureSinkDimensions;
      ok ← (if negb (bool_decide (Format = VideoSinkFormat p))
               || negb (bool_decide (Dimensions = LastVideoDim p))
            then on_texture_sink s
                   (Call_InitializeTextureSink (LastVideoDim p) (LastBufferDim p)
                      (VideoSinkFormat p) EMediaTextureSinkMode.Unbuffered)
                   (InitializeTextureSink (LastVideoDim p) (LastBufferDim p)
                      (VideoSinkFormat p) EMediaTextureSinkMode.Unbuffered)
            else mret true : M bool);
      if (ok : bool) then
        (* forward to sink *)
        on_texture_sink s
          (Call_UpdateTextureSinkBuffer (video_p_data VideoFrame) (line_stride_in_bytes VideoFrame))
          (void (UpdateTextureSinkBuffer (video_p_data VideoFrame)
                   (line_stride_in_bytes VideoFrame)));;
        on_texture_sink s
          (Call_DisplayTextureSinkBuffer (video_timecode VideoFrame))
          (void (DisplayTextureSinkBuffer (video_timecode VideoFrame)))
      else mret tt
  end.

Definition CaptureMetadataFrame : M unit :=
  p ← get_player;
  FrameType ← on_ndi (Call_recv_capture_v2 (ReceiverInstance p) CaptureMetadata 0)
                     (NDIlib_recv_capture_v2 (ReceiverInstance p) CaptureMetadata 0);
  match FrameType with
  | NDIlib_frame_type_error =>
      emit (UE_LOG ELogVerbosity.Verbose "Failed to receive metadata frame")
  | NDIlib_frame_type_metadata MetadataFrame =>
      match MetadataSink p with
      | Some s =>
          on_binary_sink s
            (Call_ProcessBinarySinkData (metadata_p_data MetadataFrame) (length_ MetadataFrame)
               (metadata_timecode MetadataFrame) FTimespan_Zero)
            (void (ProcessBinarySinkData (metadata_p_data MetadataFrame) (length_ MetadataFrame)
                     (metadata_timecode MetadataFrame) FTimespan_Zero))
      | None => crash
      end;;
      on_ndi (Call_recv_free_metadata (ReceiverInstance p) MetadataFrame)
             (void (NDIlib_recv_free_metadata (ReceiverInstance p) MetadataFrame))
  | _ => mret tt
  end.

Definition CaptureVideoFrame : M unit :=
  p ← get_player;
  FrameType ← on_ndi (Call_recv_capture_v2 (ReceiverInstance p) CaptureVideo 0)
                     (NDIlib_recv_capture_v2 (ReceiverInstance p) CaptureVideo 0);
  match FrameType with
  | NDIlib_frame_type_error =>
      emit (UE_LOG ELogVerbosity.Verbose "Failed to receive video frame")
  | NDIlib_frame_type_video VideoFrame =>
      ProcessVideoFrame VideoFrame;;
      on_ndi (Call_recv_free_video_v2 (ReceiverInstance p) VideoFrame)
             (void (NDIlib_recv_free_video_v2 (ReceiverInstance p) VideoFrame))
  | _ => mret tt
  end.

Definition HandleAudioSamplerSample (AudioFrame : NDIlib_audio_frame_v2_t) : M unit :=
  ProcessAudioFrame AudioFrame.

(** ** IMediaControls interface *)

Definition GetRate (p : Player) : Q :=
  if bool_decide (CurrentState p = EMediaState.Playing) then 1%Q else 0%Q.

Definition GetState (p : Player) : EMediaState.t := CurrentState p.

Definition SetRate (Rate : Q) : M bool :=
  if Qeq_bool Rate 0 then modify (set_Paused true);; mret true
  else if Qeq_bool Rate 1 then modify (set_Paused false);; mret true
  else mret false.

(** ** IMediaPlayer interface *)

Definition Close : M unit :=
  p ← get_player;
  match ReceiverInstance p with
  | Some h =>
      on_ndi (Call_recv_destroy (Some h)) (void (NDIlib_recv_destroy (Some h)));;
      modify (set_ReceiverInstance None)
  | None => mret tt
  end;;
  modify (set_CurrentState EMediaState.Closed);;
  modify (set_CurrentUrl EmptyString);;
  modify (set_LastAudioChannels 0);;
  modify (set_LastAudioSampleRate 0);;
  modify (set_LastBufferDim ZeroValue);;
  modify (set_LastVideoDim ZeroValue);;
  modify (set_LastVideoFrameRate 0%Q);;
  modify (set_SelectedAudioTrack INDEX_NONE);;
  modify (set_SelectedMetadataTrack INDEX_NONE);;
  modify (set_SelectedVideoTrack INDEX_NONE);;
  UpdateAudioSampler;;
  emit (Broadcast EMediaEvent.TracksChanged);;
  emit (Broadcast EMediaEvent.MediaClosed).

(** The block of [Close] that runs under [CriticalSection]: everything up to
    the closing brace that releases the lock, before [UpdateAudioSampler]. *)
Definition Close_locked : M unit :=
  p ← get_player;
  match ReceiverInstance p with
  | Some h =>
      on_ndi (Call_recv_destroy (Some h)) (void (NDIlib_recv_destroy (Some h)));;
      modify (set_ReceiverInstance None)
  | None => mret tt
  end;;
  modify (set_CurrentState EMediaState.Closed);;
  modify (set_CurrentUrl EmptyString);;
  modify (set_LastAudioChannels 0);;
  modify (set_LastAudioSampleRate 0);;
  modify (set_LastBufferDim ZeroValue);;
  modify (set_LastVideoDim ZeroValue);;
  modify (set_LastVideoFrameRate 0%Q);;
  modify (set_SelectedAudioTrack INDEX_NONE);;
  modify (set_SelectedMetadataTrack INDEX_NONE);;
  modify (set_SelectedVideoTrack INDEX_NONE).

Definition GetUrl (p : Player) : string := CurrentUrl p.

Section Open.

Variable platform : Platform.

(** The product descriptor, the first payload of a successful [Open]. *)
Definition ProductMetadata : string :=
  let S := Settings platform in
  "<ndi_product short_name=" +:+ dquote +:+ ProductName S +:+ dquote
  +:+ " long_name=" +:+ dquote +:+ ProductDescription S +:+ dquote
  +:+ " manufacturer=" +:+ dquote +:+ Manufacturer S +:+ dquote
  +:+ " version=" +:+ dquote +:+ GetVersionName S +:+ dquote
  +:+ " serial_number=" +:+ dquote +:+ SerialNumber S +:+ dquote
  +:+ " session_name=" +:+ dquote +:+ SessionName S +:+ dquote +:+ " />".

(** The two halves of the format descriptor, built field by field from the
    options, in the order of the source. *)
Definition AudioFormatString (Options : IMediaOptions) : string :=
  let AudioFormatString := "" in
  let AudioChannels := GetMediaOption_int64 Options NdiMedia.AudioChannelsOption 0 in
  let AudioFormatString :=
    if 0 <? AudioChannels
    then AudioFormatString +:+ " no_channels=" +:+ dquote +:+ FString.Printf_i AudioChannels +:+ dquote
    else AudioFormatString in
  let AudioSampleRate := GetMediaOption_int64 Options NdiMedia.AudioSampleRateOption 0 in
  if 0 <? AudioSampleRate
  then AudioFormatString +:+ " sample_rate=" +:+ dquote +:+ FString.Printf_i AudioSampleRate +:+ dquote
  else AudioFormatString.

Definition VideoFormatString (Options : IMediaOptions) : string :=
  let VideoFormatString := "" in
  let FrameRateD := GetMediaOption_int64 Options NdiMedia.FrameRateDOption 0 in
  let VideoFormatString :=
    if 0 <? FrameRateD
    then VideoFormatString +:+ " frame_rate_d=" +:+ dquote +:+ FString.Printf_i FrameRateD +:+ dquote
    else VideoFormatString in
  let FrameRateN := GetMediaOption_int64 Options NdiMedia.FrameRateDOption 0 in
  let VideoFormatString :=
    if 0 <? FrameRateN
    then VideoFormatString +:+ " frame_rate_n=" +:+ dquote +:+ FString.Printf_i FrameRateN +:+ dquote
    else VideoFormatString in
  let Progressive := GetMediaOption_FString Options NdiMedia.ProgressiveOption "" in
  let VideoFormatString :=
    if negb (FString.IsEmpty Progressive)
    then VideoFormatString +:+ " progressive=" +:+ dquote +:+ Progressive +:+ dquote
    else VideoFormatString in
  let VideoHeight := GetMediaOption_int64 Options NdiMedia.VideoHeightOption 0 in
  let VideoFormatString :=
    if 0 <? VideoHeight
    then VideoFormatString +:+ " yres=" +:+ dquote +:+ FString.Printf_i VideoHeight +:+ dquote
    else VideoFormatString in
  let VideoWidth := GetMediaOption_int64 Options NdiMedia.VideoWidthOption 0 in
  if 0 <? VideoWidth
  then VideoFormatString +:+ " xres=" +:+ dquote +:+ FString.Printf_i VideoWidth +:+ dquote
  else VideoFormatString.

Definition FormatMetadata (Options : IMediaOptions) : string :=
  "<ndi_format><audio_format " +:+ AudioFormatString Options
  +:+ " /><video_format " +:+ VideoFormatString Options +:+ " /></ndi_format>".

(** The source descriptor, with the source string as it stands afterwards. *)
Definition MakeSource (SourceStr : string) : NDIlib_source_t * string :=
  if FString.Contains SourceStr ":" then
    ({| p_ndi_name := None; p_ip_address := Some SourceStr |}, SourceStr)
  else
    let SourceStr :=
      if FString.StartsWith SourceStr "localhost "
      then FString.ReplaceInline "localhost" (ComputerName platform) SourceStr
      else SourceStr in
    ({| p_ndi_name := Some SourceStr; p_ip_address := None |}, SourceStr).

Definition Open (Url : string) (Options : IMediaOptions) : M bool :=
  Close;;
  if FString.IsEmpty Url || negb (FString.StartsWith Url "ndi://") then mret false
  else
    let SourceStr := FString.RightChop 6 Url in
    (* determine sink format *)
    let ColorFormat :=
      Int.to_int32 (GetMediaOption_int64 Options NdiMedia.ColorFormatOption 0) in
    ColorFormat ←
      (if ColorFormat =? NDIlib_recv_color_format_e_BGRX_BGRA then
         modify (set_VideoSinkFormat EMediaTextureSinkFormat.CharBGRA);;
         mret ColorFormat
       else if ColorFormat =? NDIlib_recv_color_format_e_UYVY_BGRA then
         modify (set_VideoSinkFormat EMediaTextureSinkFormat.CharUYVY);;
         mret ColorFormat
       else
         emit (UE_LOG ELogVerbosity.Warning
                 ("Unsupported ColorFormat option in media source " +:+ SourceStr
                  +:+ ". Falling back to UYVY."));;
         modify (set_VideoSinkFormat EMediaTextureSinkFormat.CharUYVY);;
         mret NDIlib_recv_color_format_e_UYVY_BGRA : M Z);
    (* create receiver *)
    let Bandwidth :=
      GetMediaOption_int64 Options NdiMedia.BandwidthOption NDIlib_recv_bandwidth_highest in
    let '(Source, SourceStr) := MakeSource SourceStr in
    let RcvCreateDesc :=
      {| source_to_connect_to := Source;
         color_format := ColorFormat;
         bandwidth := Int.to_int32 Bandwidth;
         allow_video_fields := true |} in
    Receiver ← on_ndi (Call_recv_create_v2 RcvCreateDesc) (NDIlib_recv_create_v2 RcvCreateDesc);
    modify (set_ReceiverInstance Receiver);;
    if negb (notnull Receiver) then
      emit (UE_LOG ELogVerbosity.Error
              ("Failed to open NDI media source " +:+ SourceStr
               +:+ ": couldn't create receiver"));;
      mret false
    else
      (* send product metadata *)
      SendMetadata ProductMetadata (DefaultTimecode platform);;
      (* send format metadata *)
      (if negb (FString.IsEmpty (AudioFormatString Options))
          || negb (FString.IsEmpty (VideoFormatString Options))
       then SendMetadata (FormatMetadata Options) (DefaultTimecode platform)
       else mret tt);;
      (* send custom metadata *)
      let CustomMetadata :=
        FString.TrimTrailing (FString.Trim (CustomMetaData (Settings platform))) in
      (if negb (FString.IsEmpty CustomMetadata)
       then SendMetadata CustomMetadata (DefaultTimecode platform)
       else mret tt);;
      (* finalize *)
      modify (set_CurrentUrl Url);;
      emit (Broadcast EMediaEvent.TracksChanged);;
      emit (Broadcast EMediaEvent.MediaOpened);;
      mret true.

End Open.

Definition TickPlayer (DeltaTime : Q) : M unit :=
  p ← get_player;
  if negb (notnull (ReceiverInstance p)) then mret tt
  else
    (* update player state *)
    connections ← ask_ndi (NDIlib_recv_get_no_connections (ReceiverInstance p));
    let IsConnected := 0 <? connections in
    let State :=
      if Paused p then EMediaState.Paused
      else if IsConnected then EMediaState.Playing else EMediaState.Preparing in
    (if negb (bool_decide (State = CurrentState p)) && notnull (AudioSink p) then
       modify (set_CurrentState State);;
       UpdateAudioSampler;;
       if bool_decide (State = EMediaState.Playing) then
         emit (Broadcast EMediaEvent.PlaybackResumed);;
         match AudioSink p with
         | Some s => on_audio_sink s Call_ResumeAudioSink (void ResumeAudioSink)
         | None => mret tt
         end
       else
         emit (Broadcast EMediaEvent.PlaybackSuspended);;
         match AudioSink p with
         | Some s =>
             on_audio_sink s Call_PauseAudioSink (void PauseAudioSink);;
             on_audio_sink s Call_FlushAudioSink (void FlushAudioSink)
         | None => mret tt
         end
     else mret tt);;
    match MetadataSink p with
    | Some _ => CaptureMetadataFrame
    | None => mret tt
    end.

Definition TickVideo (DeltaTime : Q) : M unit :=
  p ← get_player;
  if negb (Paused p) then CaptureVideoFrame else mret tt.

(** ** IMediaOutput interface *)

Definition SetAudioSink (Sink : option ptr) : M unit :=
  p ← get_player;
  if bool_decide (Sink = AudioSink p) then mret tt
  else
    match AudioSink p with
    | Some old => on_audio_sink old Call_ShutdownAudioSink (void ShutdownAudioSink)
    | None => mret tt
    end;;
    match Sink with
    | Some new =>
        on_audio_sink new
          (Call_InitializeAudioSink (LastAudioChannels p) (LastAudioSampleRate p))
          (InitializeAudioSink (LastAudioChannels p) (LastAudioSampleRate p));;
        mret tt
    | None => mret tt
    end;;
    modify (set_AudioSink Sink);;
    UpdateAudioSampler.

Definition SetMetadataSink (Sink : option ptr) : M unit :=
  p ← get_player;
  if bool_decide (Sink = MetadataSink p) then mret tt
  else
    match MetadataSink p with
    | Some old => on_binary_sink old Call_ShutdownBinarySink (void ShutdownBinarySink)
    | None => mret tt
    end;;
    match Sink with
    | Some new =>
        on_binary_sink new Call_InitializeBinarySink InitializeBinarySink;;
        mret tt
    | None => mret tt
    end;;
    modify (set_MetadataSink Sink).

Definition SetVideoSink (Sink : option ptr) : M unit :=
  p ← get_player;
  if bool_decide (Sink = VideoSink p) then mret tt
  else
    match VideoSink p with
    | Some old => on_texture_sink old Call_ShutdownTextureSink (void ShutdownTextureSink)
    | None => mret tt
    end;;
    modify (set_VideoSink Sink);;
    match Sink with
    | Some new =>
        on_texture_sink new
          (Call_InitializeTextureSink (LastVideoDim p) (LastBufferDim p) (VideoSinkFormat p)
             EMediaTextureSinkMode.Unbuffered)
          (InitializeTextureSink (LastVideoDim p) (LastBufferDim p) (VideoSinkFormat p)
             EMediaTextureSinkMode.Unbuffered);;
        mret tt
    | None => mret tt
    end.

(** ** IMediaTracks interface *)

Definition GetNumTracks (TrackType : EMediaTrackType.t) (p : Player) : Z :=
  if notnull (ReceiverInstance p) then
    match TrackType with
    | EMediaTrackType.Audio | EMediaTrackType.Metadata | EMediaTrackType.Video => 1
    | _ => 0
    end
  else 0.

Definition GetSelectedTrack (TrackType : EMediaTrackType.t) (p : Player) : Z :=
  if negb (notnull (ReceiverInstance p)) then INDEX_NONE
  else
    match TrackType with
    | EMediaTrackType.Audio | EMediaTrackType.Metadata | EMediaTrackType.Video => 0
    | _ => INDEX_NONE
    end.

Definition SelectTrack (TrackType : EMediaTrackType.t) (TrackIndex : Z) : M bool :=
  if negb (TrackIndex =? INDEX_NONE) && negb (TrackIndex =? 0) then mret false
  else
    match TrackType with
    | EMediaTrackType.Audio =>
        modify (set_SelectedAudioTrack TrackIndex);;
        UpdateAudioSampler;;
        mret true
    | EMediaTrackType.Metadata =>
        modify (set_SelectedMetadataTrack TrackIndex);;
        mret true
    | EMediaTrackType.Video =>
        modify (set_SelectedVideoTrack TrackIndex);;
        mret true
    | _ => mret false
    end.

(** The remaining track queries.  Each answers for track 0 of a player that
    holds a receiver instance, and with the empty value otherwise.  The two
    audio queries return a [uint32]: a cached count is converted on return. *)
Definition GetAudioTrackChannels (TrackIndex : Z) (p : Player) : Z :=
  if negb (notnull (ReceiverInstance p)) || negb (TrackIndex =? 0) then 0
  else Int.to_uint32 (LastAudioChannels p).

Definition GetAudioTrackSampleRate (TrackIndex : Z) (p : Player) : Z :=
  if negb (notnull (ReceiverInstance p)) || negb (TrackIndex =? 0) then 0
  else Int.to_uint32 (LastAudioSampleRate p).

Definition GetVideoTrackFrameRate (TrackIndex : Z) (p : Player) : Q :=
  if negb (notnull (ReceiverInstance p)) || negb (TrackIndex =? 0) then 0%Q
  else LastVideoFrameRate p.

(** ** Sequences of calls

    The calls the media framework, the sampling activity and the network make
    on a player, one at a time (every member function that touches shared
    members runs under [CriticalSection]). *)
Inductive Call :=
  | Do_Open (platform : Platform) (Url : string) (Options : IMediaOptions)
  | Do_Close
  | Do_TickPlayer (DeltaTime : Q)
  | Do_TickVideo (DeltaTime : Q)
  | Do_SetRate (Rate : Q)
  | Do_SetAudioSink (Sink : option ptr)
  | Do_SetMetadataSink (Sink : option ptr)
  | Do_SetVideoSink (Sink : option ptr)
  | Do_SelectTrack (TrackType : EMediaTrackType.t) (TrackIndex : Z)
  | Do_HandleAudioSamplerSample (AudioFrame : NDIlib_audio_frame_v2_t).

Definition exec (c : Call) : M unit :=
  match c with
  | Do_Open platform Url Options => Open platform Url Options;; mret tt
  | Do_Close => Close
  | Do_TickPlayer DeltaTime => TickPlayer DeltaTime
  | Do_TickVideo DeltaTime => TickVideo DeltaTime
  | Do_SetRate Rate => SetRate Rate;; mret tt
  | Do_SetAudioSink Sink => SetAudioSink Sink
  | Do_SetMetadataSink Sink => SetMetadataSink Sink
  | Do_SetVideoSink Sink => SetVideoSink Sink
  | Do_SelectTrack TrackType TrackIndex => SelectTrack TrackType TrackIndex;; mret tt
  | Do_HandleAudioSamplerSample AudioFrame => HandleAudioSamplerSample AudioFrame
  end.

Fixpoint run (cs : list Call) : M unit :=
  match cs with
  | [] => mret tt
  | c :: cs' => exec c;; run cs'
  end.

Definition is_SetRate (c : Call) : bool :=
  match c with Do_SetRate _ => true | _ => false end.

(** The world a call leaves behind, when it returns. *)
Definition after {X : Type} (m : M X) (w : World) : option World := snd <$> m w.
Definition result {X : Type} (m : M X) (w : World) : option X := fst <$> m w.

(** ** Vocabulary of the statements *)

(** The calls made between two worlds of one run. *)
Definition new_trace (w w' : World) : list (Event * Player) :=
  drop (length (trace w)) (trace w').
Definition new_events (w w' : World) : list Event := map fst (new_trace w w').

Definition notifications (es : list Event) : list EMediaEvent.t :=
  omap (fun e => match e with Broadcast n => Some n | _ => None end) es.

Definition texture_sink_calls (es : list Event) : list (ptr * TextureSinkCall) :=
  omap (fun e => match e with OnTextureSink s c => Some (s, c) | _ => None end) es.

Definition is_InitializeTextureSink (c : ptr * TextureSinkCall) : bool :=
  match c with (_, Call_InitializeTextureSink _ _ _ _) => true | _ => false end.

Definition is_recv_create (e : Event) : bool :=
  match e with OnNdi (Call_recv_create_v2 _) => true | _ => false end.

(** Notifications and audio-sink calls, in the order they were made. *)
Definition playback_events (es : list Event) : list Event :=
  List.filter (fun e => match e with Broadcast _ | OnAudioSink _ _ => true | _ => false end) es.

(** Every bound sink is a live object. *)
Definition bindings_valid (w : World) : Prop :=
  (forall s, AudioSink (player w) = Some s -> is_Some (audio_sinks w !! s)) /\
  (forall s, VideoSink (player w) = Some s -> is_Some (texture_sinks w !! s)) /\
  (forall s, MetadataSink (player w) = Some s -> is_Some (binary_sinks w !! s)).

(** The target state of a tick, in the words of the specification: Paused if
    the pause flag is set, else Playing if the transport reports a non-zero
    connection count, else Preparing. *)
Definition TargetState (PauseFlag : bool) (connections : Z) : EMediaState.t :=
  if PauseFlag then EMediaState.Paused
  else if negb (connections =? 0) then EMediaState.Playing
  else EMediaState.Preparing.

(** The enablement rule of the sampling activity, in the words of the
    specification: not paused, and an audio sink bound, and the audio track
    selection is track 0. *)
Definition SamplingRule (p : Player) : bool :=
  negb (Paused p) && notnull (AudioSink p) && (SelectedAudioTrack p =? 0).

(** The sampler holds what the last recomputation would give it now. *)
Definition sampler_consistent (w : World) : Prop :=
  AudioSampler w = if SamplingRule (player w) then ReceiverInstance (player w) else None.

(** A texture sink that reports the format and dimensions it was last
    initialised with: a successful initialisation sets what it reports, and
    taking or showing a buffer does not change it. *)
Definition reports_initialisation : Prop :=
  (forall OutputDim BufferDim Format Mode v v',
      InitializeTextureSink OutputDim BufferDim Format Mode v = (true, v') ->
      GetTextureSinkFormat v' = Format /\ GetTextureSinkDimensions v' = OutputDim) /\
  (forall Data Pitch v,
      GetTextureSinkFormat (UpdateTextureSinkBuffer Data Pitch v) = GetTextureSinkFormat v /\
      GetTextureSinkDimensions (UpdateTextureSinkBuffer Data Pitch v)
        = GetTextureSinkDimensions v) /\
  (forall Time v,
      GetTextureSinkFormat (DisplayTextureSinkBuffer Time v) = GetTextureSinkFormat v /\
      GetTextureSinkDimensions (DisplayTextureSinkBuffer Time v)
        = GetTextureSinkDimensions v).

(** The byte count [ProcessAudioFrame] hands to the play hook: the [uint32]
    sample total, times [sizeof(int16)], as a [uint32] argument. *)
Definition BufferSize (f : NDIlib_audio_frame_v2_t) : Z :=
  let TotalSamples := Int.to_uint32 (Int.to_int32 (no_samples f * no_channels f)) in
  Int.to_uint32 (Int.to_uint64 (TotalSamples * Int.sizeof_int16)).

(** The display and backing-buffer dimensions of a video frame. *)
Definition VideoDim (f : NDIlib_video_frame_v2_t) : FIntPoint :=
  {| X := xres f; Y := yres f |}.
Definition BufferDim (f : NDIlib_video_frame_v2_t) : FIntPoint :=
  {| X := Z.quot (line_stride_in_bytes f) 4; Y := yres f |}.

(** The sink in state [v] reports another format or other dimensions than
    the player's format [Format] and the frame [f]. *)
Definition format_changed (v : V) (Format : EMediaTextureSinkFormat.t)
    (f : NDIlib_video_frame_v2_t) : bool :=
  negb (bool_decide (GetTextureSinkFormat v = Format))
  || negb (bool_decide (GetTextureSinkDimensions v = VideoDim f)).

Definition count_InitializeTextureSink (es : list Event) : nat :=
  length (List.filter is_InitializeTextureSink (texture_sink_calls es)).

(** [P] holds of the world a call leaves behind, if it returns. *)
Definition holds_after {X : Type} (m : M X) (w : World) (P : World -> Prop) : Prop :=
  match m w with
  | Some (_, w') => P w'
  | None => True
  end.

(** The members as [Close] leaves them, and as the constructor sets them. *)
Definition closed (w : World) : Prop :=
  ReceiverInstance (player w) = None /\
  CurrentState (player w) = EMediaState.Closed /\
  CurrentUrl (player w) = EmptyString /\
  LastAudioChannels (player w) = 0 /\
  LastAudioSampleRate (player w) = 0 /\
  LastBufferDim (player w) = ZeroValue /\
  LastVideoDim (player w) = ZeroValue /\
  LastVideoFrameRate (player w) = 0%Q /\
  SelectedAudioTrack (player w) = INDEX_NONE /\
  SelectedMetadataTrack (player w) = INDEX_NONE /\
  SelectedVideoTrack (player w) = INDEX_NONE /\
  AudioSampler w = None.

(** The world right after construction: a fresh player, a sampler without
    receiver instance, and whatever collaborators there are. *)
Definition fresh (n : N) (audio : gmap ptr A) (texture : gmap ptr V) (binary : gmap ptr B)
  : World :=
  {| player := FNdiMediaPlayer; AudioSampler := None; SamplesReceived := 0; ndi := n;
     audio_sinks := audio; texture_sinks := texture; binary_sinks := binary;
     trace := [] |}.

(** *** Further vocabulary *)

(** The descriptors of the receivers created, the payloads sent as connection
    metadata, and the receiver instances destroyed, in the order of the calls. *)
Definition created (es : list Event) : list NDIlib_recv_create_t :=
  omap (fun e => match e with OnNdi (Call_recv_create_v2 d) => Some d | _ => None end) es.

Definition metadata_sent (es : list Event) : list NDIlib_metadata_frame_t :=
  omap (fun e => match e with
                 | OnNdi (Call_recv_add_connection_metadata _ f) => Some f
                 | _ => None
                 end) es.

Definition destroyed (es : list Event) : list NDIlib_recv_instance_t :=
  omap (fun e => match e with OnNdi (Call_recv_destroy h) => Some h | _ => None end) es.

(** The calls of sink hooks, of whatever kind of sink. *)
Definition sink_calls (es : list Event) : list Event :=
  List.filter (fun e => match e with
                        | OnAudioSink _ _ | OnTextureSink _ _ | OnBinarySink _ _ => true
                        | _ => false
                        end) es.

(** A metadata payload as [SendMetadata] frames it. *)
Definition framed (platform : Platform) (Metadata : string) : NDIlib_metadata_frame_t :=
  {| length_ := FString.Len Metadata + 1;
     metadata_timecode := DefaultTimecode platform;
     metadata_p_data := Metadata |}.

(** Some format hint is present in the options, as [Open] reads them. *)
Definition has_format_hint (Options : IMediaOptions) : bool :=
  (0 <? GetMediaOption_int64 Options NdiMedia.AudioChannelsOption 0)
  || (0 <? GetMediaOption_int64 Options NdiMedia.AudioSampleRateOption 0)
  || (0 <? GetMediaOption_int64 Options NdiMedia.FrameRateDOption 0)
  || negb (FString.IsEmpty (GetMediaOption_FString Options NdiMedia.ProgressiveOption ""))
  || (0 <? GetMediaOption_int64 Options NdiMedia.VideoHeightOption 0)
  || (0 <? GetMediaOption_int64 Options NdiMedia.VideoWidthOption 0).

(** Strings of whitespace only, and the first and the last character of a
    string. *)
Fixpoint all_whitespace (s : string) : bool :=
  match s with
  | EmptyString => true
  | String c s' => FString.IsWhitespace c && all_whitespace s'
  end.

Definition first_char (s : string) : option ascii :=
  match s with
  | EmptyString => None
  | String c _ => Some c
  end.

Fixpoint last_char (s : string) : option ascii :=
  match s with
  | EmptyString => None
  | String c EmptyString => Some c
  | String _ s' => last_char s'
  end.

(** The capture calls made, and the frames handed back to the library. *)
Definition captures (es : list Event) : list (NDIlib_recv_instance_t * CaptureKind * Z) :=
  omap (fun e => match e with
                 | OnNdi (Call_recv_capture_v2 h k t) => Some (h, k, t)
                 | _ => None
                 end) es.

Definition freed_video (es : list Event) : list NDIlib_video_frame_v2_t :=
  omap (fun e => match e with OnNdi (Call_recv_free_video_v2 _ f) => Some f | _ => None end)
       es.

(** Library calls, binary-sink calls and log lines, in the order they were
    made: what a poll for metadata consists of. *)
Definition polling_events (es : list Event) : list Event :=
  List.filter (fun e => match e with
                        | OnNdi _ | OnBinarySink _ _ | UE_LOG _ _ => true
                        | _ => false
                        end) es.

(** The track selection recorded for a kind of track. *)
Definition recorded_selection (TrackType : EMediaTrackType.t) (p : Player) : option Z :=
  match TrackType with
  | EMediaTrackType.Audio => Some (SelectedAudioTrack p)
  | EMediaTrackType.Metadata => Some (SelectedMetadataTrack p)
  | EMediaTrackType.Video => Some (SelectedVideoTrack p)
  | _ => None
  end.

(** The state after the receiver instance, if any, was destroyed. *)
Definition ndi_after_Close (w : World) : N :=
  match ReceiverInstance (player w) with
  | Some h => NDIlib_recv_destroy (Some h) (ndi w)
  | None => ndi w
  end.

(** The descriptor [Open] builds for a locator and an options object. *)
Definition RcvCreateDesc (platform : Platform) (Url : string) (Options : IMediaOptions)
  : NDIlib_recv_create_t :=
  {| source_to_connect_to := fst (MakeSource platform (FString.RightChop 6 Url));
     color_format :=
       if Int.to_int32 (GetMediaOption_int64 Options NdiMedia.ColorFormatOption 0)
          =? NDIlib_recv_color_format_e_BGRX_BGRA
       then NDIlib_recv_color_format_e_BGRX_BGRA
       else NDIlib_recv_color_format_e_UYVY_BGRA;
     bandwidth :=
       Int.to_int32
         (GetMediaOption_int64 Options NdiMedia.BandwidthOption NDIlib_recv_bandwidth_highest);
     allow_video_fields := true |}.

(** The sink a call hands over, if it hands one over, is a live object. *)
Definition argument_valid (c : Call) (w : World) : Prop :=
  match c with
  | Do_SetAudioSink (Some s) => is_Some (audio_sinks w !! s)
  | Do_SetMetadataSink (Some s) => is_Some (binary_sinks w !! s)
  | Do_SetVideoSink (Some s) => is_Some (texture_sinks w !! s)
  | _ => True
  end.

(** The sinks that exist, by kind. *)
Definition same_sinks (w w' : World) : Prop :=
  dom (audio_sinks w') = dom (audio_sinks w) /\
  dom (texture_sinks w') = dom (texture_sinks w) /\
  dom (binary_sinks w') = dom (binary_sinks w).

(** What every reachable player satisfies: a state other than Closed comes
    with a receiver instance; every track selection is none or track 0; the
    sampler polls the player's own receiver instance or none; no frame rate
    was ever observed. *)
Definition state_has_receiver (w : World) : Prop :=
  CurrentState (player w) <> EMediaState.Closed ->
  notnull (ReceiverInstance (player w)) = true.

Definition selection_in_range (i : Z) : Prop := i = INDEX_NONE \/ i = 0.

Definition selections_in_range (w : World) : Prop :=
  selection_in_range (SelectedAudioTrack (player w)) /\
  selection_in_range (SelectedMetadataTrack (player w)) /\
  selection_in_range (SelectedVideoTrack (player w)).

Definition sampler_current (w : World) : Prop :=
  AudioSampler w = None \/ AudioSampler w = ReceiverInstance (player w).

Definition reachable_shape (w : World) : Prop :=
  state_has_receiver w /\ selections_in_range w /\ sampler_current w /\
  LastVideoFrameRate (player w) = 0%Q.

End Model.

Arguments World : clear implicits.
Arguments M : clear implicits.

(** ** Test doubles

    Collaborators simple enough to run: sinks that report what they were last
    initialised with and accept or refuse every initialisation, and a network
    that hands out a prepared receiver instance, reports a prepared
    connection count and delivers prepared frames. *)

Module Bench.

Record AudioDevice := {
  device_channels : Z;
  device_rate : Z;
  device_accepts : bool
}.

#[global] Instance AudioDevice_sink : IMediaAudioSink AudioDevice := {|
  FlushAudioSink a := a;
  GetAudioSinkChannels := device_channels;
  GetAudioSinkSampleRate := device_rate;
  InitializeAudioSink Channels SampleRate a :=
    if device_accepts a
    then (true, {| device_channels := Channels; device_rate := SampleRate;
                   device_accepts := true |})
    else (false, a);
  PauseAudioSink a := a;
  PlayAudioSink _ _ _ a := a;
  ResumeAudioSink a := a;
  ShutdownAudioSink a := a
|}.

(** An audio sink that keeps the byte count and the timecode of every buffer
    it was asked to play, the last one first. *)
Record Tape := {
  tape_channels : Z;
  tape_rate : Z;
  tape_played : list (Z * FTimespan)
}.

#[global] Instance Tape_sink : IMediaAudioSink Tape := {|
  FlushAudioSink a := a;
  GetAudioSinkChannels := tape_channels;
  GetAudioSinkSampleRate := tape_rate;
  InitializeAudioSink Channels SampleRate a :=
    (true, {| tape_channels := Channels; tape_rate := SampleRate;
              tape_played := tape_played a |});
  PauseAudioSink a := a;
  PlayAudioSink _ BufferSize Time a :=
    {| tape_channels := tape_channels a; tape_rate := tape_rate a;
       tape_played := (BufferSize, Time) :: tape_played a |};
  ResumeAudioSink a := a;
  ShutdownAudioSink a := a
|}.

Record Texture := {
  texture_format : EMediaTextureSinkFormat.t;
  texture_dim : FIntPoint;
  texture_accepts : bool
}.

#[global] Instance Texture_sink : IMediaTextureSink Texture := {|
  DisplayTextureSinkBuffer _ v := v;
  GetTextureSinkDimensions := texture_dim;
  GetTextureSinkFormat := texture_format;
  InitializeTextureSink OutputDim _ Format _ v :=
    if texture_accepts v
    then (true, {| texture_format := Format; texture_dim := OutputDim;
                   texture_accepts := true |})
    else (false, v);
  ShutdownTextureSink v := v;
  UpdateTextureSinkBuffer _ _ v := v
|}.

#[global] Instance Binary_sink : IMediaBinarySink unit := {|
  InitializeBinarySink b := (true, b);
  ProcessBinarySinkData _ _ _ _ b := b;
  ShutdownBinarySink b := b
|}.

Record Network := {
  next_instance : NDIlib_recv_instance_t;
  connections : Z;
  incoming : list NDIlib_frame_type_e
}.

#[global] Instance Network_ndi : NDIlib Network := {|
  NDIlib_recv_add_connection_metadata _ _ n := n;
  NDIlib_recv_capture_v2 _ _ _ n :=
    match incoming n with
    | [] => (NDIlib_frame_type_none, n)
    | f :: rest =>
        (f, {| next_instance := next_instance n; connections := connections n;
               incoming := rest |})
    end;
  NDIlib_recv_create_v2 _ n := (next_instance n, n);
  NDIlib_recv_destroy _ n := n;
  NDIlib_recv_free_metadata _ _ n := n;
  NDIlib_recv_free_video_v2 _ _ n := n;
  NDIlib_recv_get_no_connections _ n := connections n;
  NDIlib_util_audio_to_interleaved_16s_v2 f _ :=
    repeat 0 (Z.to_nat (no_samples f * no_channels f))
|}.

Abbreviation World := (World Network AudioDevice Texture unit).

Definition NoOptions : IMediaOptions :=
  {| GetMediaOption_int64 _ d := d; GetMediaOption_FString _ d := d |}.

(** Options that ask for 30000/1001 frames per second and nothing else. *)
Definition NtscOptions : IMediaOptions :=
  {| GetMediaOption_int64 k d :=
       match k with
       | NdiMedia.FrameRateNOption => 30000
       | NdiMedia.FrameRateDOption => 1001
       | _ => d
       end;
     GetMediaOption_FString _ d := d |}.

(** Options that give the numerator of the frame rate only. *)
Definition NumeratorOnlyOptions : IMediaOptions :=
  {| GetMediaOption_int64 k d :=
       match k with
       | NdiMedia.FrameRateNOption => 30000
       | _ => d
       end;
     GetMediaOption_FString _ d := d |}.

Definition platform : Platform :=
  {| Settings :=
       {| ProductName := "NdiMedia"; ProductDescription := "NDI player";
          Manufacturer := "Epic"; GetVersionName := "1.0"; SerialNumber := "0";
          SessionName := "default"; CustomMetaData := EmptyString |};
     ComputerName := "WORKSTATION";
     DefaultTimecode := Int.INT64_MAX |}.

Definition device (accepts : bool) : AudioDevice :=
  {| device_channels := 0; device_rate := 0; device_accepts := accepts |}.

Definition texture (accepts : bool) : Texture :=
  {| texture_format := EMediaTextureSinkFormat.CharUYVY; texture_dim := ZeroValue;
     texture_accepts := accepts |}.

(** A network with a source to connect to, [n] connections deep. *)
Definition network (n : Z) : Network :=
  {| next_instance := Some 1%positive; connections := n; incoming := [] |}.

(** A fresh player next to one audio device, two textures (the first accepts
    initialisation, the second refuses it) and one binary sink. *)
Definition studio (n : Z) : World :=
  fresh (network n)
    {[ 1%positive := device true ]}
    {[ 1%positive := texture true; 2%positive := texture false ]}
    {[ 1%positive := tt ]}.

(** An opened player with the audio device bound and audio track 0
    selected, as it stands between two ticks. *)
Definition on_air (n : Z) : World :=
  {| player :=
       set_SelectedAudioTrack 0
         (set_AudioSink (Some 1%positive)
            (set_ReceiverInstance (Some 1%positive)
               (set_CurrentUrl "ndi://cam" FNdiMediaPlayer)));
     AudioSampler := Some 1%positive; SamplesReceived := 0; ndi := network n;
     audio_sinks := {[ 1%positive := device true ]};
     texture_sinks := {[ 1%positive := texture true; 2%positive := texture false ]};
     binary_sinks := {[ 1%positive := tt ]};
     trace := [] |}.

(** A fresh player with the texture at [s] bound as video sink. *)
Definition with_video_sink (s : ptr) : World :=
  {| player := set_VideoSink (Some s) FNdiMediaPlayer;
     AudioSampler := None; SamplesReceived := 0; ndi := network 0;
     audio_sinks := {[ 1%positive := device true ]};
     texture_sinks := {[ 1%positive := texture true; 2%positive := texture false ]};
     binary_sinks := {[ 1%positive := tt ]};
     trace := [] |}.

(** A network without the source: no receiver can be created. *)
Definition offline : Network :=
  {| next_instance := None; connections := 0; incoming := [] |}.

(** A network that delivers the given frames, one per capture. *)
Definition delivering (frames : list NDIlib_frame_type_e) : Network :=
  {| next_instance := Some 1%positive; connections := 1; incoming := frames |}.

(** An opened player with every sink bound, on a network delivering [frames]. *)
Definition receiving (frames : list NDIlib_frame_type_e) : World :=
  {| player :=
       set_MetadataSink (Some 1%positive)
         (set_VideoSink (Some 2%positive)
            (set_AudioSink (Some 1%positive)
               (set_ReceiverInstance (Some 1%positive)
                  (set_CurrentUrl "ndi://cam" FNdiMediaPlayer))));
     AudioSampler := None; SamplesReceived := 0; ndi := delivering frames;
     audio_sinks := {[ 1%positive := device true ]};
     texture_sinks := {[ 1%positive := texture true; 2%positive := texture false ]};
     binary_sinks := {[ 1%positive := tt ]};
     trace := [] |}.

Definition note : NDIlib_metadata_frame_t :=
  {| length_ := 6; metadata_timecode := 9; metadata_p_data := "<tag>" |}.

Definition hd_frame : NDIlib_video_frame_v2_t :=
  {| xres := 1920; yres := 1080; line_stride_in_bytes := 3840;
     video_timecode := 42; video_p_data := [] |}.

Definition stereo_frame : NDIlib_audio_frame_v2_t :=
  {| sample_rate := 48000; no_channels := 2; no_samples := 4;
     audio_timecode := 77; audio_p_data := [] |}.

(** A frame whose sample count times channel count does not fit an [int]. *)
Definition oversized_frame : NDIlib_audio_frame_v2_t :=
  {| sample_rate := 48000; no_channels := 65537; no_samples := 65536;
     audio_timecode := 5; audio_p_data := [] |}.

(** The player of [on_air], with a blank tape as its audio sink. *)
Definition taping :=
  {| player := player (on_air 1);
     AudioSampler := Some 1%positive; SamplesReceived := 0; ndi := network 1;
     audio_sinks :=
       {[ 1%positive := {| tape_channels := 0; tape_rate := 0; tape_played := [] |} ]};
     texture_sinks := {[ 1%positive := texture true; 2%positive := texture false ]};
     binary_sinks := {[ 1%positive := tt ]};
     trace := [] |}.

(** A session in the studio: bind, open, select, tick, pause, tick, resume,
    tick, receive audio. *)
Definition session : list Call :=
  [Do_SetAudioSink (Some 1%positive); Do_Open platform "ndi://cam" NoOptions;
   Do_SelectTrack EMediaTrackType.Audio 0; Do_SelectTrack EMediaTrackType.Video 7;
   Do_TickPlayer 0; Do_SetRate 0; Do_TickPlayer 0; Do_SetRate 1; Do_TickPlayer 0;
   Do_HandleAudioSamplerSample stereo_frame].

End Bench.

(** ** Proof tools *)

(** Unfolds one layer of the monad and of its primitive operations. *)
(** Case analysis on whatever the goal still branches on. *)
Ltac branch :=
  repeat (simpl;
          match goal with
          | |- context [match ?c with _ => _ end] =>
              lazymatch c with
              | context [match _ with _ => _ end] => fail
              | _ => destruct c eqn:?
              end
          end).

Ltac unfold_M :=
  lazy [mbind M_bind mret M_ret get_player modify emit on_ndi ask_ndi crash void
       SetReceiverInstance add_SamplesReceived after result fmap option_fmap option_map
        on_audio_sink on_texture_sink on_binary_sink ask_audio_sink ask_texture_sink
        player AudioSampler SamplesReceived ndi audio_sinks texture_sinks binary_sinks trace].

(** Sets up a proof that a call keeps the sampler consistent: the members the
    rule reads are split into cases first. *)
Ltac consistency w :=
  destruct w as [p smp sr n au tx bi tr]; destruct p as [au0 ? ? tk ? ? ? ? ? ? ? ? ? pa ? ?];
  unfold sampler_consistent, holds_after, SamplingRule; simpl; intros ->;
  destruct pa, au0; simpl; destruct (tk =? 0) eqn:?; simpl.

(** Closes a goal about a call that has been run to its end: the world it
    leaves is read off, and the calls it made are those appended to the trace. *)
Ltac tick_done :=
  eexists; (split; [reflexivity|]); simpl;
  unfold sampler_consistent, SamplingRule, new_events, new_trace; simpl;
  rewrite <- ?app_assoc, ?drop_app_length, ?drop_all; simpl;
  repeat split; reflexivity.

(** Sets up and closes a proof that a call keeps the shape of reachable
    worlds. *)
Ltac reachability w :=
  destruct w as [p smp sr n au tx bi tr];
  destruct p as [au0 me0 vi0 tk tk1 tk2 st ? ? ? ? ? fr pa ri ?];
  unfold reachable_shape, state_has_receiver, selections_in_range,
    selection_in_range, sampler_current, holds_after; simpl;
  intros (Hst & (Htk & Htk1 & Htk2) & Hsmp & Hfr).

Ltac reached :=
  unfold reachable_shape, state_has_receiver, selections_in_range,
    selection_in_range, sampler_current; simpl;
  repeat split; auto; try congruence;
  try (intros; repeat match goal with
                      | x : NDIlib_recv_instance_t |- _ => destruct x
                      | x : bool |- _ => destruct x
                      end; simpl in *; auto; congruence).

(** Runs a call on a world whose bound sinks are live: lookups of live sinks
    are resolved from the hypotheses, everything else by case analysis. *)
Ltac live_branch :=
  repeat (simpl;
          match goal with
          | H : ?m !! ?s = Some _ |- context [?m !! ?s] => rewrite H
          | |- context [<[?s := _]> _ !! ?s] => rewrite lookup_insert_eq
          | H : ?s <> ?t |- context [<[?s := _]> _ !! ?t] =>
              rewrite (lookup_insert_ne _ s t) by exact H
          | |- context [match ?c with _ => _ end] =>
              lazymatch c with
              | context [match _ with _ => _ end] => fail
              | context [_ !! _] => fail
              | _ => destruct c eqn:?
              end
          end).

Ltac live_done :=
  eexists; (split; [reflexivity|]); split;
  [ unfold bindings_valid; simpl; repeat split; intros ? E; (try discriminate E); (try injection E as <-);
    rewrite ?lookup_insert_eq; eauto
  | unfold same_sinks; simpl;
    rewrite ?dom_insert_lookup_L
      by (rewrite ?lookup_insert_eq, ?lookup_insert_ne by done; eauto);
    repeat split; reflexivity ].

Ltac liveness w :=
  destruct w as [p smp sr n au tx bi tr];
  destruct p as [au0 me0 vi0 tk tk1 tk2 st ? ? ? ? ? fr pa ri ?];
  unfold bindings_valid; simpl; intros (Hau & Hvi & Hme);
  destruct au0 as [sa|]; [destruct (Hau sa eq_refl) as [a Ha]|];
  (destruct vi0 as [sv|]; [destruct (Hvi sv eq_refl) as [v Hv]|]);
  (destruct me0 as [sm|]; [destruct (Hme sm eq_refl) as [b Hb]|]);
  clear Hau Hvi Hme.

(** * Properties *)

Section Properties.

Context {N A V B : Type}.
Context `{!NDIlib N, !IMediaAudioSink A, !IMediaTextureSink V, !IMediaBinarySink B}.

Local Abbreviation World := (World N A V B).

Lemma new_trace_app (w w' : World) (l : list (Event * Player)) :
  trace w' = trace w ++ l -> new_trace w w' = l.
Proof.
  intros E. unfold new_trace. rewrite E. apply drop_app_length.
Qed.

Lemma new_events_app (w w' : World) (l : list (Event * Player)) :
  trace w' = trace w ++ l -> new_events w w' = map fst l.
Proof.
  intros E. unfold new_events. by rewrite (new_trace_app _ _ _ E).
Qed.

(** [UpdateAudioSampler] always returns and touches the sampler only. *)
Lemma UpdateAudioSampler_eq (w : World) :
  UpdateAudioSampler w =
  Some (tt, {| player := player w;
               AudioSampler :=
                 if SamplingRule (player w) then ReceiverInstance (player w) else None;
               SamplesReceived := SamplesReceived w; ndi := ndi w;
               audio_sinks := audio_sinks w; texture_sinks := texture_sinks w;
               binary_sinks := binary_sinks w; trace := trace w |}).
Proof. reflexivity. Qed.

(** [Close] always returns; this is the world it leaves. *)
Lemma Close_eq (w : World) :
  exists w',
    Close w = Some (tt, w') /\
    closed w' /\
    AudioSink (player w') = AudioSink (player w) /\
    MetadataSink (player w') = MetadataSink (player w) /\
    VideoSink (player w') = VideoSink (player w) /\
    Paused (player w') = Paused (player w) /\
    VideoSinkFormat (player w') = VideoSinkFormat (player w) /\
    SamplesReceived w' = SamplesReceived w /\
    audio_sinks w' = audio_sinks w /\
    texture_sinks w' = texture_sinks w /\
    binary_sinks w' = binary_sinks w /\
    ndi w' = match ReceiverInstance (player w) with
             | Some h => NDIlib_recv_destroy (Some h) (ndi w)
             | None => ndi w
             end /\
    trace w' =
      trace w
      ++ match ReceiverInstance (player w) with
         | Some h => [(OnNdi (Call_recv_destroy (Some h)), player w)]
         | None => []
         end
      ++ [(Broadcast EMediaEvent.TracksChanged, player w');
          (Broadcast EMediaEvent.MediaClosed, player w')].
Proof.
  destruct w as [p smp sr n au tx bi tr]. destruct p. simpl.
  unfold Close, UpdateAudioSampler. unfold_M. simpl.
  destruct ReceiverInstance0 as [h|]; simpl.
  all: eexists; split; [reflexivity|]; unfold closed; simpl.
  all: rewrite <- ?app_assoc; simpl.
  all: repeat split; try reflexivity.
  all: unfold SamplingRule; simpl; by rewrite ?andb_false_r.
Qed.

Lemma notifications_app (l1 l2 : list Event) :
  notifications (l1 ++ l2) = notifications l1 ++ notifications l2.
Proof. unfold notifications. apply omap_app. Qed.

Lemma bind_Some {X Y : Type} (m : M N A V B X) (k : X -> M N A V B Y) (w w1 : World) (x : X) :
  m w = Some (x, w1) -> (m ≫= k) w = k x w1.
Proof. intros E. unfold mbind, M_bind. by rewrite E. Qed.

(** What every call of [Open] does, whatever its outcome. *)
Lemma Open_shape (platform : Platform) (Url : string) (Options : IMediaOptions) (w : World) :
  exists r w',
    Open platform Url Options w = Some (r, w') /\
    notifications (new_events w w') =
      [EMediaEvent.TracksChanged; EMediaEvent.MediaClosed]
      ++ (if r then [EMediaEvent.TracksChanged; EMediaEvent.MediaOpened] else []) /\
    CurrentUrl (player w') = (if r then Url else EmptyString) /\
    notnull (ReceiverInstance (player w')) = r /\
    AudioSampler w' = None /\
    SelectedAudioTrack (player w') = INDEX_NONE /\
    CurrentState (player w') = EMediaState.Closed.
Proof.
  destruct (Close_eq w) as (w1 & HC & Hcl & _ & _ & _ & _ & _ & _ & _ & _ & _ & _ & Htr).
  unfold Open, SendMetadata. rewrite (bind_Some _ _ _ _ _ HC).
  assert (Hn : exists l, trace w1 = trace w ++ l /\
                 notifications (map fst l) =
                   [EMediaEvent.TracksChanged; EMediaEvent.MediaClosed]).
  { eexists; split; [exact Htr|]. destruct (ReceiverInstance (player w)); reflexivity. }
  clear Htr HC. destruct Hn as (l & Htr & Hn).
  destruct Hcl as (HR & HS & HU & _ & _ & _ & _ & _ & HT & _ & _ & HA).
  destruct w1 as [p smp sr n au tx bi tr]. destruct p.
  simpl in Htr, HR, HS, HU, HT, HA. subst.
  unfold_M. simpl.
  repeat match goal with
    | |- context [notnull ?x] => destruct x; simpl
    | |- context [if ?c then _ else _] => destruct c eqn:?; simpl
    | |- context [let '(_, _) := ?c in _] => destruct c eqn:?; simpl
    end.
  all: eexists _, _; split; [reflexivity|].
  all: split; [|try done].
  all: try (erewrite new_events_app; [|simpl; rewrite <- ?app_assoc; reflexivity]).
  all: try (rewrite map_app, notifications_app, Hn; reflexivity).
  exact Hn.
Qed.

(** C2, as the code has it.  [Open] always returns.  It starts with an
    unconditional [Close], so the notifications of one call are TracksChanged
    and MediaClosed first; a successful call then broadcasts TracksChanged and
    MediaOpened, in this order, and nothing else.  The call succeeds exactly
    when it ends holding a receiver instance, and then it has recorded the
    locator. *)
Theorem Open_notifications (platform : Platform) (Url : string) (Options : IMediaOptions)
    (w : World) :
  exists r w',
    Open platform Url Options w = Some (r, w') /\
    notifications (new_events w w') =
      [EMediaEvent.TracksChanged; EMediaEvent.MediaClosed]
      ++ (if r then [EMediaEvent.TracksChanged; EMediaEvent.MediaOpened] else []) /\
    CurrentUrl (player w') = (if r then Url else EmptyString) /\
    notnull (ReceiverInstance (player w')) = r.
Proof.
  destruct (Open_shape platform Url Options w) as (r & w' & H1 & H2 & H3 & H4 & _).
  exists r, w'. auto.
Qed.

(** C3.  A locator that is empty or does not start with the scheme prefix
    makes [Open] return failure with the playback state Closed, the receiver
    instance null, and no receiver created in the course of the call. *)
Theorem Open_rejects_locator (platform : Platform) (Url : string) (Options : IMediaOptions)
    (w : World) :
  Url = EmptyString \/ FString.StartsWith Url "ndi://" = false ->
  exists w',
    Open platform Url Options w = Some (false, w') /\
    CurrentState (player w') = EMediaState.Closed /\
    ReceiverInstance (player w') = None /\
    forallb (fun e => negb (is_recv_create e)) (new_events w w') = true.
Proof.
  intros Hbad.
  destruct (Close_eq w) as (w1 & HC & Hcl & _ & _ & _ & _ & _ & _ & _ & _ & _ & _ & Htr).
  exists w1. unfold Open. rewrite (bind_Some _ _ _ _ _ HC).
  assert (E : FString.IsEmpty Url || negb (FString.StartsWith Url "ndi://") = true).
  { destruct Hbad as [-> | ->]; [reflexivity|]. apply orb_true_r. }
  rewrite E. destruct Hcl as (HR & HS & _).
  repeat split; try assumption.
  rewrite (new_events_app _ _ _ Htr).
  destruct (ReceiverInstance (player w)); reflexivity.
Qed.


(** C10.  With a receiver instance, [GetSelectedTrack] answers 0 for the
    audio, metadata and video kinds whatever selection is recorded, also
    right after a successful [SelectTrack] of [INDEX_NONE] for that kind;
    without a receiver instance it answers [INDEX_NONE] for every kind. *)
Theorem GetSelectedTrack_ignores_selection (w : World) (TrackType : EMediaTrackType.t) :
  (notnull (ReceiverInstance (player w)) = false ->
   GetSelectedTrack TrackType (player w) = INDEX_NONE) /\
  (TrackType = EMediaTrackType.Audio \/ TrackType = EMediaTrackType.Metadata
   \/ TrackType = EMediaTrackType.Video ->
   notnull (ReceiverInstance (player w)) = true ->
   GetSelectedTrack TrackType (player w) = 0 /\
   exists w',
     SelectTrack TrackType INDEX_NONE w = Some (true, w') /\
     match TrackType with
     | EMediaTrackType.Audio => SelectedAudioTrack (player w')
     | EMediaTrackType.Metadata => SelectedMetadataTrack (player w')
     | _ => SelectedVideoTrack (player w')
     end = INDEX_NONE /\
     ReceiverInstance (player w') = ReceiverInstance (player w) /\
     GetSelectedTrack TrackType (player w') = 0).
Proof.
  destruct w as [p smp sr n au tx bi tr]. destruct p. simpl. split.
  - intros E. unfold GetSelectedTrack. simpl. by rewrite E.
  - intros HT HR. unfold GetSelectedTrack, SelectTrack, UpdateAudioSampler.
    unfold_M. simpl. rewrite HR. simpl.
    destruct HT as [-> | [-> | ->]]; (split; [reflexivity|]).
    all: eexists; split; [reflexivity|]; simpl; by rewrite HR.
Qed.

(** *** The sampler between recomputations *)

Lemma TickPlayer_consistent (DeltaTime : Q) (w : World) :
  sampler_consistent w -> holds_after (TickPlayer DeltaTime) w sampler_consistent.
Proof.
  consistency w.
  all: unfold TickPlayer, CaptureMetadataFrame, UpdateAudioSampler; unfold_M.
  all: branch; done.
Qed.

Lemma TickVideo_consistent (DeltaTime : Q) (w : World) :
  sampler_consistent w -> holds_after (TickVideo DeltaTime) w sampler_consistent.
Proof.
  consistency w.
  all: unfold TickVideo, CaptureVideoFrame, ProcessVideoFrame; unfold_M.
  all: branch; done.
Qed.

Lemma SetAudioSink_consistent (Sink : option ptr) (w : World) :
  sampler_consistent w -> holds_after (SetAudioSink Sink) w sampler_consistent.
Proof.
  consistency w.
  all: unfold SetAudioSink, UpdateAudioSampler; unfold_M.
  all: branch; done.
Qed.

Lemma SetMetadataSink_consistent (Sink : option ptr) (w : World) :
  sampler_consistent w -> holds_after (SetMetadataSink Sink) w sampler_consistent.
Proof.
  consistency w.
  all: unfold SetMetadataSink; unfold_M.
  all: branch; done.
Qed.

Lemma SetVideoSink_consistent (Sink : option ptr) (w : World) :
  sampler_consistent w -> holds_after (SetVideoSink Sink) w sampler_consistent.
Proof.
  consistency w.
  all: unfold SetVideoSink; unfold_M.
  all: branch; done.
Qed.

Lemma SelectTrack_consistent (TrackType : EMediaTrackType.t) (TrackIndex : Z) (w : World) :
  sampler_consistent w -> holds_after (SelectTrack TrackType TrackIndex) w sampler_consistent.
Proof.
  consistency w.
  all: unfold SelectTrack, UpdateAudioSampler; unfold_M.
  all: branch; done.
Qed.

Lemma HandleAudioSamplerSample_consistent (AudioFrame : NDIlib_audio_frame_v2_t) (w : World) :
  sampler_consistent w ->
  holds_after (HandleAudioSamplerSample AudioFrame) w sampler_consistent.
Proof.
  consistency w.
  all: unfold HandleAudioSamplerSample, ProcessAudioFrame; unfold_M.
  all: branch; done.
Qed.

Lemma Close_consistent (w : World) : holds_after Close w sampler_consistent.
Proof.
  destruct (Close_eq w) as (w1 & HC & Hcl & _).
  unfold holds_after. rewrite HC.
  destruct Hcl as (_ & _ & _ & _ & _ & _ & _ & _ & HT & _ & _ & HA).
  unfold sampler_consistent, SamplingRule. rewrite HA, HT. simpl.
  by rewrite andb_false_r.
Qed.

Lemma Open_consistent (platform : Platform) (Url : string) (Options : IMediaOptions)
    (w : World) :
  holds_after (Open platform Url Options) w sampler_consistent.
Proof.
  destruct (Open_shape platform Url Options w) as (r & w' & HO & _ & _ & _ & HA & HT & _).
  unfold holds_after. rewrite HO.
  unfold sampler_consistent, SamplingRule. rewrite HA, HT. simpl.
  by rewrite andb_false_r.
Qed.

(** Every call but [SetRate] keeps the sampler consistent with the members. *)
Lemma exec_consistent (c : Call) (w : World) :
  is_SetRate c = false ->
  sampler_consistent w -> holds_after (exec c) w sampler_consistent.
Proof.
  intros Hc Hw. destruct c; try discriminate Hc; simpl.
  - pose proof (Open_consistent platform Url Options w) as H.
    unfold holds_after in *. unfold mbind, M_bind, mret, M_ret.
    by destruct (Open platform Url Options w) as [[? ?]|].
  - apply Close_consistent.
  - by apply TickPlayer_consistent.
  - by apply TickVideo_consistent.
  - by apply SetAudioSink_consistent.
  - by apply SetMetadataSink_consistent.
  - by apply SetVideoSink_consistent.
  - pose proof (SelectTrack_consistent TrackType TrackIndex w Hw) as H.
    unfold holds_after in *. unfold mbind, M_bind, mret, M_ret.
    by destruct (SelectTrack TrackType TrackIndex w) as [[? ?]|].
  - by apply HandleAudioSamplerSample_consistent.
Qed.

Lemma run_consistent (cs : list Call) (w : World) :
  forallb (fun c => negb (is_SetRate c)) cs = true ->
  sampler_consistent w -> holds_after (run cs) w sampler_consistent.
Proof.
  revert w. induction cs as [|c cs IH]; intros w Hcs Hw.
  - exact Hw.
  - simpl in Hcs. apply andb_true_iff in Hcs as [Hc Hcs].
    apply negb_true_iff in Hc.
    pose proof (exec_consistent c w Hc Hw) as H.
    unfold holds_after in *. cbn [run]. unfold mbind, M_bind.
    destruct (exec c w) as [[[] w1]|]; [|done].
    by apply IH.
Qed.

(** C4, as the code has it.  The rule of the specification decides what the
    sampler is handed at each recomputation: [UpdateAudioSampler] always
    returns, changes nothing but the sampler, and leaves the sampling activity
    enabled exactly when there is a receiver instance and the pause flag is
    not set and an audio sink is bound and the audio selection is track 0.
    This state of affairs holds after construction and survives every
    sequence of calls without [SetRate].  [SelectTrack] of audio track 1
    returns false and changes nothing; [SelectTrack] of [INDEX_NONE] for audio
    returns true and disables the sampling activity. *)
Theorem sampler_follows_rule_at_recomputation :
  (forall w : World,
      exists w',
        UpdateAudioSampler w = Some (tt, w') /\
        player w' = player w /\
        sampler_consistent w' /\
        sampler_enabled w' =
          notnull (ReceiverInstance (player w')) && SamplingRule (player w')) /\
  (forall (n : N) (audio : gmap ptr A) (texture : gmap ptr V) (binary : gmap ptr B),
      sampler_consistent (fresh n audio texture binary)) /\
  (forall (cs : list Call) (w w' : World),
      forallb (fun c => negb (is_SetRate c)) cs = true ->
      sampler_consistent w ->
      run cs w = Some (tt, w') ->
      sampler_consistent w' /\
      sampler_enabled w' =
        notnull (ReceiverInstance (player w')) && SamplingRule (player w')) /\
  (forall w : World, SelectTrack EMediaTrackType.Audio 1 w = Some (false, w)) /\
  (forall w : World,
      exists w',
        SelectTrack EMediaTrackType.Audio INDEX_NONE w = Some (true, w') /\
        SelectedAudioTrack (player w') = INDEX_NONE /\
        sampler_enabled w' = false).
Proof.
  assert (Hen : forall w : World, sampler_consistent w ->
            sampler_enabled w =
              notnull (ReceiverInstance (player w)) && SamplingRule (player w)).
  { intros w Hw. unfold sampler_enabled. rewrite Hw.
    destruct (SamplingRule (player w)); simpl; by rewrite ?andb_true_r, ?andb_false_r. }
  split; [|split; [|split; [|split]]].
  - intros w. rewrite UpdateAudioSampler_eq. eexists; split; [reflexivity|].
    split; [reflexivity|].
    assert (Hc : sampler_consistent
                   {| player := player w;
                      AudioSampler :=
                        if SamplingRule (player w) then ReceiverInstance (player w) else None;
                      SamplesReceived := SamplesReceived w; ndi := ndi w;
                      audio_sinks := audio_sinks w; texture_sinks := texture_sinks w;
                      binary_sinks := binary_sinks w; trace := trace w |}) by reflexivity.
    split; [exact Hc|]. by apply Hen.
  - intros. reflexivity.
  - intros cs w w' Hcs Hw Hrun.
    pose proof (run_consistent cs w Hcs Hw) as H.
    unfold holds_after in H. rewrite Hrun in H. split; [exact H|]. by apply Hen.
  - intros w. destruct w as [p smp sr n au tx bi tr]. reflexivity.
  - intros w. destruct w as [p smp sr n au tx bi tr]. destruct p.
    unfold SelectTrack, UpdateAudioSampler. unfold_M. simpl.
    eexists; split; [reflexivity|]. simpl. split; [reflexivity|].
    unfold sampler_enabled, SamplingRule. simpl. by rewrite andb_false_r.
Qed.

(** C1, as the code has it.  With a receiver instance, [TickPlayer] computes
    the target state: Paused if the pause flag is set, else Playing if the
    connection count is not zero, else Preparing.  When the target differs
    from the current state and an audio sink is bound, the tick sets the
    current state to the target, recomputes the sampler, and makes exactly
    these notifications and audio-sink calls, in this order: PlaybackResumed
    and the sink's resume when the target is Playing; otherwise
    PlaybackSuspended, the sink's pause and then its flush.  When the target
    equals the current state, or no audio sink is bound, the tick changes
    neither the state nor the sampler and makes no such call. *)
Theorem TickPlayer_transition (DeltaTime : Q) (w : World) (h : handle) :
  bindings_valid w ->
  ReceiverInstance (player w) = Some h ->
  0 <= NDIlib_recv_get_no_connections (Some h) (ndi w) ->
  let target :=
    TargetState (Paused (player w)) (NDIlib_recv_get_no_connections (Some h) (ndi w)) in
  exists w',
    TickPlayer DeltaTime w = Some (tt, w') /\
    match AudioSink (player w) with
    | Some s =>
        if bool_decide (target = CurrentState (player w)) then
          CurrentState (player w') = CurrentState (player w) /\
          AudioSampler w' = AudioSampler w /\
          playback_events (new_events w w') = []
        else
          CurrentState (player w') = target /\
          sampler_consistent w' /\
          playback_events (new_events w w') =
            if bool_decide (target = EMediaState.Playing)
            then [Broadcast EMediaEvent.PlaybackResumed; OnAudioSink s Call_ResumeAudioSink]
            else [Broadcast EMediaEvent.PlaybackSuspended;
                  OnAudioSink s Call_PauseAudioSink; OnAudioSink s Call_FlushAudioSink]
    | None =>
        CurrentState (player w') = CurrentState (player w) /\
        AudioSampler w' = AudioSampler w /\
        playback_events (new_events w w') = []
    end.
Proof.
  destruct w as [p smp sr n au tx bi tr].
  destruct p as [au0 me0 vi0 tk ? ? st ? ? ? ? ? ? pa ri ?].
  unfold bindings_valid. simpl. intros (Hau & _ & Hme) -> Hconn.
  assert (Ht : TargetState pa (NDIlib_recv_get_no_connections (Some h) n) =
               if pa then EMediaState.Paused
               else if 0 <? NDIlib_recv_get_no_connections (Some h) n
                    then EMediaState.Playing else EMediaState.Preparing).
  { unfold TargetState. destruct pa; [reflexivity|].
    destruct (Z.eqb_spec (NDIlib_recv_get_no_connections (Some h) n) 0) as [E|E];
      destruct (Z.ltb_spec 0 (NDIlib_recv_get_no_connections (Some h) n)); simpl;
      try reflexivity; lia. }
  rewrite Ht. clear Ht.
  set (target := if pa then EMediaState.Paused
                 else if 0 <? NDIlib_recv_get_no_connections (Some h) n
                      then EMediaState.Playing else EMediaState.Preparing).
  unfold TickPlayer, CaptureMetadataFrame, UpdateAudioSampler. unfold_M. simpl.
  fold target.
  destruct au0 as [s|], me0 as [m|]; simpl;
    destruct (bool_decide (target = st)) eqn:Est; simpl;
    destruct (bool_decide (target = EMediaState.Playing)) eqn:Epl; simpl.
  1-4: destruct (Hau s eq_refl) as [a Ha]; destruct (Hme m eq_refl) as [b Hb];
       rewrite ?Ha; simpl; rewrite ?lookup_insert_eq; simpl;
       destruct (NDIlib_recv_capture_v2 (Some h) CaptureMetadata 0 n) as [[] n'];
       simpl; rewrite ?Hb; simpl; tick_done.
  1-4: destruct (Hau s eq_refl) as [a Ha];
       rewrite ?Ha; simpl; rewrite ?lookup_insert_eq; simpl; tick_done.
  1-4: destruct (Hme m eq_refl) as [b Hb];
       destruct (NDIlib_recv_capture_v2 (Some h) CaptureMetadata 0 n) as [[] n'];
       simpl; rewrite ?Hb; simpl; tick_done.
  all: tick_done.
Qed.

(** *** Audio frames *)

Lemma to_int32_small (x : Z) : - 2 ^ 31 <= x <= Int.INT32_MAX -> Int.to_int32 x = x.
Proof.
  unfold Int.to_int32, Int.wrap_signed, Int.INT32_MAX. intros Hx.
  rewrite Z.mod_small; lia.
Qed.

Lemma to_uint32_small (x : Z) : 0 <= x < 2 ^ 32 -> Int.to_uint32 x = x.
Proof. unfold Int.to_uint32, Int.wrap_unsigned. intros Hx. by apply Z.mod_small. Qed.

Lemma to_uint64_small (x : Z) : 0 <= x < 2 ^ 64 -> Int.to_uint64 x = x.
Proof. unfold Int.to_uint64, Int.wrap_unsigned. intros Hx. by apply Z.mod_small. Qed.

(** The byte count handed to the play hook is the exact product for every
    frame whose sample count times channel count is representable. *)
Lemma BufferSize_exact (f : NDIlib_audio_frame_v2_t) :
  0 <= no_samples f -> 0 <= no_channels f -> no_samples f * no_channels f <= Int.INT32_MAX ->
  BufferSize f = no_samples f * no_channels f * 2.
Proof.
  unfold BufferSize. generalize (no_samples f) (no_channels f). intros samples channels.
  intros Hs Hc Hp. unfold Int.INT32_MAX in Hp.
  assert (0 <= samples * channels) by lia.
  rewrite to_int32_small by (unfold Int.INT32_MAX; lia).
  rewrite (to_uint32_small (samples * channels)) by lia.
  unfold Int.sizeof_int16.
  rewrite to_uint64_small by lia.
  apply to_uint32_small. lia.
Qed.

(** One audio frame on a player whose bound sink, if any, is a live object:
    what is stored, what is called, and what becomes of the sink. *)
Lemma ProcessAudioFrame_calls (AudioFrame : NDIlib_audio_frame_v2_t) (w : World) :
  bindings_valid w ->
  exists w',
    ProcessAudioFrame AudioFrame w = Some (tt, w') /\
    LastAudioChannels (player w') = no_channels AudioFrame /\
    LastAudioSampleRate (player w') = sample_rate AudioFrame /\
    match AudioSink (player w) with
    | None => new_events w w' = [] /\ audio_sinks w' = audio_sinks w
    | Some s =>
        exists a, audio_sinks w !! s = Some a /\
        let Channels := no_channels AudioFrame in
        let SampleRate := sample_rate AudioFrame in
        let changed :=
          negb (GetAudioSinkChannels a =? Channels)
          || negb (GetAudioSinkSampleRate a =? SampleRate) in
        let initialize :=
          if changed then [OnAudioSink s (Call_InitializeAudioSink Channels SampleRate)]
          else [] in
        let initialised :=
          if changed then InitializeAudioSink Channels SampleRate a else (true, a) in
        let Buffer := NDIlib_util_audio_to_interleaved_16s_v2 AudioFrame 20 in
        let Time := audio_timecode AudioFrame in
        if fst initialised then
          new_events w w' =
            initialize
            ++ [OnAudioSink s (Call_PlayAudioSink Buffer (BufferSize AudioFrame) Time)] /\
          audio_sinks w' =
            <[s := PlayAudioSink Buffer (BufferSize AudioFrame) Time (snd initialised)]>
              (audio_sinks w)
        else
          new_events w w' = initialize /\
          audio_sinks w' = <[s := snd initialised]> (audio_sinks w)
    end.
Proof.
  destruct w as [p smp sr n au tx bi tr].
  destruct p as [au0 me0 vi0 tk ? ? st ? ? ? ? ? ? pa ri ?].
  unfold bindings_valid. simpl. intros (Hau & _ & _).
  unfold ProcessAudioFrame. unfold_M. simpl.
  fold (BufferSize AudioFrame).
  destruct au0 as [s|]; simpl.
  2: { eexists; (split; [reflexivity|]); simpl.
       do 2 (split; [reflexivity|]).
       split; [|reflexivity].
       unfold new_events, new_trace; simpl. by rewrite drop_all. }
  destruct (Hau s eq_refl) as [a Ha]. rewrite Ha. simpl. rewrite Ha. simpl.
  destruct (negb (GetAudioSinkChannels a =? no_channels AudioFrame)
            || negb (GetAudioSinkSampleRate a =? sample_rate AudioFrame)) eqn:Ech; simpl.
  - rewrite Ha. simpl.
    destruct (InitializeAudioSink (no_channels AudioFrame) (sample_rate AudioFrame) a)
      as [[] a'] eqn:Ei; simpl; rewrite ?lookup_insert_eq; simpl.
    all: eexists; (split; [reflexivity|]); simpl.
    all: do 2 (split; [reflexivity|]).
    all: exists a; split; [reflexivity|]; rewrite Ech, Ei; simpl.
    all: rewrite ?insert_insert_eq.
    all: split; [|reflexivity].
    all: unfold new_events, new_trace; simpl.
    all: by rewrite <- ?app_assoc, ?drop_app_length.
  - rewrite Ha. simpl.
    eexists; (split; [reflexivity|]); simpl.
    do 2 (split; [reflexivity|]).
    exists a; split; [reflexivity|]; rewrite Ech; simpl.
    split; [|reflexivity].
    unfold new_events, new_trace; simpl.
    by rewrite <- ?app_assoc, ?drop_app_length.
Qed.

(** C5, as the code has it.  [ProcessAudioFrame] returns and stores the
    frame's channel count and sample rate in the format cache, with or
    without an audio sink.  With a sink bound, the sink is initialised again
    only if it reports another channel count or sample rate; if that is not
    needed or succeeds, the play hook is the last call made: it receives the
    converted buffer, the byte count and the frame's own timecode, and the
    sink is left as the play hook leaves it.  If the initialisation fails,
    nothing is played and the sink is left as the failed call leaves it.  The
    byte count is exactly samples times channels times two when the sample
    and channel counts are natural numbers whose product fits an [int]. *)
Theorem ProcessAudioFrame_forwards (AudioFrame : NDIlib_audio_frame_v2_t) (w : World) :
  bindings_valid w ->
  exists w',
    ProcessAudioFrame AudioFrame w = Some (tt, w') /\
    LastAudioChannels (player w') = no_channels AudioFrame /\
    LastAudioSampleRate (player w') = sample_rate AudioFrame /\
    match AudioSink (player w) with
    | None => new_events w w' = [] /\ audio_sinks w' = audio_sinks w
    | Some s =>
        exists a, audio_sinks w !! s = Some a /\
        let Channels := no_channels AudioFrame in
        let SampleRate := sample_rate AudioFrame in
        let changed :=
          negb (GetAudioSinkChannels a =? Channels)
          || negb (GetAudioSinkSampleRate a =? SampleRate) in
        let initialize :=
          if changed then [OnAudioSink s (Call_InitializeAudioSink Channels SampleRate)]
          else [] in
        let initialised :=
          if changed then InitializeAudioSink Channels SampleRate a else (true, a) in
        let Buffer := NDIlib_util_audio_to_interleaved_16s_v2 AudioFrame 20 in
        let Time := audio_timecode AudioFrame in
        if fst initialised then
          new_events w w' =
            initialize
            ++ [OnAudioSink s (Call_PlayAudioSink Buffer (BufferSize AudioFrame) Time)] /\
          audio_sinks w' =
            <[s := PlayAudioSink Buffer (BufferSize AudioFrame) Time (snd initialised)]>
              (audio_sinks w)
        else
          new_events w w' = initialize /\
          audio_sinks w' = <[s := snd initialised]> (audio_sinks w)
    end /\
    (0 <= no_samples AudioFrame ->
     0 <= no_channels AudioFrame ->
     no_samples AudioFrame * no_channels AudioFrame <= Int.INT32_MAX ->
     BufferSize AudioFrame = no_samples AudioFrame * no_channels AudioFrame * 2).
Proof.
  intros Hw.
  destruct (ProcessAudioFrame_calls AudioFrame w Hw) as (w' & HP & HC & HR & HE).
  exists w'. split; [exact HP|]. split; [exact HC|]. split; [exact HR|].
  split; [exact HE|apply BufferSize_exact].
Qed.

(** *** Video frames *)

(** One video frame on a bound, live texture sink. *)
Lemma ProcessVideoFrame_bound (VideoFrame : NDIlib_video_frame_v2_t) (w : World)
    (s : ptr) (v : V) :
  VideoSink (player w) = Some s ->
  texture_sinks w !! s = Some v ->
  let Format := VideoSinkFormat (player w) in
  let changed := format_changed v Format VideoFrame in
  let init :=
    if changed
    then InitializeTextureSink (VideoDim VideoFrame) (BufferDim VideoFrame) Format
           EMediaTextureSinkMode.Unbuffered v
    else (true, v) in
  exists w' l,
    ProcessVideoFrame VideoFrame w = Some (tt, w') /\
    VideoSink (player w') = Some s /\
    VideoSinkFormat (player w') = Format /\
    LastVideoDim (player w') = VideoDim VideoFrame /\
    LastBufferDim (player w') = BufferDim VideoFrame /\
    texture_sinks w' !! s =
      Some (if fst init
            then DisplayTextureSinkBuffer (video_timecode VideoFrame)
                   (UpdateTextureSinkBuffer (video_p_data VideoFrame)
                      (line_stride_in_bytes VideoFrame) (snd init))
            else snd init) /\
    trace w' = trace w ++ l /\
    map fst l =
      (if changed
       then [OnTextureSink s
               (Call_InitializeTextureSink (VideoDim VideoFrame) (BufferDim VideoFrame)
                  Format EMediaTextureSinkMode.Unbuffered)]
       else [])
      ++ (if fst init
          then [OnTextureSink s
                  (Call_UpdateTextureSinkBuffer (video_p_data VideoFrame)
                     (line_stride_in_bytes VideoFrame));
                OnTextureSink s (Call_DisplayTextureSinkBuffer (video_timecode VideoFrame))]
          else []).
Proof.
  destruct w as [p smp sr n au tx bi tr].
  destruct p as [au0 me0 vi0 tk ? ? st ? ? ? ? ? ? pa ri fmt].
  simpl. intros -> Hv.
  unfold ProcessVideoFrame. unfold_M. simpl.
  rewrite Hv. simpl. rewrite Hv. simpl.
  unfold format_changed, VideoDim, BufferDim. simpl.
  destruct (negb (bool_decide (GetTextureSinkFormat v = fmt))
            || negb (bool_decide
                       (GetTextureSinkDimensions v
                        = {| X := xres VideoFrame; Y := yres VideoFrame |}))) eqn:Ech;
    simpl.
  - rewrite Hv. simpl.
    destruct (InitializeTextureSink {| X := xres VideoFrame; Y := yres VideoFrame |}
                {| X := Z.quot (line_stride_in_bytes VideoFrame) 4; Y := yres VideoFrame |}
                fmt EMediaTextureSinkMode.Unbuffered v) as [[] v'] eqn:Ei; simpl;
      rewrite ?lookup_insert_eq; simpl; rewrite ?lookup_insert_eq; simpl.
    all: eexists _, _; (split; [reflexivity|]); simpl.
    all: rewrite ?lookup_insert_eq, <- ?app_assoc.
    all: repeat split; reflexivity.
  - rewrite Hv. simpl. rewrite ?lookup_insert_eq; simpl.
    eexists _, _; (split; [reflexivity|]); simpl.
    rewrite ?lookup_insert_eq, <- ?app_assoc.
    repeat split; reflexivity.
Qed.

(** C6, as the code has it.  A video frame delivered to a bound sink makes no
    initialize call when the sink reports the player's format and the frame's
    dimensions; otherwise it makes exactly one, with the frame's dimensions,
    and if that call fails neither the buffer-update nor the display hook is
    invoked.  For two consecutive frames with identical dimensions the
    initialize hook is invoked at most once, on the first, provided the sink
    reports what it was last initialised with and the first frame was not
    dropped by a failing initialize call.  After a failing initialize call
    the next frame makes the call again exactly when the sink, as the failing
    call left it, still reports another format or other dimensions than the
    player's format and that frame's dimensions. *)
Theorem ProcessVideoFrame_initializes_on_change :
  (forall (VideoFrame : NDIlib_video_frame_v2_t) (w : World) (s : ptr) (v : V),
      VideoSink (player w) = Some s ->
      texture_sinks w !! s = Some v ->
      let Format := VideoSinkFormat (player w) in
      let Initialize :=
        Call_InitializeTextureSink (VideoDim VideoFrame) (BufferDim VideoFrame) Format
          EMediaTextureSinkMode.Unbuffered in
      let forward :=
        [OnTextureSink s
           (Call_UpdateTextureSinkBuffer (video_p_data VideoFrame)
              (line_stride_in_bytes VideoFrame));
         OnTextureSink s (Call_DisplayTextureSinkBuffer (video_timecode VideoFrame))] in
      exists w',
        ProcessVideoFrame VideoFrame w = Some (tt, w') /\
        new_events w w' =
          if format_changed v Format VideoFrame then
            if fst (InitializeTextureSink (VideoDim VideoFrame) (BufferDim VideoFrame)
                      Format EMediaTextureSinkMode.Unbuffered v)
            then OnTextureSink s Initialize :: forward
            else [OnTextureSink s Initialize]
          else forward) /\
  (forall (Frame1 Frame2 : NDIlib_video_frame_v2_t) (w : World) (s : ptr) (v : V),
      reports_initialisation ->
      VideoSink (player w) = Some s ->
      texture_sinks w !! s = Some v ->
      VideoDim Frame1 = VideoDim Frame2 ->
      negb (format_changed v (VideoSinkFormat (player w)) Frame1)
      || fst (InitializeTextureSink (VideoDim Frame1) (BufferDim Frame1)
                (VideoSinkFormat (player w)) EMediaTextureSinkMode.Unbuffered v) = true ->
      exists w1 w2,
        ProcessVideoFrame Frame1 w = Some (tt, w1) /\
        ProcessVideoFrame Frame2 w1 = Some (tt, w2) /\
        count_InitializeTextureSink (new_events w1 w2) = 0%nat /\
        (count_InitializeTextureSink (new_events w w2) <= 1)%nat) /\
  (forall (Frame1 Frame2 : NDIlib_video_frame_v2_t) (w : World) (s : ptr) (v v' : V),
      VideoSink (player w) = Some s ->
      texture_sinks w !! s = Some v ->
      format_changed v (VideoSinkFormat (player w)) Frame1 = true ->
      InitializeTextureSink (VideoDim Frame1) (BufferDim Frame1)
        (VideoSinkFormat (player w)) EMediaTextureSinkMode.Unbuffered v = (false, v') ->
      exists w1 w2,
        ProcessVideoFrame Frame1 w = Some (tt, w1) /\
        ProcessVideoFrame Frame2 w1 = Some (tt, w2) /\
        texture_sinks w1 !! s = Some v' /\
        count_InitializeTextureSink (new_events w1 w2) =
          (if format_changed v' (VideoSinkFormat (player w)) Frame2 then 1 else 0)%nat).
Proof.
  split; [|split].
  - intros VideoFrame w s v Hs Hv. simpl.
    destruct (ProcessVideoFrame_bound VideoFrame w s v Hs Hv)
      as (w' & l & HP & _ & _ & _ & _ & _ & Htr & Hl).
    exists w'. split; [exact HP|].
    rewrite (new_events_app _ _ _ Htr), Hl.
    destruct (format_changed v (VideoSinkFormat (player w)) VideoFrame); simpl.
    + by destruct (InitializeTextureSink _ _ _ _ v) as [[] ?].
    + reflexivity.
  - intros Frame1 Frame2 w s v (Hinit & Hupd & Hdisp) Hs Hv Hdim Hok.
    destruct (ProcessVideoFrame_bound Frame1 w s v Hs Hv)
      as (w1 & l1 & HP1 & Hs1 & Hf1 & _ & _ & Hv1 & Htr1 & Hl1).
    set (Format := VideoSinkFormat (player w)) in *.
    set (init1 := if format_changed v Format Frame1
                  then InitializeTextureSink (VideoDim Frame1) (BufferDim Frame1) Format
                         EMediaTextureSinkMode.Unbuffered v
                  else (true, v)) in *.
    assert (Hfst : fst init1 = true).
    { subst init1. destruct (format_changed v Format Frame1); [exact Hok|reflexivity]. }
    assert (Hrep : GetTextureSinkFormat (snd init1) = Format /\
                   GetTextureSinkDimensions (snd init1) = VideoDim Frame1).
    { subst init1. destruct (format_changed v Format Frame1) eqn:Ech.
      - simpl in Hok.
        destruct (InitializeTextureSink (VideoDim Frame1) (BufferDim Frame1) Format
                    EMediaTextureSinkMode.Unbuffered v) as [ok v'] eqn:Ei.
        simpl in Hok. subst ok. simpl. by apply (Hinit _ _ _ _ _ _ Ei).
      - simpl. unfold format_changed in Ech.
        apply orb_false_iff in Ech as [E1 E2].
        apply negb_false_iff, bool_decide_eq_true in E1.
        apply negb_false_iff, bool_decide_eq_true in E2. done. }
    rewrite Hfst in Hv1, Hl1.
    destruct (ProcessVideoFrame_bound Frame2 w1 s _ Hs1 Hv1)
      as (w2 & l2 & HP2 & _ & _ & _ & _ & _ & Htr2 & Hl2).
    assert (Ech2 : format_changed
                     (DisplayTextureSinkBuffer (video_timecode Frame1)
                        (UpdateTextureSinkBuffer (video_p_data Frame1)
                           (line_stride_in_bytes Frame1) (snd init1)))
                     (VideoSinkFormat (player w1)) Frame2 = false).
    { unfold format_changed.
      destruct (Hdisp (video_timecode Frame1)
                  (UpdateTextureSinkBuffer (video_p_data Frame1)
                     (line_stride_in_bytes Frame1) (snd init1))) as [-> ->].
      destruct (Hupd (video_p_data Frame1) (line_stride_in_bytes Frame1) (snd init1))
        as [-> ->].
      destruct Hrep as [-> ->]. rewrite Hf1, <- Hdim.
      by rewrite !bool_decide_eq_true_2. }
    rewrite Ech2 in Hl2. simpl in Hl2.
    exists w1, w2. split; [exact HP1|]. split; [exact HP2|].
    split.
    + by rewrite (new_events_app _ _ _ Htr2), Hl2.
    + assert (Htr : trace w2 = trace w ++ (l1 ++ l2)).
      { by rewrite Htr2, Htr1, app_assoc. }
      rewrite (new_events_app _ _ _ Htr), map_app, Hl1, Hl2.
      destruct (format_changed v Format Frame1); cbv; lia.
  - intros Frame1 Frame2 w s v v' Hs Hv Hch Hi.
    destruct (ProcessVideoFrame_bound Frame1 w s v Hs Hv)
      as (w1 & l1 & HP1 & Hs1 & Hf1 & _ & _ & Hv1 & _ & _).
    rewrite Hch, Hi in Hv1. simpl in Hv1.
    destruct (ProcessVideoFrame_bound Frame2 w1 s v' Hs1 Hv1)
      as (w2 & l2 & HP2 & _ & _ & _ & _ & _ & Htr2 & Hl2).
    exists w1, w2. split; [exact HP1|]. split; [exact HP2|]. split; [exact Hv1|].
    rewrite (new_events_app _ _ _ Htr2), Hl2, Hf1.
    destruct (format_changed v' (VideoSinkFormat (player w)) Frame2); simpl.
    + match goal with |- context [fst ?c] => destruct c as [[] ?] end; reflexivity.
    + reflexivity.
Qed.

(** *** Sink binding *)

(** C7, as the code has it.  Binding the sink that is already bound changes
    nothing and calls nothing.  Otherwise the shutdown hook of the previous
    sink is invoked if there was one, then the initialize hook of the new
    sink if one is supplied, with the cached format of its kind, and the new
    binding is the one recorded when the call returns; audio rebinding also
    recomputes the sampler.  For the audio and the metadata sink the
    initialize hook runs while the player still holds the previous binding;
    for the video sink the new binding is recorded first, and the initialize
    hook runs with the new binding in place. *)
Theorem sink_binding (Sink : option ptr) (w : World) :
  (Sink = AudioSink (player w) -> SetAudioSink Sink w = Some (tt, w)) /\
  (Sink = MetadataSink (player w) -> SetMetadataSink Sink w = Some (tt, w)) /\
  (Sink = VideoSink (player w) -> SetVideoSink Sink w = Some (tt, w)) /\
  (Sink <> AudioSink (player w) ->
   (forall s, AudioSink (player w) = Some s \/ Sink = Some s ->
              is_Some (audio_sinks w !! s)) ->
   exists w',
     SetAudioSink Sink w = Some (tt, w') /\
     AudioSink (player w') = Sink /\
     sampler_consistent w' /\
     new_trace w w' =
       match AudioSink (player w) with
       | Some old => [(OnAudioSink old Call_ShutdownAudioSink, player w)]
       | None => []
       end
       ++ match Sink with
          | Some new =>
              [(OnAudioSink new
                  (Call_InitializeAudioSink (LastAudioChannels (player w))
                     (LastAudioSampleRate (player w))),
                player w)]
          | None => []
          end) /\
  (Sink <> MetadataSink (player w) ->
   (forall s, MetadataSink (player w) = Some s \/ Sink = Some s ->
              is_Some (binary_sinks w !! s)) ->
   exists w',
     SetMetadataSink Sink w = Some (tt, w') /\
     MetadataSink (player w') = Sink /\
     new_trace w w' =
       match MetadataSink (player w) with
       | Some old => [(OnBinarySink old Call_ShutdownBinarySink, player w)]
       | None => []
       end
       ++ match Sink with
          | Some new => [(OnBinarySink new Call_InitializeBinarySink, player w)]
          | None => []
          end) /\
  (Sink <> VideoSink (player w) ->
   (forall s, VideoSink (player w) = Some s \/ Sink = Some s ->
              is_Some (texture_sinks w !! s)) ->
   exists w',
     SetVideoSink Sink w = Some (tt, w') /\
     VideoSink (player w') = Sink /\
     new_trace w w' =
       match VideoSink (player w) with
       | Some old => [(OnTextureSink old Call_ShutdownTextureSink, player w)]
       | None => []
       end
       ++ match Sink with
          | Some new =>
              [(OnTextureSink new
                  (Call_InitializeTextureSink (LastVideoDim (player w))
                     (LastBufferDim (player w)) (VideoSinkFormat (player w))
                     EMediaTextureSinkMode.Unbuffered),
                set_VideoSink Sink (player w))]
          | None => []
          end).
Proof.
  destruct w as [p smp sr n au tx bi tr].
  destruct p as [au0 me0 vi0 tk ? ? st ? ? ? ? ? ? pa ri fmt].
  simpl. repeat split.
  - intros ->. unfold SetAudioSink. unfold_M. simpl. by rewrite bool_decide_eq_true_2.
  - intros ->. unfold SetMetadataSink. unfold_M. simpl. by rewrite bool_decide_eq_true_2.
  - intros ->. unfold SetVideoSink. unfold_M. simpl. by rewrite bool_decide_eq_true_2.
  - intros Hne Hlive. unfold SetAudioSink, UpdateAudioSampler. unfold_M. simpl.
    rewrite bool_decide_eq_false_2 by exact Hne.
    destruct au0 as [old|], Sink as [new|]; simpl; try done.
    + destruct (Hlive old (or_introl eq_refl)) as [a Ha].
      destruct (Hlive new (or_intror eq_refl)) as [b Hb].
      assert (old <> new) by congruence.
      rewrite Ha. simpl. rewrite lookup_insert_ne, Hb by done. simpl.
      destruct (InitializeAudioSink _ _ b) as [ok b']. simpl. tick_done.
    + destruct (Hlive old (or_introl eq_refl)) as [a Ha].
      rewrite Ha. simpl. tick_done.
    + destruct (Hlive new (or_intror eq_refl)) as [b Hb].
      rewrite Hb. simpl.
      destruct (InitializeAudioSink _ _ b) as [ok b']. simpl. tick_done.
  - intros Hne Hlive. unfold SetMetadataSink. unfold_M. simpl.
    rewrite bool_decide_eq_false_2 by exact Hne.
    destruct me0 as [old|], Sink as [new|]; simpl; try done.
    + destruct (Hlive old (or_introl eq_refl)) as [a Ha].
      destruct (Hlive new (or_intror eq_refl)) as [b Hb].
      assert (old <> new) by congruence.
      rewrite Ha. simpl. rewrite lookup_insert_ne, Hb by done. simpl.
      destruct (InitializeBinarySink b) as [ok b']. simpl. tick_done.
    + destruct (Hlive old (or_introl eq_refl)) as [a Ha].
      rewrite Ha. simpl. tick_done.
    + destruct (Hlive new (or_intror eq_refl)) as [b Hb].
      rewrite Hb. simpl.
      destruct (InitializeBinarySink b) as [ok b']. simpl. tick_done.
  - intros Hne Hlive. unfold SetVideoSink. unfold_M. simpl.
    rewrite bool_decide_eq_false_2 by exact Hne.
    destruct vi0 as [old|], Sink as [new|]; simpl; try done.
    + destruct (Hlive old (or_introl eq_refl)) as [a Ha].
      destruct (Hlive new (or_intror eq_refl)) as [b Hb].
      assert (old <> new) by congruence.
      rewrite Ha. simpl. rewrite lookup_insert_ne, Hb by done. simpl.
      destruct (InitializeTextureSink _ _ _ _ b) as [ok b']. simpl. tick_done.
    + destruct (Hlive old (or_introl eq_refl)) as [a Ha].
      rewrite Ha. simpl. tick_done.
    + destruct (Hlive new (or_intror eq_refl)) as [b Hb].
      rewrite Hb. simpl.
      destruct (InitializeTextureSink _ _ _ _ b) as [ok b']. simpl. tick_done.
Qed.

(** *** Format hints *)

(** The format payload does not depend on the numerator key: two options
    objects that differ on it at most give the same payload. *)
Lemma FormatMetadata_ignores_FrameRateNOption (Options Options' : IMediaOptions) :
  (forall k d, k <> NdiMedia.FrameRateNOption ->
               GetMediaOption_int64 Options k d = GetMediaOption_int64 Options' k d) ->
  (forall k d, GetMediaOption_FString Options k d = GetMediaOption_FString Options' k d) ->
  FormatMetadata Options = FormatMetadata Options'.
Proof.
  intros Hkey Hstr.
  unfold FormatMetadata, AudioFormatString, VideoFormatString.
  rewrite (Hkey NdiMedia.AudioChannelsOption 0) by discriminate.
  rewrite (Hkey NdiMedia.AudioSampleRateOption 0) by discriminate.
  rewrite (Hkey NdiMedia.FrameRateDOption 0) by discriminate.
  rewrite (Hkey NdiMedia.VideoHeightOption 0) by discriminate.
  rewrite (Hkey NdiMedia.VideoWidthOption 0) by discriminate.
  by rewrite Hstr.
Qed.

(** * More of the player

    Properties of the member functions beyond the claims above. *)

(** *** What every reachable player looks like *)

Lemma Open_reachable (platform : Platform) (Url : string) (Options : IMediaOptions)
    (w : World) :
  holds_after (Open platform Url Options) w reachable_shape.
Proof.
  destruct (Close_eq w) as (w1 & HC & Hcl & _).
  unfold holds_after, Open, SendMetadata. rewrite (bind_Some _ _ _ _ _ HC).
  destruct Hcl as (HR & HS & HU & _ & _ & _ & _ & HF & HT & HT1 & HT2 & HA).
  destruct w1 as [p smp sr n au tx bi tr]. destruct p.
  simpl in HR, HS, HU, HF, HT, HT1, HT2, HA. subst.
  unfold_M. simpl.
  repeat match goal with
    | |- context [notnull ?x] => destruct x; simpl
    | |- context [if ?c then _ else _] => destruct c eqn:?; simpl
    | |- context [let '(_, _) := ?c in _] => destruct c eqn:?; simpl
    end.
  all: unfold reachable_shape, state_has_receiver, selections_in_range,
         selection_in_range, sampler_current; simpl.
  all: repeat split; auto; congruence.
Qed.

Lemma exec_reachable (c : Call) (w : World) :
  reachable_shape w -> holds_after (exec c) w reachable_shape.
Proof.
  destruct c.
  - intros _. pose proof (Open_reachable platform Url Options w) as H.
    unfold holds_after in *. simpl. unfold mbind, M_bind, mret, M_ret.
    by destruct (Open platform Url Options w) as [[? ?]|].
  - intros _. destruct (Close_eq w) as (w1 & HC & Hcl & _).
    unfold holds_after. simpl. rewrite HC.
    destruct Hcl as (HR & HS & HU & _ & _ & _ & _ & HF & HT & HT1 & HT2 & HA).
    reached.
  - reachability w. unfold TickPlayer, CaptureMetadataFrame, UpdateAudioSampler. unfold_M.
    branch. all: reached.
  - reachability w. unfold TickVideo, CaptureVideoFrame, ProcessVideoFrame. unfold_M.
    branch. all: reached.
  - reachability w. unfold SetRate. unfold_M.
    branch. all: reached.
  - reachability w. unfold SetAudioSink, UpdateAudioSampler. unfold_M.
    branch. all: reached.
  - reachability w. unfold SetMetadataSink. unfold_M.
    branch. all: reached.
  - reachability w. unfold SetVideoSink. unfold_M.
    branch. all: reached.
  - reachability w. unfold SelectTrack, UpdateAudioSampler. unfold_M.
    branch. all: reached.
    all: destruct (Z.eqb_spec TrackIndex INDEX_NONE), (Z.eqb_spec TrackIndex 0);
      simpl in *; auto; discriminate.
  - reachability w. unfold HandleAudioSamplerSample, ProcessAudioFrame. unfold_M.
    branch. all: reached.
Qed.

Lemma run_reachable (cs : list Call) (w : World) :
  reachable_shape w -> holds_after (run cs) w reachable_shape.
Proof.
  revert w. induction cs as [|c cs IH]; intros w Hw.
  - exact Hw.
  - pose proof (exec_reachable c w Hw) as H.
    unfold holds_after in *. cbn [run]. unfold mbind, M_bind.
    destruct (exec c w) as [[[] w1]|]; [|done].
    by apply IH.
Qed.

Lemma fresh_reachable (n : N) (audio : gmap ptr A) (texture : gmap ptr V)
    (binary : gmap ptr B) :
  reachable_shape (fresh n audio texture binary).
Proof. reached. Qed.

(** X1.  A player that reports a state other than Closed, and so a player that
    reports the rate 1, holds a receiver instance, whatever calls were made
    on it since its construction. *)
Theorem state_other_than_Closed_has_receiver (cs : list Call) (n : N)
    (audio : gmap ptr A) (texture : gmap ptr V) (binary : gmap ptr B) (w : World) :
  run cs (fresh n audio texture binary) = Some (tt, w) ->
  (GetState (player w) <> EMediaState.Closed ->
   notnull (ReceiverInstance (player w)) = true) /\
  (Qeq_bool (GetRate (player w)) 1 = true ->
   notnull (ReceiverInstance (player w)) = true).
Proof.
  intros Hrun.
  pose proof (run_reachable cs _ (fresh_reachable n audio texture binary)) as H.
  unfold holds_after in H. rewrite Hrun in H. destruct H as (Hst & _).
  split; [exact Hst|].
  intros Hrate. apply Hst. unfold GetRate in Hrate.
  destruct (CurrentState (player w)); try discriminate; by vm_compute in Hrate.
Qed.

(** X2.  The recorded track selections are none or track 0 for each kind,
    whatever indices [SelectTrack] was called with. *)
Theorem track_selections_stay_in_range (cs : list Call) (n : N)
    (audio : gmap ptr A) (texture : gmap ptr V) (binary : gmap ptr B) (w : World) :
  run cs (fresh n audio texture binary) = Some (tt, w) ->
  selections_in_range w.
Proof.
  intros Hrun.
  pose proof (run_reachable cs _ (fresh_reachable n audio texture binary)) as H.
  unfold holds_after in H. rewrite Hrun in H. by destruct H as (_ & H & _).
Qed.

(** X3.  Between calls the sampling activity is disabled or polls the receiver
    instance the player holds: this is so at the end of every call, the
    calls being taken one at a time.  It is not so inside [Close]: the block
    of [Close] under the lock destroys the receiver instance and leaves the
    sampler as it is, and [UpdateAudioSampler] runs only after the lock is
    released; in between, a sampler that was polling still holds the
    destroyed instance. *)
Theorem sampler_is_current_between_calls :
  (forall (cs : list Call) (n : N) (audio : gmap ptr A) (texture : gmap ptr V)
          (binary : gmap ptr B) (w : World),
      run cs (fresh n audio texture binary) = Some (tt, w) ->
      sampler_enabled w = true -> AudioSampler w = ReceiverInstance (player w)) /\
  (forall w : World,
      Close w =
        (Close_locked;; UpdateAudioSampler;;
         emit (Broadcast EMediaEvent.TracksChanged);;
         emit (Broadcast EMediaEvent.MediaClosed)) w) /\
  (forall (w : World) (h : handle),
      ReceiverInstance (player w) = Some h ->
      AudioSampler w = Some h ->
      exists w1,
        Close_locked w = Some (tt, w1) /\
        destroyed (new_events w w1) = [Some h] /\
        ReceiverInstance (player w1) = None /\
        AudioSampler w1 = Some h).
Proof.
  split; [|split].
  - intros cs n audio texture binary w Hrun.
    pose proof (run_reachable cs _ (fresh_reachable n audio texture binary)) as H.
    unfold holds_after in H. rewrite Hrun in H. destruct H as (_ & _ & [H|H] & _).
    + unfold sampler_enabled. by rewrite H.
    + by intros _.
  - intros w. destruct w as [p smp sr n au tx bi tr]. destruct p.
    unfold Close, Close_locked, UpdateAudioSampler. unfold_M. simpl.
    by destruct ReceiverInstance0.
  - intros w h Hr Hs. destruct w as [p smp sr n au tx bi tr]. destruct p.
    simpl in Hr, Hs. subst.
    unfold Close_locked. unfold_M. simpl.
    eexists. split; [reflexivity|]. simpl.
    split; [|by split].
    unfold new_events, new_trace; simpl.
    by rewrite <- ?app_assoc, ?drop_app_length.
Qed.

(** X4.  No call ever stores a frame rate: the video track's frame rate is
    reported as 0 whatever frames have arrived. *)
Theorem video_frame_rate_is_never_observed (cs : list Call) (n : N)
    (audio : gmap ptr A) (texture : gmap ptr V) (binary : gmap ptr B) (w : World)
    (TrackIndex : Z) :
  run cs (fresh n audio texture binary) = Some (tt, w) ->
  GetVideoTrackFrameRate TrackIndex (player w) = 0%Q.
Proof.
  intros Hrun.
  pose proof (run_reachable cs _ (fresh_reachable n audio texture binary)) as H.
  unfold holds_after in H. rewrite Hrun in H. destruct H as (_ & _ & _ & H).
  unfold GetVideoTrackFrameRate. rewrite H. by destruct (_ || _).
Qed.

(** *** Null guards *)

Lemma TickPlayer_safe (DeltaTime : Q) (w : World) :
  bindings_valid w ->
  exists w', TickPlayer DeltaTime w = Some (tt, w') /\ bindings_valid w' /\ same_sinks w w'.
Proof.
  liveness w.
  all: unfold TickPlayer, CaptureMetadataFrame, UpdateAudioSampler; unfold_M.
  all: live_branch.
  all: live_done.
Qed.

Lemma TickVideo_safe (DeltaTime : Q) (w : World) :
  bindings_valid w ->
  exists w', TickVideo DeltaTime w = Some (tt, w') /\ bindings_valid w' /\ same_sinks w w'.
Proof.
  liveness w.
  all: unfold TickVideo, CaptureVideoFrame, ProcessVideoFrame; unfold_M.
  all: live_branch.
  all: live_done.
Qed.

Lemma HandleAudioSamplerSample_safe (AudioFrame : NDIlib_audio_frame_v2_t) (w : World) :
  bindings_valid w ->
  exists w',
    HandleAudioSamplerSample AudioFrame w = Some (tt, w') /\
    bindings_valid w' /\ same_sinks w w'.
Proof.
  liveness w.
  all: unfold HandleAudioSamplerSample, ProcessAudioFrame; unfold_M.
  all: live_branch.
  all: live_done.
Qed.

Lemma SetRate_safe (Rate : Q) (w : World) :
  bindings_valid w ->
  exists r w', SetRate Rate w = Some (r, w') /\ bindings_valid w' /\ same_sinks w w'.
Proof.
  liveness w.
  all: unfold SetRate; unfold_M.
  all: live_branch.
  all: eexists; live_done.
Qed.

Lemma SelectTrack_safe (TrackType : EMediaTrackType.t) (TrackIndex : Z) (w : World) :
  bindings_valid w ->
  exists r w',
    SelectTrack TrackType TrackIndex w = Some (r, w') /\
    bindings_valid w' /\ same_sinks w w'.
Proof.
  liveness w.
  all: unfold SelectTrack, UpdateAudioSampler; unfold_M.
  all: live_branch.
  all: eexists; live_done.
Qed.

Lemma SetAudioSink_safe (Sink : option ptr) (w : World) :
  bindings_valid w ->
  (forall s, Sink = Some s -> is_Some (audio_sinks w !! s)) ->
  exists w', SetAudioSink Sink w = Some (tt, w') /\ bindings_valid w' /\ same_sinks w w'.
Proof.
  liveness w.
  all: intros Hnew; destruct Sink as [new|]; [destruct (Hnew new eq_refl) as [c Hc]|];
    clear Hnew.
  all: try (destruct (decide (sa = new)) as [<-|Hne]).
  all: unfold SetAudioSink, UpdateAudioSampler; unfold_M; simpl.
  all: rewrite ?bool_decide_eq_true_2 by reflexivity.
  all: rewrite ?bool_decide_eq_false_2 by congruence.
  all: live_branch.
  all: live_done.
Qed.

Lemma SetMetadataSink_safe (Sink : option ptr) (w : World) :
  bindings_valid w ->
  (forall s, Sink = Some s -> is_Some (binary_sinks w !! s)) ->
  exists w', SetMetadataSink Sink w = Some (tt, w') /\ bindings_valid w' /\ same_sinks w w'.
Proof.
  liveness w.
  all: intros Hnew; destruct Sink as [new|]; [destruct (Hnew new eq_refl) as [c Hc]|];
    clear Hnew.
  all: try (destruct (decide (sm = new)) as [<-|Hne]).
  all: unfold SetMetadataSink; unfold_M; simpl.
  all: rewrite ?bool_decide_eq_true_2 by reflexivity.
  all: rewrite ?bool_decide_eq_false_2 by congruence.
  all: live_branch.
  all: live_done.
Qed.

Lemma SetVideoSink_safe (Sink : option ptr) (w : World) :
  bindings_valid w ->
  (forall s, Sink = Some s -> is_Some (texture_sinks w !! s)) ->
  exists w', SetVideoSink Sink w = Some (tt, w') /\ bindings_valid w' /\ same_sinks w w'.
Proof.
  liveness w.
  all: intros Hnew; destruct Sink as [new|]; [destruct (Hnew new eq_refl) as [c Hc]|];
    clear Hnew.
  all: try (destruct (decide (sv = new)) as [<-|Hne]).
  all: unfold SetVideoSink; unfold_M; simpl.
  all: rewrite ?bool_decide_eq_true_2 by reflexivity.
  all: rewrite ?bool_decide_eq_false_2 by congruence.
  all: live_branch.
  all: live_done.
Qed.

Lemma Close_safe (w : World) :
  bindings_valid w ->
  exists w', Close w = Some (tt, w') /\ bindings_valid w' /\ same_sinks w w'.
Proof.
  intros Hw.
  destruct (Close_eq w) as (w' & HC & _ & Ha & Hm & Hv & _ & _ & _ & Eau & Etx & Ebi & _).
  exists w'. split; [exact HC|].
  unfold bindings_valid, same_sinks. by rewrite Ha, Hm, Hv, Eau, Etx, Ebi.
Qed.

(** [Open] leaves the sinks alone: the bindings and the sinks themselves. *)
Lemma Open_keeps_sinks (platform : Platform) (Url : string) (Options : IMediaOptions)
    (w : World) :
  exists r w',
    Open platform Url Options w = Some (r, w') /\
    AudioSink (player w') = AudioSink (player w) /\
    MetadataSink (player w') = MetadataSink (player w) /\
    VideoSink (player w') = VideoSink (player w) /\
    Paused (player w') = Paused (player w) /\
    audio_sinks w' = audio_sinks w /\
    texture_sinks w' = texture_sinks w /\
    binary_sinks w' = binary_sinks w.
Proof.
  destruct (Close_eq w) as (w1 & HC & _ & Ha & Hm & Hv & Hp & _ & _ & Eau & Etx & Ebi & _).
  unfold Open, SendMetadata. rewrite (bind_Some _ _ _ _ _ HC).
  rewrite <- Ha, <- Hm, <- Hv, <- Hp, <- Eau, <- Etx, <- Ebi.
  clear HC Ha Hm Hv Hp Eau Etx Ebi.
  destruct w1 as [p smp sr n au tx bi tr]. destruct p.
  unfold_M. simpl.
  repeat match goal with
    | |- context [notnull ?x] => destruct x; simpl
    | |- context [if ?c then _ else _] => destruct c eqn:?; simpl
    | |- context [let '(_, _) := ?c in _] => destruct c eqn:?; simpl
    end.
  all: eexists _, _; split; [reflexivity|]; simpl.
  all: repeat split; reflexivity.
Qed.

Lemma Open_safe (platform : Platform) (Url : string) (Options : IMediaOptions) (w : World) :
  bindings_valid w ->
  exists r w',
    Open platform Url Options w = Some (r, w') /\ bindings_valid w' /\ same_sinks w w'.
Proof.
  intros Hw.
  destruct (Open_keeps_sinks platform Url Options w)
    as (r & w' & HO & Ha & Hm & Hv & _ & Eau & Etx & Ebi).
  exists r, w'. split; [exact HO|].
  unfold bindings_valid, same_sinks. by rewrite Ha, Hm, Hv, Eau, Etx, Ebi.
Qed.

Lemma argument_valid_same_sinks (c : Call) (w w' : World) :
  same_sinks w w' -> argument_valid c w -> argument_valid c w'.
Proof.
  intros (Eau & Etx & Ebi).
  destruct c as [| | | | |[s|]|[s|]|[s|]| |]; simpl; try done.
  all: rewrite <- !elem_of_dom; congruence.
Qed.

Lemma exec_safe (c : Call) (w : World) :
  bindings_valid w -> argument_valid c w ->
  exists w', exec c w = Some (tt, w') /\ bindings_valid w' /\ same_sinks w w'.
Proof.
  intros Hw Hc. destruct c; simpl.
  - destruct (Open_safe platform Url Options w Hw) as (r & w' & HO & H).
    exists w'. unfold mbind, M_bind, mret, M_ret. by rewrite HO.
  - by apply Close_safe.
  - by apply TickPlayer_safe.
  - by apply TickVideo_safe.
  - destruct (SetRate_safe Rate w Hw) as (r & w' & HO & H).
    exists w'. unfold mbind, M_bind, mret, M_ret. by rewrite HO.
  - apply SetAudioSink_safe; [done|]. by intros s ->.
  - apply SetMetadataSink_safe; [done|]. by intros s ->.
  - apply SetVideoSink_safe; [done|]. by intros s ->.
  - destruct (SelectTrack_safe TrackType TrackIndex w Hw) as (r & w' & HO & H).
    exists w'. unfold mbind, M_bind, mret, M_ret. by rewrite HO.
  - by apply HandleAudioSamplerSample_safe.
Qed.

(** X5.  The null guards suffice: as long as the sinks handed to the player are
    live objects, no sequence of calls makes it dereference a null or dangling
    sink or fail the receiver check of [SendMetadata], and the sinks it ends up
    bound to are among those handed to it. *)
Theorem calls_never_crash (cs : list Call) (w : World) :
  bindings_valid w ->
  Forall (fun c => argument_valid c w) cs ->
  exists w', run cs w = Some (tt, w') /\ bindings_valid w' /\ same_sinks w w'.
Proof.
  revert w. induction cs as [|c cs IH]; intros w Hw Hcs.
  - exists w. split; [reflexivity|]. split; [exact Hw|]. by unfold same_sinks.
  - apply Forall_cons in Hcs as [Hc Hcs].
    destruct (exec_safe c w Hw Hc) as (w1 & H1 & Hw1 & Hs1).
    destruct (IH w1 Hw1) as (w' & H' & Hw' & Hs').
    { eapply Forall_impl; [exact Hcs|]. intros c'. by apply argument_valid_same_sinks. }
    exists w'. cbn [run]. rewrite (bind_Some _ _ _ _ _ H1).
    split; [exact H'|]. split; [exact Hw'|].
    destruct Hs1 as (? & ? & ?), Hs' as (? & ? & ?). unfold same_sinks. by repeat split; congruence.
Qed.

(** *** Opening *)

(** Everything a call of [Open] on a well-formed locator does to the outside,
    in order. *)
Lemma Open_events (platform : Platform) (Url : string) (Options : IMediaOptions) (w : World) :
  FString.IsEmpty Url || negb (FString.StartsWith Url "ndi://") = false ->
  let d := RcvCreateDesc platform Url Options in
  let rcv := fst (NDIlib_recv_create_v2 d (ndi_after_Close w)) in
  let SourceStr := snd (MakeSource platform (FString.RightChop 6 Url)) in
  let Custom := FString.TrimTrailing (FString.Trim (CustomMetaData (Settings platform))) in
  let send m := OnNdi (Call_recv_add_connection_metadata rcv (framed platform m)) in
  exists w',
    Open platform Url Options w = Some (notnull rcv, w') /\
    ReceiverInstance (player w') = rcv /\
    VideoSinkFormat (player w') =
      (if color_format d =? NDIlib_recv_color_format_e_BGRX_BGRA
       then EMediaTextureSinkFormat.CharBGRA else EMediaTextureSinkFormat.CharUYVY) /\
    new_events w w' =
      match ReceiverInstance (player w) with
      | Some h => [OnNdi (Call_recv_destroy (Some h))]
      | None => []
      end
      ++ [Broadcast EMediaEvent.TracksChanged; Broadcast EMediaEvent.MediaClosed]
      ++ (if (Int.to_int32 (GetMediaOption_int64 Options NdiMedia.ColorFormatOption 0) =? 0)
             || (Int.to_int32 (GetMediaOption_int64 Options NdiMedia.ColorFormatOption 0) =? 1)
          then []
          else [UE_LOG ELogVerbosity.Warning
                  ("Unsupported ColorFormat option in media source "
                   +:+ FString.RightChop 6 Url +:+ ". Falling back to UYVY.")])
      ++ [OnNdi (Call_recv_create_v2 d)]
      ++ (if notnull rcv then
            [send (ProductMetadata platform)]
            ++ (if negb (FString.IsEmpty (AudioFormatString Options))
                   || negb (FString.IsEmpty (VideoFormatString Options))
                then [send (FormatMetadata Options)] else [])
            ++ (if negb (FString.IsEmpty Custom) then [send Custom] else [])
            ++ [Broadcast EMediaEvent.TracksChanged; Broadcast EMediaEvent.MediaOpened]
          else
            [UE_LOG ELogVerbosity.Error
               ("Failed to open NDI media source " +:+ SourceStr
                +:+ ": couldn't create receiver")]).
Proof.
  intros Hvalid.
  unfold Open, SendMetadata, RcvCreateDesc, framed.
  destruct (MakeSource platform (FString.RightChop 6 Url)) as [Source SourceStr] eqn:Esrc.
  destruct w as [p0 smp0 sr0 n0 au0 tx0 bi0 tr0].
  destruct (Close_eq {| player := p0; AudioSampler := smp0; SamplesReceived := sr0;
                        ndi := n0; audio_sinks := au0; texture_sinks := tx0;
                        binary_sinks := bi0; trace := tr0 |}) as (w1 & HC & _ & _ & _ & _ & _ & _ & _ & _ & _ & _ & Hndi & Htr).
  rewrite (bind_Some _ _ _ _ _ HC). rewrite Hvalid.
  unfold ndi_after_Close. simpl in Hndi, Htr. simpl.
  set (c := Int.to_int32 (GetMediaOption_int64 Options NdiMedia.ColorFormatOption 0)).
  set (n1 := match ReceiverInstance p0 with
             | Some h => NDIlib_recv_destroy (Some h) n0
             | None => n0
             end) in *.
  clearbody n1.
  destruct w1 as [p smp sr n au tx bi tr]. destruct p.
  simpl in Htr, Hndi. subst tr n.
  unfold_M. simpl.
  unfold NDIlib_recv_color_format_e_BGRX_BGRA, NDIlib_recv_color_format_e_UYVY_BGRA.
  destruct (Z.eqb_spec c 0) as [E0|E0]; [|destruct (Z.eqb_spec c 1) as [E1|E1]];
    simpl; rewrite ?E0, ?E1; simpl.
  all: match goal with
       | |- context [NDIlib_recv_create_v2 ?d ?n] =>
           destruct (NDIlib_recv_create_v2 d n) as [[h|] n2]
       end; simpl.
  all: repeat match goal with
         | |- context [if ?c then _ else _] => destruct c eqn:?; simpl
         end.
  all: eexists; (split; [reflexivity|]); simpl.
  all: do 2 (split; [reflexivity|]).
  all: unfold new_events, new_trace; simpl.
  all: rewrite <- ?app_assoc, ?drop_app_length, ?map_app.
  all: destruct (ReceiverInstance p0); reflexivity.
Qed.

Lemma IsEmpty_append (a b : string) :
  FString.IsEmpty (a +:+ b) = FString.IsEmpty a && FString.IsEmpty b.
Proof. by destruct a. Qed.

(** The format descriptor has something to say exactly when some hint other
    than the frame-rate numerator is present. *)
Lemma format_strings_empty (Options : IMediaOptions) :
  negb (FString.IsEmpty (AudioFormatString Options))
  || negb (FString.IsEmpty (VideoFormatString Options))
  = has_format_hint Options.
Proof.
  unfold AudioFormatString, VideoFormatString, has_format_hint.
  destruct (0 <? GetMediaOption_int64 Options NdiMedia.AudioChannelsOption 0);
    destruct (0 <? GetMediaOption_int64 Options NdiMedia.AudioSampleRateOption 0);
    destruct (0 <? GetMediaOption_int64 Options NdiMedia.FrameRateDOption 0);
    destruct (FString.IsEmpty (GetMediaOption_FString Options NdiMedia.ProgressiveOption ""));
    destruct (0 <? GetMediaOption_int64 Options NdiMedia.VideoHeightOption 0);
    destruct (0 <? GetMediaOption_int64 Options NdiMedia.VideoWidthOption 0);
    rewrite ?IsEmpty_append; simpl; rewrite ?andb_false_r; reflexivity.
Qed.

Lemma all_whitespace_Trim (s : string) : all_whitespace (FString.Trim s) = all_whitespace s.
Proof.
  induction s as [|c s IH]; [reflexivity|]. simpl.
  destruct (FString.IsWhitespace c) eqn:E; simpl; [exact IH|]. by rewrite E.
Qed.

Lemma IsEmpty_TrimTrailing (s : string) :
  FString.IsEmpty (FString.TrimTrailing s) = all_whitespace s.
Proof.
  induction s as [|c s IH]; [reflexivity|]. simpl. rewrite <- IH.
  destruct (FString.IsEmpty (FString.TrimTrailing s)), (FString.IsWhitespace c); reflexivity.
Qed.

(** X6.  [Open] on a well-formed locator asks the library for exactly one receiver.
    The descriptor names the locator's remainder as address or as source name,
    carries the bandwidth option cast to the bandwidth enumeration, and
    allows video fields.  The color format option is cast to the 32-bit
    enumeration first: the descriptor asks for BGRX_BGRA when the cast value
    is that of BGRX_BGRA, and for UYVY_BGRA for every other cast value (an
    option of 2 ^ 32 plus the value of BGRX_BGRA counts as BGRX_BGRA).  The
    sink format the player keeps agrees with the color format asked for, and
    the call succeeds exactly when the library hands back a receiver
    instance, which the player then holds. *)
Theorem Open_creates_one_receiver (platform : Platform) (Url : string)
    (Options : IMediaOptions) (w : World) :
  FString.IsEmpty Url || negb (FString.StartsWith Url "ndi://") = false ->
  let d := RcvCreateDesc platform Url Options in
  let rcv := fst (NDIlib_recv_create_v2 d (ndi_after_Close w)) in
  exists w',
    Open platform Url Options w = Some (notnull rcv, w') /\
    created (new_events w w') = [d] /\
    ReceiverInstance (player w') = rcv /\
    VideoSinkFormat (player w') =
      (if color_format d =? NDIlib_recv_color_format_e_BGRX_BGRA
       then EMediaTextureSinkFormat.CharBGRA else EMediaTextureSinkFormat.CharUYVY) /\
    color_format d =
      (if Int.to_int32 (GetMediaOption_int64 Options NdiMedia.ColorFormatOption 0)
          =? NDIlib_recv_color_format_e_BGRX_BGRA
       then NDIlib_recv_color_format_e_BGRX_BGRA
       else NDIlib_recv_color_format_e_UYVY_BGRA).
Proof.
  intros Hvalid d rcv.
  destruct (Open_events platform Url Options w Hvalid) as (w' & HO & HR & HF & HE).
  exists w'. split; [exact HO|]. split; [|by repeat split].
  rewrite HE.
  repeat match goal with |- context [if ?c then _ else _] => destruct c end;
    destruct (ReceiverInstance (player w)); reflexivity.
Qed.

(** X7.  A successful [Open] sends the product descriptor first, then the format
    descriptor if the options give some hint (the frame-rate numerator does
    not count), then the custom payload, trimmed, unless the setting is empty
    or all whitespace: one to three payloads, each framed with its length plus
    one and the default timecode. *)
Theorem Open_sends_metadata (platform : Platform) (Url : string) (Options : IMediaOptions)
    (w w' : World) :
  Open platform Url Options w = Some (true, w') ->
  let Custom := CustomMetaData (Settings platform) in
  metadata_sent (new_events w w') =
    [framed platform (ProductMetadata platform)]
    ++ (if has_format_hint Options then [framed platform (FormatMetadata Options)] else [])
    ++ (if all_whitespace Custom then []
        else [framed platform (FString.TrimTrailing (FString.Trim Custom))]).
Proof.
  intros HO Custom.
  destruct (FString.IsEmpty Url || negb (FString.StartsWith Url "ndi://")) eqn:Hvalid.
  { exfalso. unfold Open in HO.
    destruct (Close_eq w) as (w1 & HC & _). rewrite (bind_Some _ _ _ _ _ HC) in HO.
    rewrite Hvalid in HO. discriminate HO. }
  destruct (Open_events platform Url Options w Hvalid) as (w2 & HO2 & _ & _ & HE).
  rewrite HO in HO2. injection HO2 as Hr <-.
  rewrite HE, <- Hr, format_strings_empty, IsEmpty_TrimTrailing, all_whitespace_Trim.
  fold Custom. simpl.
  destruct (all_whitespace Custom); simpl.
  all: repeat match goal with |- context [if ?c then _ else _] => destruct c end;
    destruct (ReceiverInstance (player w)); reflexivity.
Qed.

(** X8.  When the library hands back no receiver, [Open] returns failure: the
    player holds no receiver instance and no locator, is in state Closed, has
    logged one error, and has sent no metadata and no MediaOpened. *)
Theorem Open_fails_without_receiver (platform : Platform) (Url : string)
    (Options : IMediaOptions) (w : World) :
  FString.IsEmpty Url || negb (FString.StartsWith Url "ndi://") = false ->
  fst (NDIlib_recv_create_v2 (RcvCreateDesc platform Url Options) (ndi_after_Close w))
  = None ->
  exists w',
    Open platform Url Options w = Some (false, w') /\
    ReceiverInstance (player w') = None /\
    CurrentUrl (player w') = EmptyString /\
    CurrentState (player w') = EMediaState.Closed /\
    metadata_sent (new_events w w') = [] /\
    notifications (new_events w w') =
      [EMediaEvent.TracksChanged; EMediaEvent.MediaClosed] /\
    length (List.filter (fun e => match e with
                                  | UE_LOG ELogVerbosity.Error _ => true
                                  | _ => false
                                  end) (new_events w w')) = 1%nat.
Proof.
  intros Hvalid Hnone.
  destruct (Open_events platform Url Options w Hvalid) as (w' & HO & HR & _ & HE).
  destruct (Open_shape platform Url Options w) as (r & w2 & HO2 & _ & HU & _ & _ & _ & HS).
  rewrite HO in HO2. injection HO2 as <- <-.
  rewrite Hnone in *. simpl in *.
  exists w'. split; [exact HO|]. split; [exact HR|]. split; [exact HU|]. split; [exact HS|].
  rewrite HE.
  repeat match goal with |- context [if ?c then _ else _] => destruct c end;
    destruct (ReceiverInstance (player w)); by repeat split.
Qed.

(** X9.  [Open] and the [Close] it starts with leave the sinks alone: no hook of
    any sink is called, the bindings and the sinks stay as they are, and so
    does the pause flag. *)
Theorem Open_calls_no_sink (platform : Platform) (Url : string) (Options : IMediaOptions)
    (w : World) :
  exists r w',
    Open platform Url Options w = Some (r, w') /\
    sink_calls (new_events w w') = [] /\
    AudioSink (player w') = AudioSink (player w) /\
    MetadataSink (player w') = MetadataSink (player w) /\
    VideoSink (player w') = VideoSink (player w) /\
    Paused (player w') = Paused (player w) /\
    audio_sinks w' = audio_sinks w /\
    texture_sinks w' = texture_sinks w /\
    binary_sinks w' = binary_sinks w.
Proof.
  destruct (Open_keeps_sinks platform Url Options w) as (r & w' & HO & H).
  exists r, w'. split; [exact HO|]. split; [|exact H].
  destruct (FString.IsEmpty Url || negb (FString.StartsWith Url "ndi://")) eqn:Hvalid.
  - destruct (Close_eq w) as (w1 & HC & _ & _ & _ & _ & _ & _ & _ & _ & _ & _ & _ & Htr).
    unfold Open in HO. rewrite (bind_Some _ _ _ _ _ HC), Hvalid in HO.
    injection HO as <- <-. rewrite (new_events_app _ _ _ Htr).
    by destruct (ReceiverInstance (player w)).
  - destruct (Open_events platform Url Options w Hvalid) as (w2 & HO2 & _ & _ & HE).
    rewrite HO in HO2. injection HO2 as Hr <-. rewrite HE.
    repeat match goal with |- context [if ?c then _ else _] => destruct c end;
    destruct (ReceiverInstance (player w)); reflexivity.
Qed.

(** *** Closing *)

(** X11.  [Close] always returns.  It destroys the receiver instance if there is
    one, once, and calls nothing else but the two notifications: no sink hook
    in particular.  It resets the locator, the format cache and the track
    selections, and keeps the sink bindings, the pause flag and the video sink
    format. *)
Theorem Close_releases_receiver (w : World) :
  exists w',
    Close w = Some (tt, w') /\
    closed w' /\
    new_events w w' =
      match ReceiverInstance (player w) with
      | Some h => [OnNdi (Call_recv_destroy (Some h))]
      | None => []
      end
      ++ [Broadcast EMediaEvent.TracksChanged; Broadcast EMediaEvent.MediaClosed] /\
    AudioSink (player w') = AudioSink (player w) /\
    MetadataSink (player w') = MetadataSink (player w) /\
    VideoSink (player w') = VideoSink (player w) /\
    Paused (player w') = Paused (player w) /\
    VideoSinkFormat (player w') = VideoSinkFormat (player w).
Proof.
  destruct (Close_eq w)
    as (w' & HC & Hcl & Ha & Hm & Hv & Hp & Hf & _ & _ & _ & _ & _ & Htr).
  exists w'. split; [exact HC|]. split; [exact Hcl|].
  split; [|by repeat split].
  rewrite (new_events_app _ _ _ Htr).
  by destruct (ReceiverInstance (player w)).
Qed.

(** *** Strings *)

Lemma Trim_first (s : string) (c : ascii) :
  first_char (FString.Trim s) = Some c -> FString.IsWhitespace c = false.
Proof.
  induction s as [|a s IH]; [discriminate|]. simpl.
  destruct (FString.IsWhitespace a) eqn:E; [exact IH|].
  simpl. by intros [= <-].
Qed.

Lemma TrimTrailing_last (s : string) (c : ascii) :
  last_char (FString.TrimTrailing s) = Some c -> FString.IsWhitespace c = false.
Proof.
  induction s as [|a s IH]; [discriminate|]. simpl.
  destruct (FString.TrimTrailing s) as [|b t] eqn:Et; simpl.
  - destruct (FString.IsWhitespace a) eqn:E; simpl; [discriminate|]. by intros [= <-].
  - exact IH.
Qed.

Lemma TrimTrailing_first (s : string) :
  FString.IsEmpty (FString.TrimTrailing s) = false ->
  first_char (FString.TrimTrailing s) = first_char s.
Proof.
  destruct s as [|a s]; [discriminate|]. simpl.
  by destruct (FString.IsEmpty (FString.TrimTrailing s) && FString.IsWhitespace a).
Qed.

Lemma Trim_fixed (s : string) :
  (forall c, first_char s = Some c -> FString.IsWhitespace c = false) ->
  FString.Trim s = s.
Proof.
  destruct s as [|a s]; [reflexivity|]. simpl. intros H. by rewrite (H a eq_refl).
Qed.

Lemma TrimTrailing_fixed (s : string) :
  (forall c, last_char s = Some c -> FString.IsWhitespace c = false) ->
  FString.TrimTrailing s = s.
Proof.
  induction s as [|a s IH]; [reflexivity|]. intros H. simpl.
  destruct s as [|b t].
  - simpl. by rewrite (H a eq_refl).
  - rewrite IH by exact H. reflexivity.
Qed.

(** X12.  Trimming as [Open] does it, leading whitespace first and trailing
    whitespace next, leaves nothing exactly of the strings of whitespace;
    what it leaves begins and ends with a character that is no whitespace,
    and trimming again changes nothing. *)
Theorem trimmed_twice (s : string) :
  let t := FString.TrimTrailing (FString.Trim s) in
  FString.IsEmpty t = all_whitespace s /\
  (forall c, first_char t = Some c -> FString.IsWhitespace c = false) /\
  (forall c, last_char t = Some c -> FString.IsWhitespace c = false) /\
  FString.TrimTrailing (FString.Trim t) = t.
Proof.
  intros t.
  assert (Hfirst : forall c, first_char t = Some c -> FString.IsWhitespace c = false).
  { intros c Hc. destruct (FString.IsEmpty t) eqn:Et.
    - destruct t; discriminate.
    - unfold t in Hc. rewrite TrimTrailing_first in Hc by exact Et.
      by apply (Trim_first s). }
  assert (Hlast : forall c, last_char t = Some c -> FString.IsWhitespace c = false).
  { intros c. apply TrimTrailing_last. }
  split; [|split; [exact Hfirst|split; [exact Hlast|]]].
  - unfold t. by rewrite IsEmpty_TrimTrailing, all_whitespace_Trim.
  - rewrite (Trim_fixed t Hfirst). by apply TrimTrailing_fixed.
Qed.

Lemma replace_from_absent (from to s : string) :
  FString.Contains s from = false -> FString.replace_from 0 from to s = s.
Proof.
  induction s as [|c s IH]; [reflexivity|].
  intros H. cbn [FString.Contains] in H. apply orb_false_iff in H as [H1 H2].
  cbn [FString.replace_from]. rewrite H1, andb_false_r. by rewrite IH.
Qed.

Section Source.

Variable platform : Platform.

(** X13.  The local-host alias: a source name that starts with the word localhost
    and a blank, and has neither a colon nor the word again in what follows,
    is looked up under the name of this computer; an address, with its colon,
    is left as it is. *)
Theorem MakeSource_localhost (rest : string) :
  FString.Contains rest ":" = false ->
  FString.Contains (" " +:+ rest) "localhost" = false ->
  MakeSource platform ("localhost " +:+ rest) =
    ({| p_ndi_name := Some (ComputerName platform +:+ " " +:+ rest); p_ip_address := None |},
     ComputerName platform +:+ " " +:+ rest)
  /\ MakeSource platform ("localhost:" +:+ rest) =
       ({| p_ndi_name := None; p_ip_address := Some ("localhost:" +:+ rest) |},
        "localhost:" +:+ rest).
Proof.
  intros Hcolon Hword. split.
  - unfold MakeSource.
    assert (E : FString.Contains ("localhost " +:+ rest) ":" = false).
    { destruct rest; [reflexivity|]. exact Hcolon. }
    rewrite E.
    assert (E2 : FString.StartsWith ("localhost " +:+ rest) "localhost " = true)
      by (by destruct rest).
    rewrite E2. unfold FString.ReplaceInline.
    change (FString.replace_from 0 "localhost" (ComputerName platform)
              ("localhost " +:+ rest))
      with (ComputerName platform
            +:+ FString.replace_from 0 "localhost" (ComputerName platform) (" " +:+ rest)).
    by rewrite (replace_from_absent _ _ _ Hword).
  - by destruct rest.
Qed.

End Source.

(** *** Polling *)

(** X14.  [TickVideo] does nothing at all while the pause flag is set.  Otherwise
    it makes one capture attempt for a video frame, without waiting, on
    whatever receiver instance the player holds, a null one included.  An
    error is logged and nothing else happens; no frame, nothing happens; a
    video frame updates the cached dimensions and is handed back to the
    library exactly once, as the last call, whether the sink took it or a
    failing initialize dropped it. *)
Theorem TickVideo_frees_what_it_captures (DeltaTime : Q) (w : World) :
  bindings_valid w ->
  let receiver := ReceiverInstance (player w) in
  exists w',
    TickVideo DeltaTime w = Some (tt, w') /\
    if Paused (player w) then w' = w
    else
      captures (new_events w w') = [(receiver, CaptureVideo, 0)] /\
      match fst (NDIlib_recv_capture_v2 receiver CaptureVideo 0 (ndi w)) with
      | NDIlib_frame_type_video f =>
          freed_video (new_events w w') = [f] /\
          last (new_events w w') = Some (OnNdi (Call_recv_free_video_v2 receiver f)) /\
          LastVideoDim (player w') = VideoDim f /\
          LastBufferDim (player w') = BufferDim f
      | NDIlib_frame_type_error =>
          new_events w w' =
            [OnNdi (Call_recv_capture_v2 receiver CaptureVideo 0);
             UE_LOG ELogVerbosity.Verbose "Failed to receive video frame"] /\
          player w' = player w
      | _ =>
          new_events w w' = [OnNdi (Call_recv_capture_v2 receiver CaptureVideo 0)] /\
          player w' = player w
      end.
Proof.
  liveness w.
  all: destruct pa.
  all: unfold TickVideo, CaptureVideoFrame, ProcessVideoFrame; unfold_M.
  all: live_branch.
  all: eexists; (split; [reflexivity|]); simpl.
  all: unfold new_events, new_trace; simpl.
  all: rewrite <- ?app_assoc, ?drop_app_length; simpl.
  all: repeat split; reflexivity.
Qed.

(** X15.  [TickPlayer] does nothing at all on a player without receiver instance,
    and polls for metadata only while a metadata sink is bound: then it makes
    one capture attempt for a metadata frame, without waiting.  A metadata
    frame is passed to the sink with its payload, length and timecode and a
    duration of zero, and handed back to the library afterwards; an error is
    logged; anything else is ignored. *)
Theorem TickPlayer_polls_metadata (DeltaTime : Q) (w : World) :
  bindings_valid w ->
  exists w',
    TickPlayer DeltaTime w = Some (tt, w') /\
    match ReceiverInstance (player w), MetadataSink (player w) with
    | None, _ => w' = w
    | Some h, None => polling_events (new_events w w') = []
    | Some h, Some s =>
        let capture := OnNdi (Call_recv_capture_v2 (Some h) CaptureMetadata 0) in
        polling_events (new_events w w') =
          match fst (NDIlib_recv_capture_v2 (Some h) CaptureMetadata 0 (ndi w)) with
          | NDIlib_frame_type_metadata f =>
              [capture;
               OnBinarySink s
                 (Call_ProcessBinarySinkData (metadata_p_data f) (length_ f)
                    (metadata_timecode f) FTimespan_Zero);
               OnNdi (Call_recv_free_metadata (Some h) f)]
          | NDIlib_frame_type_error =>
              [capture; UE_LOG ELogVerbosity.Verbose "Failed to receive metadata frame"]
          | _ => [capture]
          end
    end.
Proof.
  liveness w.
  all: destruct ri as [h|].
  all: unfold TickPlayer, CaptureMetadataFrame, UpdateAudioSampler; unfold_M.
  all: live_branch.
  all: eexists; (split; [reflexivity|]); simpl.
  all: unfold new_events, new_trace; simpl.
  all: rewrite <- ?app_assoc, ?drop_app_length, ?drop_all; simpl.
  all: reflexivity.
Qed.

(** *** Tracks *)

(** X16.  The selected track is always the last of the tracks there are: track 0 of
    one for audio, metadata and video on a player with a receiver instance,
    and none of none otherwise. *)
Theorem GetSelectedTrack_is_last_track (TrackType : EMediaTrackType.t) (p : Player) :
  GetSelectedTrack TrackType p = GetNumTracks TrackType p - 1.
Proof.
  unfold GetSelectedTrack, GetNumTracks.
  by destruct (notnull (ReceiverInstance p)), TrackType.
Qed.

(** X17.  [SelectTrack] succeeds exactly for the indices none and 0 of the audio,
    metadata and video kinds, with or without a receiver instance.  It then
    records the index for that kind; when it fails it changes nothing.  It
    makes no outward call either way. *)
Theorem SelectTrack_accepts (TrackType : EMediaTrackType.t) (TrackIndex : Z) (w : World) :
  let accepted :=
    ((TrackIndex =? INDEX_NONE) || (TrackIndex =? 0))
    && bool_decide (TrackType = EMediaTrackType.Audio \/
                    TrackType = EMediaTrackType.Metadata \/
                    TrackType = EMediaTrackType.Video) in
  exists w',
    SelectTrack TrackType TrackIndex w = Some (accepted, w') /\
    trace w' = trace w /\
    if accepted then recorded_selection TrackType (player w') = Some TrackIndex
    else w' = w.
Proof.
  destruct w as [p smp sr n au tx bi tr]. destruct p.
  unfold SelectTrack, UpdateAudioSampler. unfold_M. simpl.
  destruct (TrackIndex =? INDEX_NONE), (TrackIndex =? 0), TrackType; simpl.
  all: eexists; (split; [reflexivity|]); simpl; by split.
Qed.

(** X18.  The audio format of the last frame is what the track queries report
    while the player holds a receiver instance, whether or not a sink took the
    frame: the frame's channel count and sample rate, each converted to the
    [uint32] the queries return, and so the counts themselves when they are
    not negative.  [Close] forgets the format, and so a player opened again
    reports no audio format until the next frame arrives. *)
Theorem audio_format_is_cached_until_Close (AudioFrame : NDIlib_audio_frame_v2_t)
    (platform : Platform) (Url : string) (Options : IMediaOptions) (w : World) :
  bindings_valid w ->
  exists w1 r w2,
    HandleAudioSamplerSample AudioFrame w = Some (tt, w1) /\
    Open platform Url Options w1 = Some (r, w2) /\
    GetAudioTrackChannels 0 (player w1) =
      (if notnull (ReceiverInstance (player w))
       then Int.to_uint32 (no_channels AudioFrame) else 0) /\
    GetAudioTrackSampleRate 0 (player w1) =
      (if notnull (ReceiverInstance (player w))
       then Int.to_uint32 (sample_rate AudioFrame) else 0) /\
    GetAudioTrackChannels 0 (player w2) = 0 /\
    GetAudioTrackSampleRate 0 (player w2) = 0 /\
    (0 <= no_channels AudioFrame <= Int.INT32_MAX ->
     Int.to_uint32 (no_channels AudioFrame) = no_channels AudioFrame) /\
    (0 <= sample_rate AudioFrame <= Int.INT32_MAX ->
     Int.to_uint32 (sample_rate AudioFrame) = sample_rate AudioFrame).
Proof.
  intros Hw.
  assert (H1 : exists w1,
             HandleAudioSamplerSample AudioFrame w = Some (tt, w1) /\
             LastAudioChannels (player w1) = no_channels AudioFrame /\
             LastAudioSampleRate (player w1) = sample_rate AudioFrame /\
             ReceiverInstance (player w1) = ReceiverInstance (player w)).
  { revert Hw. liveness w.
    all: unfold HandleAudioSamplerSample, ProcessAudioFrame; unfold_M.
    all: live_branch.
    all: eexists; (split; [reflexivity|]); simpl; by repeat split. }
  destruct H1 as (w1 & H1 & Hc & Hr & Hri).
  assert (H2 : exists r w2,
             Open platform Url Options w1 = Some (r, w2) /\
             LastAudioChannels (player w2) = 0 /\ LastAudioSampleRate (player w2) = 0).
  { destruct (Close_eq w1) as (wc & HC & Hcl & _).
    unfold Open, SendMetadata. rewrite (bind_Some _ _ _ _ _ HC).
    destruct Hcl as (_ & _ & _ & Hch & Hsr & _).
    destruct wc as [p smp sr n au tx bi tr]. destruct p.
    simpl in Hch, Hsr. subst.
    unfold_M. simpl.
    repeat match goal with
      | |- context [notnull ?x] => destruct x; simpl
      | |- context [if ?c then _ else _] => destruct c eqn:?; simpl
      | |- context [let '(_, _) := ?c in _] => destruct c eqn:?; simpl
      end.
    all: eexists _, _; split; [reflexivity|]; by split. }
  destruct H2 as (r & w2 & H2 & Hc2 & Hr2).
  exists w1, r, w2. split; [exact H1|]. split; [exact H2|].
  unfold GetAudioTrackChannels, GetAudioTrackSampleRate.
  rewrite Hc, Hr, Hc2, Hr2, Hri.
  assert (Hsmall : forall x, 0 <= x <= Int.INT32_MAX -> Int.to_uint32 x = x).
  { intros x Hx. apply to_uint32_small. unfold Int.INT32_MAX in Hx. lia. }
  repeat split; try (by apply Hsmall).
  all: by destruct (notnull (ReceiverInstance (player w))),
            (negb (notnull (ReceiverInstance (player w2))) || negb (0 =? 0)).
Qed.

(** *** Rates *)

(** X19.  [SetRate] accepts the rates 0 and 1 and no other.  An accepted rate sets
    or clears the pause flag and nothing else: the state and the rate the
    player reports, and the sampler, are as before, and no call is made.  A
    rejected rate changes nothing at all. *)
Theorem SetRate_sets_the_flag_only (Rate : Q) (w : World) :
  let accepted := Qeq_bool Rate 0 || Qeq_bool Rate 1 in
  exists w',
    SetRate Rate w = Some (accepted, w') /\
    GetState (player w') = GetState (player w) /\
    GetRate (player w') = GetRate (player w) /\
    AudioSampler w' = AudioSampler w /\
    trace w' = trace w /\
    if accepted then Paused (player w') = Qeq_bool Rate 0 else w' = w.
Proof.
  destruct w as [p smp sr n au tx bi tr]. destruct p.
  unfold SetRate. unfold_M. simpl.
  destruct (Qeq_bool Rate 0) eqn:E0; simpl.
  - eexists; (split; [reflexivity|]); by repeat split.
  - destruct (Qeq_bool Rate 1); simpl; eexists; (split; [reflexivity|]); by repeat split.
Qed.

(** X20.  An accepted rate takes effect at the next [TickPlayer] of a player with a
    receiver instance and an audio sink: after rate 0 the state is Paused and
    the reported rate 0; after rate 1 the state is Playing and the reported
    rate 1 if the receiver has connections, and Preparing with rate 0 if it
    has none. *)
Theorem SetRate_takes_effect_at_tick (Rate DeltaTime : Q) (w : World) (h : handle) (s : ptr) :
  bindings_valid w ->
  ReceiverInstance (player w) = Some h ->
  AudioSink (player w) = Some s ->
  Qeq_bool Rate 0 || Qeq_bool Rate 1 = true ->
  let connected := 0 <? NDIlib_recv_get_no_connections (Some h) (ndi w) in
  exists w1 w2,
    SetRate Rate w = Some (true, w1) /\
    TickPlayer DeltaTime w1 = Some (tt, w2) /\
    GetState (player w2) =
      (if Qeq_bool Rate 0 then EMediaState.Paused
       else if connected then EMediaState.Playing else EMediaState.Preparing) /\
    GetRate (player w2) = (if negb (Qeq_bool Rate 0) && connected then 1%Q else 0%Q).
Proof.
  intros Hw HR HS Hacc connected. subst connected.
  cut (exists w1,
          SetRate Rate w = Some (true, w1) /\
          exists w2,
            TickPlayer DeltaTime w1 = Some (tt, w2) /\
            GetState (player w2) =
              (if Qeq_bool Rate 0 then EMediaState.Paused
               else if 0 <? NDIlib_recv_get_no_connections (Some h) (ndi w)
                    then EMediaState.Playing else EMediaState.Preparing) /\
            GetRate (player w2) =
              (if negb (Qeq_bool Rate 0)
                  && (0 <? NDIlib_recv_get_no_connections (Some h) (ndi w))
               then 1%Q else 0%Q)).
  { intros (w1 & H1 & w2 & H2). by exists w1, w2. }
  revert Hw HR HS. liveness w.
  all: intros HR HS; simplify_eq.
  all: unfold SetRate; unfold_M; simpl.
  all: destruct (Qeq_bool Rate 0) eqn:E0; simpl;
    [|destruct (Qeq_bool Rate 1) eqn:E1; [|discriminate Hacc]]; simpl.
  all: eexists; (split; [reflexivity|]).
  all: unfold TickPlayer, CaptureMetadataFrame, UpdateAudioSampler; unfold_M.
  all: live_branch.
  all: eexists; (split; [reflexivity|]).
  all: unfold GetState, GetRate; simpl.
  all: repeat match goal with
         | H : bool_decide _ = true |- _ => apply bool_decide_eq_true in H
         | H : bool_decide _ = false |- _ => apply bool_decide_eq_false in H
         end.
  all: try (split; [done|]); try done.
  all: repeat case_bool_decide; try done.
  all: exfalso; congruence.
Qed.

(** *** One receiver at a time *)

(** X10.  Opening a player that is open destroys the receiver instance it holds
    before the library is asked for the new one: the destroy call is the
    first call made, and the only create call comes after it. *)
Theorem Open_destroys_before_it_creates (platform : Platform) (Url : string)
    (Options : IMediaOptions) (w : World) (h : handle) :
  FString.IsEmpty Url || negb (FString.StartsWith Url "ndi://") = false ->
  ReceiverInstance (player w) = Some h ->
  exists r w' before after,
    Open platform Url Options w = Some (r, w') /\
    new_events w w' =
      OnNdi (Call_recv_destroy (Some h)) :: before
      ++ OnNdi (Call_recv_create_v2 (RcvCreateDesc platform Url Options)) :: after /\
    created before = [] /\ destroyed before = [] /\
    created after = [] /\ destroyed after = [].
Proof.
  intros Hvalid HR.
  destruct (Open_events platform Url Options w Hvalid) as (w' & HO & _ & _ & HE).
  rewrite HR in HE.
  match type of HE with
  | _ = _ ++ ?notes ++ ?warning ++ _ ++ ?rest =>
      exists (notnull (fst (NDIlib_recv_create_v2 (RcvCreateDesc platform Url Options)
                              (ndi_after_Close w)))), w', (notes ++ warning), rest
  end.
  split; [exact HO|]. split; [rewrite HE; reflexivity|].
  repeat match goal with |- context [if ?c then _ else _] => destruct c end;
    by repeat split.
Qed.

(** *** Binding a video sink between frames *)

(** X21.  A video sink bound after frames have arrived is initialised with the
    dimensions of the last frame, and so the next frame of these dimensions
    goes to the sink without another initialize call, the sink being one that
    accepts the initialisation and reports what it was initialised with. *)
Theorem bound_sink_starts_with_cached_format (Frame1 Frame2 : NDIlib_video_frame_v2_t)
    (w : World) (s : ptr) (v : V) :
  reports_initialisation ->
  VideoSink (player w) = None ->
  texture_sinks w !! s = Some v ->
  VideoDim Frame1 = VideoDim Frame2 ->
  fst (InitializeTextureSink (VideoDim Frame1) (BufferDim Frame1)
         (VideoSinkFormat (player w)) EMediaTextureSinkMode.Unbuffered v) = true ->
  exists w1 w2 w3,
    ProcessVideoFrame Frame1 w = Some (tt, w1) /\
    SetVideoSink (Some s) w1 = Some (tt, w2) /\
    ProcessVideoFrame Frame2 w2 = Some (tt, w3) /\
    new_events w w3 =
      [OnTextureSink s
         (Call_InitializeTextureSink (VideoDim Frame1) (BufferDim Frame1)
            (VideoSinkFormat (player w)) EMediaTextureSinkMode.Unbuffered);
       OnTextureSink s
         (Call_UpdateTextureSinkBuffer (video_p_data Frame2) (line_stride_in_bytes Frame2));
       OnTextureSink s (Call_DisplayTextureSinkBuffer (video_timecode Frame2))].
Proof.
  intros (Hinit & _ & _) Hnone Hv Hdim Hok.
  destruct w as [p smp sr n au tx bi tr].
  destruct p as [au0 me0 vi0 tk ? ? st ? ? ? ? ? ? pa ri fmt].
  simpl in Hnone, Hv, Hok. subst vi0.
  destruct (InitializeTextureSink (VideoDim Frame1) (BufferDim Frame1) fmt
              EMediaTextureSinkMode.Unbuffered v) as [ok v'] eqn:Ei.
  simpl in Hok. subst ok.
  destruct (Hinit _ _ _ _ _ _ Ei) as [Hf Hd].
  set (w := {| player := _ |}).
  cut (exists w1,
          ProcessVideoFrame Frame1 w = Some (tt, w1) /\
          exists w2,
            SetVideoSink (Some s) w1 = Some (tt, w2) /\
            exists w3,
              ProcessVideoFrame Frame2 w2 = Some (tt, w3) /\
              new_events w w3 =
                [OnTextureSink s
                   (Call_InitializeTextureSink (VideoDim Frame1) (BufferDim Frame1)
                      fmt EMediaTextureSinkMode.Unbuffered);
                 OnTextureSink s
                   (Call_UpdateTextureSinkBuffer (video_p_data Frame2)
                      (line_stride_in_bytes Frame2));
                 OnTextureSink s (Call_DisplayTextureSinkBuffer (video_timecode Frame2))]).
  { intros (w1 & H1 & w2 & H2 & w3 & H3 & H4). by exists w1, w2, w3. }
  subst w.
  eexists. split; [unfold ProcessVideoFrame; unfold_M; simpl; reflexivity|].
  eexists. split.
  { unfold SetVideoSink. unfold_M. simpl.
    fold (VideoDim Frame1) (BufferDim Frame1). rewrite Hv, Ei. simpl. reflexivity. }
  edestruct (ProcessVideoFrame_bound Frame2) as (w3 & l & HP & _ & _ & _ & _ & _ & Htr & Hl);
    [| |exists w3; split; [exact HP|]].
  - reflexivity.
  - simpl. apply lookup_insert_eq.
  - simpl in Htr, Hl.
    assert (Ech : format_changed v' fmt Frame2 = false).
    { unfold format_changed. rewrite Hf, Hd, Hdim. by rewrite !bool_decide_eq_true_2. }
    rewrite Ech in Hl. simpl in Hl.
    unfold new_events, new_trace. rewrite Htr. simpl.
    rewrite <- app_assoc, drop_app_length, map_app, Hl. reflexivity.
Qed.

End Properties.

(** * The properties at work

    Runs of the test doubles: the situations in which the code departs from
    the specification's wording, and instances of the theorems above. *)

Module Runs.

Import Bench.

(** C1: a tick of an opened and connected player without audio sink.  The
    target state is Playing and the current state is Closed, yet the state
    stays Closed and PlaybackResumed is not broadcast. *)
Lemma TickPlayer_without_audio_sink :
  let opened := after (Open platform "ndi://cam" NoOptions) (studio 1) in
  let ticked := opened ≫= after (TickPlayer 0) in
  (notnull ∘ ReceiverInstance ∘ player) <$> opened = Some true /\
  (fun w => TargetState (Paused (player w))
              (NDIlib_recv_get_no_connections (ReceiverInstance (player w)) (ndi w)))
    <$> opened = Some EMediaState.Playing /\
  (CurrentState ∘ player) <$> opened = Some EMediaState.Closed /\
  (CurrentState ∘ player) <$> ticked = Some EMediaState.Closed /\
  (notifications ∘ events) <$> ticked = (notifications ∘ events) <$> opened.
Proof. vm_compute. repeat split. Qed.

(** C2: a successful [Open] broadcasts four notifications, not two. *)
Lemma Open_broadcasts_MediaClosed_first :
  result (Open platform "ndi://cam" NoOptions) (studio 0) = Some true /\
  (notifications ∘ events) <$> after (Open platform "ndi://cam" NoOptions) (studio 0)
  = Some [EMediaEvent.TracksChanged; EMediaEvent.MediaClosed;
          EMediaEvent.TracksChanged; EMediaEvent.MediaOpened] /\
  (notifications ∘ events) <$> after (Open platform "ndi://cam" NoOptions) (studio 0)
  <> Some [EMediaEvent.TracksChanged; EMediaEvent.MediaOpened].
Proof. vm_compute. repeat split. discriminate. Qed.

(** C4: [SetRate] sets the pause flag and leaves the sampler polling; the
    sampling activity is enabled although the rule of the specification says
    it is not. *)
Lemma SetRate_leaves_sampler_enabled :
  let script :=
    [Do_SetAudioSink (Some 1%positive); Do_Open platform "ndi://cam" NoOptions;
     Do_SelectTrack EMediaTrackType.Audio 0; Do_SetRate 0] in
  sampler_enabled <$> after (run script) (studio 1) = Some true /\
  (SamplingRule ∘ player) <$> after (run script) (studio 1) = Some false.
Proof. vm_compute. split; reflexivity. Qed.

(** C5: a frame of 65536 samples on 65537 channels.  The product does not
    fit an [int]: the play hook is handed a byte count of 131072, which is
    not samples times channels times two. *)
Lemma oversized_frame_byte_count :
  exists w' Buffer,
    ProcessAudioFrame oversized_frame (on_air 1) = Some (tt, w') /\
    last (new_events (on_air 1) w') =
      Some (OnAudioSink 1%positive (Call_PlayAudioSink Buffer 131072 5)) /\
    131072 <> no_samples oversized_frame * no_channels oversized_frame * 2.
Proof.
  assert (Hw : bindings_valid (on_air 1)).
  { repeat split; simpl; intros s E; try discriminate E.
    injection E as <-. by eexists. }
  destruct (ProcessAudioFrame_calls oversized_frame (on_air 1) Hw)
    as (w' & HP & _ & _ & (a & Ha & HE)).
  assert (HB : BufferSize oversized_frame = 131072) by (vm_compute; reflexivity).
  rewrite HB in HE.
  set (Buffer := NDIlib_util_audio_to_interleaved_16s_v2 oversized_frame 20) in HE.
  clearbody Buffer.
  vm_compute in Ha. injection Ha as <-.
  exists w', Buffer. split; [exact HP|].
  split; [|vm_compute; discriminate].
  destruct HE as [HE _]. rewrite HE. apply last_snoc.
Qed.

(** C6: two consecutive frames of identical dimensions, on a sink that
    refuses initialisation: the initialize hook is invoked for each. *)
Lemma refused_initialize_is_repeated :
  (count_InitializeTextureSink ∘ events)
    <$> after (ProcessVideoFrame hd_frame;; ProcessVideoFrame hd_frame)
          (with_video_sink 2%positive)
  = Some 2%nat.
Proof. vm_compute. reflexivity. Qed.

(** C7: when the initialize hook of a newly bound video sink runs, the player
    already holds the new binding; for an audio sink it still holds the old
    one. *)
Lemma SetVideoSink_records_binding_first :
  map (fun c => (fst c, VideoSink (snd c)))
    <$> (trace <$> after (SetVideoSink (Some 1%positive)) (studio 0))
  = Some [(OnTextureSink 1%positive
             (Call_InitializeTextureSink ZeroValue ZeroValue
                EMediaTextureSinkFormat.CharUYVY EMediaTextureSinkMode.Unbuffered),
           Some 1%positive)] /\
  map (fun c => (fst c, AudioSink (snd c)))
    <$> (trace <$> after (SetAudioSink (Some 1%positive)) (studio 0))
  = Some [(OnAudioSink 1%positive (Call_InitializeAudioSink 0 0), None)].
Proof. vm_compute. split; reflexivity. Qed.


(** C9: the options give 30000 for the numerator and 1001 for the
    denominator of the frame rate; the payload carries 1001 for both.  With
    the numerator alone, no frame rate field is written at all. *)
Lemma frame_rate_n_reads_denominator_key :
  VideoFormatString NtscOptions
  = (" frame_rate_d=" +:+ dquote +:+ "1001" +:+ dquote
     +:+ " frame_rate_n=" +:+ dquote +:+ "1001" +:+ dquote)%string /\
  VideoFormatString NumeratorOnlyOptions = EmptyString /\
  (omap (fun e => match e with
                  | OnNdi (Call_recv_add_connection_metadata _ f) => Some (metadata_p_data f)
                  | _ => None
                  end) ∘ events)
    <$> after (Open platform "ndi://cam" NtscOptions) (studio 0)
  = Some [ProductMetadata platform; FormatMetadata NtscOptions].
Proof. vm_compute. repeat split. Qed.

(** Every bound sink of the test worlds is in its store. *)
Lemma on_air_valid (n : Z) : bindings_valid (on_air n).
Proof.
  repeat split; simpl; intros s E; try discriminate E.
  injection E as <-. by eexists.
Defined.

Lemma taping_valid : bindings_valid taping.
Proof.
  repeat split; simpl; intros s E; try discriminate E.
  injection E as <-. by eexists.
Defined.

Lemma Texture_reports_initialisation : reports_initialisation (V := Texture).
Proof.
  repeat split; simpl in *; destruct (texture_accepts v); by simplify_eq.
Defined.

(** C1 at work: the first tick of a connected player with an audio sink takes
    it from Closed to Playing, with one PlaybackResumed and one resume call. *)
Lemma TickPlayer_transition_on_air :
  exists w',
    TickPlayer 0 (on_air 1) = Some (tt, w') /\
    CurrentState (player w') = EMediaState.Playing /\
    playback_events (new_events (on_air 1) w') =
      [Broadcast EMediaEvent.PlaybackResumed; OnAudioSink 1%positive Call_ResumeAudioSink].
Proof.
  destruct (TickPlayer_transition 0 (on_air 1) 1%positive (on_air_valid 1) eq_refl)
    as (w' & HT & HS & _ & HE); [vm_compute; discriminate|].
  exists w'. split; [exact HT|]. split; [exact HS|exact HE].
Defined.

(** C3 at work: a locator of another scheme. *)
Lemma Open_rejects_http :
  exists w',
    Open platform "http://cam" NoOptions (studio 1) = Some (false, w') /\
    CurrentState (player w') = EMediaState.Closed /\
    ReceiverInstance (player w') = None /\
    forallb (fun e => negb (is_recv_create e)) (new_events (studio 1) w') = true.
Proof.
  apply (Open_rejects_locator platform "http://cam" NoOptions (studio 1)).
  right. reflexivity.
Defined.

(** C4 at work: a run without [SetRate]. *)
Lemma sampler_follows_rule_on_air :
  let script :=
    [Do_SetAudioSink (Some 1%positive); Do_Open platform "ndi://cam" NoOptions;
     Do_SelectTrack EMediaTrackType.Audio 0; Do_TickPlayer 0] in
  exists w',
    run script (studio 1) = Some (tt, w') /\
    sampler_consistent w' /\
    sampler_enabled w' = notnull (ReceiverInstance (player w')) && SamplingRule (player w').
Proof.
  intros script.
  destruct (run script (studio 1)) as [[[] w']|] eqn:E; [|vm_compute in E; discriminate E].
  exists w'. split; [reflexivity|].
  apply (proj1 (proj2 (proj2 sampler_follows_rule_at_recomputation)) script (studio 1) w');
    [reflexivity|reflexivity|exact E].
Defined.

(** C5 at work: four stereo samples make sixteen bytes, and the tape has
    them with the frame's timecode. *)
Lemma ProcessAudioFrame_forwards_stereo :
  exists w',
    ProcessAudioFrame stereo_frame taping = Some (tt, w') /\
    LastAudioChannels (player w') = 2 /\
    LastAudioSampleRate (player w') = 48000 /\
    new_events taping w' =
      [OnAudioSink 1%positive (Call_InitializeAudioSink 2 48000);
       OnAudioSink 1%positive (Call_PlayAudioSink (repeat 0 8) 16 77)] /\
    audio_sinks w' =
      {[ 1%positive :=
           {| tape_channels := 2; tape_rate := 48000; tape_played := [(16, 77)] |} ]}.
Proof.
  destruct (ProcessAudioFrame_forwards stereo_frame taping taping_valid)
    as (w' & HP & HC & HR & (a & Ha & HE) & HB).
  exists w'. split; [exact HP|]. split; [exact HC|]. split; [exact HR|].
  vm_compute in Ha. injection Ha as <-.
  rewrite HB in HE; [|done|done|vm_compute; discriminate].
  destruct HE as [HE HS]. split; [exact HE|].
  rewrite HS. unfold taping. simpl. rewrite insert_singleton. reflexivity.
Defined.

(** C6 at work: the second of two identical frames needs no initialisation
    on a sink that accepted the first. *)
Lemma second_frame_needs_no_initialize :
  exists w1 w2,
    ProcessVideoFrame hd_frame (with_video_sink 1%positive) = Some (tt, w1) /\
    ProcessVideoFrame hd_frame w1 = Some (tt, w2) /\
    count_InitializeTextureSink (new_events w1 w2) = 0%nat /\
    (count_InitializeTextureSink (new_events (with_video_sink 1%positive) w2) <= 1)%nat.
Proof.
  apply (proj1 (proj2 ProcessVideoFrame_initializes_on_change) hd_frame hd_frame
           (with_video_sink 1%positive) 1%positive (texture true)
           Texture_reports_initialisation); reflexivity.
Defined.

(** C7 at work: binding a video sink on a fresh player. *)
Lemma SetVideoSink_on_fresh_player :
  exists w',
    SetVideoSink (Some 1%positive) (studio 0) = Some (tt, w') /\
    VideoSink (player w') = Some 1%positive /\
    new_trace (studio 0) w' =
      [(OnTextureSink 1%positive
          (Call_InitializeTextureSink ZeroValue ZeroValue
             EMediaTextureSinkFormat.CharUYVY EMediaTextureSinkMode.Unbuffered),
        set_VideoSink (Some 1%positive) FNdiMediaPlayer)].
Proof.
  apply (proj2 (proj2 (proj2 (proj2 (proj2 (sink_binding (Some 1%positive) (studio 0))))))).
  - discriminate.
  - intros s [E|E]; [discriminate E|]. injection E as <-. by eexists.
Defined.


(** C10 at work: the audio track of an opened player. *)
Lemma GetSelectedTrack_on_air :
  GetSelectedTrack EMediaTrackType.Audio (player (on_air 1)) = 0 /\
  exists w',
    SelectTrack EMediaTrackType.Audio INDEX_NONE (on_air 1) = Some (true, w') /\
    SelectedAudioTrack (player w') = INDEX_NONE /\
    ReceiverInstance (player w') = ReceiverInstance (player (on_air 1)) /\
    GetSelectedTrack EMediaTrackType.Audio (player w') = 0.
Proof.
  apply (proj2 (GetSelectedTrack_ignores_selection (on_air 1) EMediaTrackType.Audio)).
  - left. reflexivity.
  - reflexivity.
Defined.

(** ** More of the player at work *)

(** X1 at work.  The session ends playing, with a receiver instance. *)
Lemma session_ends_with_receiver :
  exists w,
    run session (studio 1) = Some (tt, w) /\
    GetState (player w) = EMediaState.Playing /\
    notnull (ReceiverInstance (player w)) = true.
Proof.
  destruct (run session (studio 1)) as [[[] w]|] eqn:E; [|vm_compute in E; discriminate E].
  exists w. split; [reflexivity|].
  assert (HS : GetState (player w) = EMediaState.Playing).
  { vm_compute in E. by injection E as <-. }
  split; [exact HS|].
  apply (proj1 (state_other_than_Closed_has_receiver session _ _ _ _ w E)).
  by rewrite HS.
Defined.

(** X2 at work.  The session's request for video track 7 was refused. *)
Lemma session_selections_in_range :
  exists w, run session (studio 1) = Some (tt, w) /\ selections_in_range w.
Proof.
  destruct (run session (studio 1)) as [[[] w]|] eqn:E; [|vm_compute in E; discriminate E].
  exists w. split; [reflexivity|].
  exact (track_selections_stay_in_range session _ _ _ _ w E).
Defined.

(** X3 at work.  The session ends with the sampler on the session's receiver instance. *)
Lemma session_sampler_is_current :
  exists w,
    run session (studio 1) = Some (tt, w) /\
    AudioSampler w = ReceiverInstance (player w).
Proof.
  destruct (run session (studio 1)) as [[[] w]|] eqn:E; [|vm_compute in E; discriminate E].
  exists w. split; [reflexivity|].
  apply (proj1 sampler_is_current_between_calls session _ _ _ _ w E).
  vm_compute in E. by injection E as <-.
Defined.

(** X4 at work.  The session saw no frame rate. *)
Lemma session_frame_rate :
  exists w,
    run session (studio 1) = Some (tt, w) /\
    GetVideoTrackFrameRate 0 (player w) = 0%Q.
Proof.
  destruct (run session (studio 1)) as [[[] w]|] eqn:E; [|vm_compute in E; discriminate E].
  exists w. split; [reflexivity|].
  exact (video_frame_rate_is_never_observed session _ _ _ _ w 0 E).
Defined.

(** X5 at work.  The session runs to its end. *)
Lemma session_never_crashes :
  exists w',
    run session (studio 1) = Some (tt, w') /\
    bindings_valid w' /\ same_sinks (studio 1) w'.
Proof.
  apply (calls_never_crash session (studio 1)).
  - repeat split; intros s E; discriminate E.
  - repeat constructor. by eexists.
Defined.

Lemma receiving_valid (frames : list NDIlib_frame_type_e) : bindings_valid (receiving frames).
Proof.
  repeat split; simpl; intros s E; injection E as <-; by eexists.
Defined.

(** X6 at work.  Opening the camera from the studio. *)
Lemma Open_creates_one_receiver_for_cam :
  exists w',
    Open platform "ndi://cam" NoOptions (studio 1) = Some (true, w') /\
    created (new_events (studio 1) w') =
      [{| source_to_connect_to := {| p_ndi_name := Some "cam"; p_ip_address := None |};
          color_format := 0; bandwidth := 100; allow_video_fields := true |}] /\
    ReceiverInstance (player w') = Some 1%positive /\
    VideoSinkFormat (player w') = EMediaTextureSinkFormat.CharBGRA.
Proof.
  destruct (Open_creates_one_receiver platform "ndi://cam" NoOptions (studio 1) eq_refl)
    as (w' & HO & HC & HR & HF & _).
  exists w'. repeat split; [exact HO|exact HC|exact HR|exact HF].
Defined.

(** X7 at work.  Opening with frame-rate hints: the product and the format descriptor. *)
Lemma Open_sends_two_payloads :
  exists w',
    Open platform "ndi://cam" NtscOptions (studio 1) = Some (true, w') /\
    metadata_sent (new_events (studio 1) w') =
      [framed platform (ProductMetadata platform);
       framed platform (FormatMetadata NtscOptions)].
Proof.
  destruct (Open platform "ndi://cam" NtscOptions (studio 1)) as [[[] w']|] eqn:E;
    try (vm_compute in E; discriminate E).
  exists w'. split; [reflexivity|].
  exact (Open_sends_metadata platform "ndi://cam" NtscOptions (studio 1) w' E).
Defined.

(** X8 at work.  Opening without network. *)
Lemma Open_fails_offline :
  let w := fresh offline ∅ ∅ ∅ : World in
  exists w',
    Open platform "ndi://cam" NoOptions w = Some (false, w') /\
    ReceiverInstance (player w') = None /\
    CurrentUrl (player w') = EmptyString /\
    CurrentState (player w') = EMediaState.Closed /\
    metadata_sent (new_events w w') = [] /\
    notifications (new_events w w') =
      [EMediaEvent.TracksChanged; EMediaEvent.MediaClosed] /\
    length (List.filter (fun e => match e with
                                  | UE_LOG ELogVerbosity.Error _ => true
                                  | _ => false
                                  end) (new_events w w')) = 1%nat.
Proof.
  exact (Open_fails_without_receiver platform "ndi://cam" NoOptions
           (fresh offline ∅ ∅ ∅) eq_refl eq_refl).
Defined.

(** X12 at work.  A padded payload. *)
Lemma trimmed_padded_payload : FString.IsWhitespace "a"%char = false.
Proof.
  apply (proj1 (proj2 (trimmed_twice "  a b  ")) "a"%char). reflexivity.
Defined.

(** X13 at work.  The camera of this computer. *)
Lemma MakeSource_local_cam :
  MakeSource platform "localhost (cam)" =
    ({| p_ndi_name := Some "WORKSTATION (cam)"; p_ip_address := None |},
     "WORKSTATION (cam)").
Proof.
  exact (proj1 (MakeSource_localhost platform "(cam)" eq_refl eq_refl)).
Defined.

(** X14 at work.  A video frame on a sink that refuses it: dropped, and freed all the same. *)
Lemma TickVideo_frees_dropped_frame :
  exists w',
    TickVideo 0 (receiving [NDIlib_frame_type_video hd_frame]) = Some (tt, w') /\
    freed_video (new_events (receiving [NDIlib_frame_type_video hd_frame]) w') = [hd_frame] /\
    LastVideoDim (player w') = VideoDim hd_frame.
Proof.
  destruct (TickVideo_frees_what_it_captures 0
              (receiving [NDIlib_frame_type_video hd_frame]) (receiving_valid _))
    as (w' & HT & _ & HF & _ & HD & _).
  exists w'. by repeat split.
Defined.

(** X15 at work.  A metadata frame on its way to the sink. *)
Lemma TickPlayer_forwards_note :
  exists w',
    TickPlayer 0 (receiving [NDIlib_frame_type_metadata note]) = Some (tt, w') /\
    polling_events (new_events (receiving [NDIlib_frame_type_metadata note]) w') =
      [OnNdi (Call_recv_capture_v2 (Some 1%positive) CaptureMetadata 0);
       OnBinarySink 1%positive (Call_ProcessBinarySinkData "<tag>" 6 9 0);
       OnNdi (Call_recv_free_metadata (Some 1%positive) note)].
Proof.
  exact (TickPlayer_polls_metadata 0 (receiving [NDIlib_frame_type_metadata note])
           (receiving_valid _)).
Defined.

(** X18 at work.  The audio format across a reopening. *)
Lemma audio_format_on_air :
  exists w1 r w2,
    HandleAudioSamplerSample stereo_frame (on_air 1) = Some (tt, w1) /\
    Open platform "ndi://cam" NoOptions w1 = Some (r, w2) /\
    GetAudioTrackChannels 0 (player w1) = 2 /\
    GetAudioTrackSampleRate 0 (player w1) = 48000 /\
    GetAudioTrackChannels 0 (player w2) = 0 /\
    GetAudioTrackSampleRate 0 (player w2) = 0.
Proof.
  destruct (audio_format_is_cached_until_Close stereo_frame platform "ndi://cam" NoOptions
              (on_air 1) (on_air_valid 1))
    as (w1 & r & w2 & H1 & H2 & Hc & Hr & Hc2 & Hr2 & _).
  exists w1, r, w2. repeat split; [exact H1|exact H2|exact Hc|exact Hr|exact Hc2|exact Hr2].
Defined.

(** X20 at work.  Pausing on air. *)
Lemma SetRate_pauses_on_air :
  exists w1 w2,
    SetRate 0 (on_air 1) = Some (true, w1) /\
    TickPlayer 0 w1 = Some (tt, w2) /\
    GetState (player w2) = EMediaState.Paused /\
    GetRate (player w2) = 0%Q.
Proof.
  exact (SetRate_takes_effect_at_tick 0 0 (on_air 1) 1%positive 1%positive
           (on_air_valid 1) eq_refl eq_refl eq_refl).
Defined.

(** X10 at work.  Reopening on air. *)
Lemma Open_replaces_receiver_on_air :
  exists r w' before after,
    Open platform "ndi://cam" NoOptions (on_air 1) = Some (r, w') /\
    new_events (on_air 1) w' =
      OnNdi (Call_recv_destroy (Some 1%positive)) :: before
      ++ OnNdi (Call_recv_create_v2 (RcvCreateDesc platform "ndi://cam" NoOptions)) :: after /\
    created before = [] /\ destroyed before = [] /\
    created after = [] /\ destroyed after = [].
Proof.
  exact (Open_destroys_before_it_creates platform "ndi://cam" NoOptions (on_air 1)
           1%positive eq_refl eq_refl).
Defined.

(** X21 at work.  Binding the accepting texture between two frames. *)
Lemma texture_bound_between_frames :
  exists w1 w2 w3,
    ProcessVideoFrame hd_frame (studio 0) = Some (tt, w1) /\
    SetVideoSink (Some 1%positive) w1 = Some (tt, w2) /\
    ProcessVideoFrame hd_frame w2 = Some (tt, w3) /\
    new_events (studio 0) w3 =
      [OnTextureSink 1%positive
         (Call_InitializeTextureSink (VideoDim hd_frame) (BufferDim hd_frame)
            EMediaTextureSinkFormat.CharUYVY EMediaTextureSinkMode.Unbuffered);
       OnTextureSink 1%positive (Call_UpdateTextureSinkBuffer [] 3840);
       OnTextureSink 1%positive (Call_DisplayTextureSinkBuffer 42)].
Proof.
  exact (bound_sink_starts_with_cached_format hd_frame hd_frame (studio 0) 1%positive
           (texture true) Texture_reports_initialisation eq_refl eq_refl eq_refl eq_refl).
Defined.

End Runs.
